(** * StockScanner-IN-AU: indicator engine, criteria policies and scan pipeline

    A shallow embedding of the scoring core of the repository:
    - [src/data_fetcher.py], [src/shared/data_fetcher.py]:
      [calculate_technical_indicators], and the loops of
      [batch_fetch_current_data] and [batch_fetch_fundamentals] over what
      the network returned;
    - [src/btst_scanner.py]: [check_btst_criteria], [scan_for_btst];
    - [src/swing_scanner.py] and [src/markets/australia/swing_scanner.py]:
      [check_swing_criteria], [calculate_targets], [scan_for_swing].

    Python floats are idealised as exact rationals extended with the two
    infinities and NaN: comparisons and the special cases of division follow
    IEEE 754 as numpy applies them, rounding error of the binary format is
    not modelled, and the sign of zero is not tracked.  Results of the
    arithmetic are kept in lowest terms.  Exceptions are values of the error
    monad [exc]. *)

From Stdlib Require Import ZArith QArith Qabs List String Ascii Bool Lia Lqa.
From Stdlib Require Import DecimalString Sorted Permutation.
From ExtLib Require Import Structures.Monad Structures.MonadExc Data.Monads.EitherMonad.
Import ListNotations.
Import MonadNotation.
Local Open Scope monad_scope.
Local Open Scope string_scope.
Local Open Scope Z_scope.

(** ** Python exceptions *)

Inductive exn : Type :=
| KeyError (key : string)
| IndexError (msg : string)
| AttributeError (msg : string).

Definition exc : Type -> Type := sum exn.

(** ** Floats *)

Module Float.

Inductive float : Type :=
| Fin (q : Q)
| PInf
| NInf
| NaN.

Definition of_Z (z : Z) : float := Fin (inject_Z z).

Definition Qsgn (q : Q) : Z := Z.sgn (Qnum q).

Definition neg (a : float) : float :=
  match a with
  | Fin q => Fin (- q)
  | PInf => NInf
  | NInf => PInf
  | NaN => NaN
  end.

Definition add (a b : float) : float :=
  match a, b with
  | NaN, _ | _, NaN => NaN
  | Fin x, Fin y => Fin (Qred (x + y))
  | PInf, NInf | NInf, PInf => NaN
  | PInf, _ | _, PInf => PInf
  | NInf, _ | _, NInf => NInf
  end.

Definition sub (a b : float) : float := add a (neg b).

(** An infinity of the sign [s]; [0 * inf] is NaN. *)
Definition signed_inf (s : Z) : float :=
  match s with
  | Z0 => NaN
  | Zpos _ => PInf
  | Zneg _ => NInf
  end.

Definition sgn (a : float) : Z :=
  match a with
  | Fin q => Qsgn q
  | PInf => 1
  | NInf => -1
  | NaN => 0
  end.

Definition mul (a b : float) : float :=
  match a, b with
  | NaN, _ | _, NaN => NaN
  | Fin x, Fin y => Fin (Qred (x * y))
  | _, _ => signed_inf (sgn a * sgn b)
  end.

(** Array division as numpy does it: no exception, [x / 0] is an infinity
    of the sign of [x] and [0 / 0] is NaN. *)
Definition div (a b : float) : float :=
  match a, b with
  | NaN, _ | _, NaN => NaN
  | Fin x, Fin y =>
      if Qeq_bool y 0 then signed_inf (Qsgn x) else Fin (Qred (x / y))
  | Fin _, _ => Fin 0
  | _, Fin y => if Qeq_bool y 0 then a else signed_inf (sgn a * Qsgn y)
  | _, _ => NaN
  end.

(** Comparisons: every comparison with NaN is false. *)
Definition leb (a b : float) : bool :=
  match a, b with
  | NaN, _ | _, NaN => false
  | Fin x, Fin y => Qle_bool x y
  | NInf, _ | _, PInf => true
  | _, _ => false
  end.

Definition ltb (a b : float) : bool :=
  match a, b with
  | NaN, _ | _, NaN => false
  | Fin x, Fin y => negb (Qle_bool y x)
  | PInf, _ | _, NInf => false
  | _, _ => true
  end.

Definition geb (a b : float) : bool := leb b a.
Definition gtb (a b : float) : bool := ltb b a.

Definition is_nan (a : float) : bool :=
  match a with NaN => true | _ => false end.

(** Round-half-to-even of a rational to an integer. *)
Definition round_half_even (q : Q) : Z :=
  let n := Qnum q in
  let d := Zpos (Qden q) in
  let fl := n / d in
  let r := n mod d in
  match 2 * r ?= d with
  | Lt => fl
  | Gt => fl + 1
  | Eq => if Z.even fl then fl else fl + 1
  end.

(** [round(x, ndigits)] on a float; infinities and NaN are returned as they
    are. *)
Definition round (a : float) (ndigits : nat) : float :=
  match a with
  | Fin q =>
      let p := inject_Z (10 ^ Z.of_nat ndigits) in
      Fin (Qred (inject_Z (round_half_even (q * p)) / p))
  | _ => a
  end.

End Float.

Abbreviation float := Float.float.
Abbreviation Fin := Float.Fin.
Abbreviation PInf := Float.PInf.
Abbreviation NInf := Float.NInf.
Abbreviation NaN := Float.NaN.

Declare Scope float_scope.
Delimit Scope float_scope with float.
Bind Scope float_scope with Float.float.
Infix "+" := Float.add : float_scope.
Infix "-" := Float.sub : float_scope.
Infix "*" := Float.mul : float_scope.
Infix "/" := Float.div : float_scope.
Infix "<=?" := Float.leb : float_scope.
Infix "<?" := Float.ltb : float_scope.
Infix ">=?" := Float.geb : float_scope.
Infix ">?" := Float.gtb : float_scope.

(** A decimal literal [n / 10^k]. *)
Definition dec (n : Z) (k : nat) : float :=
  Fin (Qmake n (Pos.of_nat (Nat.pow 10 k))).

(** ** String helpers: [str.join], [str.replace], format specifications *)

Module Str.

Fixpoint join (sep : string) (l : list string) : string :=
  match l with
  | [] => ""
  | [s] => s
  | s :: rest => s ++ sep ++ join sep rest
  end.

Fixpoint list_mem (s : string) (l : list string) : bool :=
  match l with
  | [] => false
  | x :: rest => String.eqb s x || list_mem s rest
  end.

(** [contains sub s]: [sub in s]. *)
Fixpoint contains (sub s : string) : bool :=
  String.prefix sub s ||
  match s with
  | EmptyString => false
  | String _ rest => contains sub rest
  end.

(** [s.replace(old, new)] for a non-empty [old]: non-overlapping occurrences
    are replaced from the left.  [skip] counts the characters of a matched
    occurrence still to be dropped. *)
Fixpoint replace_from (old new : string) (skip : nat) (s : string) : string :=
  match s with
  | EmptyString => EmptyString
  | String c rest =>
      match skip with
      | S k => replace_from old new k rest
      | O =>
          if String.prefix old s
          then new ++ replace_from old new (Nat.pred (String.length old)) rest
          else String c (replace_from old new O rest)
      end
  end.

Definition replace (s old new : string) : string := replace_from old new O s.

Definition of_nat_Z (z : Z) : string :=
  NilZero.string_of_uint (N.to_uint (Z.to_N z)).

Fixpoint zeros (n : nat) : string :=
  match n with
  | O => ""
  | S k => String "0" (zeros k)
  end.

(** [f"{x:.{prec}f}"]. *)
Definition format_f (prec : nat) (x : float) : string :=
  match x with
  | NaN => "nan"
  | PInf => "inf"
  | NInf => "-inf"
  | Fin q =>
      let p := 10 ^ Z.of_nat prec in
      let m := Float.round_half_even (Qabs q * inject_Z p) in
      let ip := of_nat_Z (m / p) in
      let fp := of_nat_Z (m mod p) in
      let sign := if Qle_bool 0 q then "" else "-" in
      match prec with
      | O => sign ++ ip
      | _ => sign ++ ip ++ "." ++ zeros (prec - String.length fp) ++ fp
      end
  end.

(** [repr] of a finite float that is a short decimal, as the literals of
    the configuration are: the fewest decimals (at least one) that give the
    value exactly, at most 17. *)
Fixpoint repr_decimals (fuel k : nat) (q : Q) : nat :=
  match fuel with
  | O => k
  | S fuel' =>
      if Z.eqb ((Qnum q * 10 ^ Z.of_nat k) mod Zpos (Qden q)) 0 then k
      else repr_decimals fuel' (S k) q
  end.

Definition repr (q : Q) : string := format_f (repr_decimals 16 1 q) (Fin q).

End Str.

(** ** Dictionaries, rows and frames *)

(** A Python [dict] with string keys, in insertion order. *)
Definition dict (A : Type) : Type := list (string * A).

Fixpoint dict_get {A : Type} (d : dict A) (k : string) : option A :=
  match d with
  | [] => None
  | (k', v) :: rest => if String.eqb k k' then Some v else dict_get rest k
  end.

Definition dict_keys {A : Type} (d : dict A) : list string := map fst d.

Module Frame.

(** A row of a frame: a [pandas.Series] indexed by the column labels. *)
Definition Series : Type := dict float.

(** [s[k]] *)
Definition item (s : Series) (k : string) : exc float :=
  match dict_get s k with
  | Some v => ret v
  | None => raise (KeyError k)
  end.

(** [s.get(k, default)] *)
Definition get (s : Series) (k : string) (default : float) : float :=
  match dict_get s k with
  | Some v => v
  | None => default
  end.

(** A [pandas.DataFrame] of numeric columns over an index of [index_len]
    rows.  A position that a column list does not reach holds NaN. *)
Record DataFrame : Type := {
  index_len : nat;
  columns : dict (list float)
}.

Definition len (df : DataFrame) : nat := index_len df.

(** [df.empty]: some axis has length 0. *)
Definition empty (df : DataFrame) : bool :=
  Nat.eqb (index_len df) 0 || Nat.eqb (List.length (columns df)) 0.

(** [k in df.columns] *)
Definition has_column (df : DataFrame) (k : string) : bool :=
  match dict_get (columns df) k with
  | Some _ => true
  | None => false
  end.

(** [df.iloc[-k]] for [k >= 1]. *)
Definition iloc_back (df : DataFrame) (k : nat) : exc Series :=
  if Nat.ltb (index_len df) k
  then raise (IndexError "single positional indexer is out-of-bounds")
  else ret (map (fun c => (fst c, nth (index_len df - k) (snd c) NaN))
                (columns df)).

(** [df[k]] *)
Definition column (df : DataFrame) (k : string) : exc (list float) :=
  match dict_get (columns df) k with
  | Some vals => ret (map (fun i => nth i vals NaN) (seq 0 (index_len df)))
  | None => raise (KeyError k)
  end.

Fixpoint dict_set {A : Type} (d : dict A) (k : string) (v : A) : dict A :=
  match d with
  | [] => [(k, v)]
  | (k', v') :: rest =>
      if String.eqb k k' then (k, v) :: rest else (k', v') :: dict_set rest k v
  end.

(** [df[k] = vals] *)
Definition set_column (df : DataFrame) (k : string) (vals : list float)
  : DataFrame :=
  {| index_len := index_len df; columns := dict_set (columns df) k vals |}.

End Frame.

Abbreviation DataFrame := Frame.DataFrame.
Abbreviation Series := Frame.Series.

(** ** Technical indicators: [DataFetcher.calculate_technical_indicators] *)

Module Indicators.

Import Float.
Local Open Scope float_scope.

Record TechnicalParams : Type := {
  ema_short : nat;
  ema_medium : nat;
  sma_long : nat;
  rsi_period : nat;
  macd_fast : nat;
  macd_slow : nat;
  macd_signal : nat;
  volume_lookback : nat
}.

Definition TECHNICAL : TechnicalParams := {|
  ema_short := 20;
  ema_medium := 50;
  sma_long := 200;
  rsi_period := 14;
  macd_fast := 12;
  macd_slow := 26;
  macd_signal := 9;
  volume_lookback := 20
|}.

Definition of_nat (n : nat) : float := of_Z (Z.of_nat n).

Definition zip_with (f : float -> float -> float) (a b : list float)
  : list float :=
  map (fun p => f (fst p) (snd p)) (combine a b).

(** [s.ewm(span=span, adjust=False).mean()] on a series without missing
    values: [y0 = x0], [y(t) = (1 - alpha) * y(t-1) + alpha * x(t)] with
    [alpha = 2 / (span + 1)]. *)
Fixpoint ewm_from (alpha prev : float) (l : list float) : list float :=
  match l with
  | [] => []
  | x :: rest =>
      let y := (of_Z 1 - alpha) * prev + alpha * x in
      y :: ewm_from alpha y rest
  end.

Definition ewm_mean (span : nat) (l : list float) : list float :=
  match l with
  | [] => []
  | x :: rest => x :: ewm_from (of_Z 2 / of_nat (span + 1)) x rest
  end.

(** The trailing window of width [w] that ends at position [i]. *)
Definition window (w i : nat) (l : list float) : list float :=
  skipn (i + 1 - w) (firstn (i + 1) l).

Definition fsum (l : list float) : float := fold_right add (of_Z 0) l.

Definition mean (l : list float) : float := fsum l / of_nat (List.length l).

(** [s.rolling(window=w).mean()]: undefined (NaN) until [w] observations
    exist, and wherever the window holds a NaN. *)
Definition rolling_mean (w : nat) (l : list float) : list float :=
  map (fun i => if Nat.ltb (i + 1) w then NaN else mean (window w i l))
      (seq 0 (List.length l)).

Definition fmax (a b : float) : float := if a <? b then b else a.
Definition fmin (a b : float) : float := if b <? a then b else a.

Definition extremum (pick : float -> float -> float) (l : list float) : float :=
  match l with
  | [] => NaN
  | x :: rest => fold_left pick rest x
  end.

(** [s.rolling(window=w, min_periods=minp).max()] and [.min()]: NaN entries
    of a window are skipped, fewer than [minp] observations give NaN. *)
Definition rolling_extremum (pick : float -> float -> float) (w minp : nat)
  (l : list float) : list float :=
  map (fun i =>
         let obs := filter (fun x => negb (is_nan x)) (window w i l) in
         if Nat.ltb (List.length obs) minp then NaN else extremum pick obs)
      (seq 0 (List.length l)).

(** [s.diff()] *)
Definition diff (l : list float) : list float :=
  match l with
  | [] => []
  | _ :: rest => NaN :: zip_with sub rest l
  end.

(** [s.where(cond, other)] *)
Definition where_ (cond : float -> bool) (other : float) (l : list float)
  : list float :=
  map (fun x => if cond x then x else other) l.

(** The RSI column from the closes. *)
Definition rsi (period : nat) (close : list float) : list float :=
  let delta := diff close in
  let gain := rolling_mean period (where_ (fun d => d >? of_Z 0) (of_Z 0) delta) in
  let loss :=
    rolling_mean period (map neg (where_ (fun d => d <? of_Z 0) (of_Z 0) delta)) in
  let rs := zip_with div gain loss in
  map (fun r => of_Z 100 - (of_Z 100 / (of_Z 1 + r))) rs.

(** The statements of the [try] block, each on the frame as the statements
    before it left it. *)
Definition indicator_steps (tech : TechnicalParams) (market : string)
  : list (DataFrame -> exc DataFrame) :=
  [ (fun df => close <- Frame.column df "Close" ;;
               ret (Frame.set_column df "EMA_20" (ewm_mean (ema_short tech) close)));
    (fun df => close <- Frame.column df "Close" ;;
               ret (Frame.set_column df "EMA_50" (ewm_mean (ema_medium tech) close)));
    (fun df => close <- Frame.column df "Close" ;;
               ret (Frame.set_column df "SMA_200" (rolling_mean (sma_long tech) close)));
    (fun df => close <- Frame.column df "Close" ;;
               ret (Frame.set_column df "RSI" (rsi (rsi_period tech) close)));
    (fun df => close <- Frame.column df "Close" ;;
               let exp1 := ewm_mean (macd_fast tech) close in
               let exp2 := ewm_mean (macd_slow tech) close in
               ret (Frame.set_column df "MACD" (zip_with sub exp1 exp2)));
    (fun df => macd <- Frame.column df "MACD" ;;
               ret (Frame.set_column df "MACD_Signal"
                      (ewm_mean (macd_signal tech) macd)));
    (fun df => macd <- Frame.column df "MACD" ;;
               sig <- Frame.column df "MACD_Signal" ;;
               ret (Frame.set_column df "MACD_Hist" (zip_with sub macd sig)));
    (fun df => volume <- Frame.column df "Volume" ;;
               ret (Frame.set_column df "Volume_Avg_20"
                      (rolling_mean (volume_lookback tech) volume)));
    (fun df => volume <- Frame.column df "Volume" ;;
               avg <- Frame.column df "Volume_Avg_20" ;;
               ret (Frame.set_column df "Volume_Ratio" (zip_with div volume avg)));
    (fun df =>
       if String.eqb market "australia" then
         close <- Frame.column df "Close" ;;
         ret (Frame.set_column df "52W_High"
                (rolling_extremum fmax 252 50 close))
       else ret df);
    (fun df =>
       if String.eqb market "australia" then
         close <- Frame.column df "Close" ;;
         ret (Frame.set_column df "52W_Low"
                (rolling_extremum fmin 252 50 close))
       else ret df);
    (fun df =>
       if String.eqb market "australia" then
         close <- Frame.column df "Close" ;;
         high <- Frame.column df "52W_High" ;;
         ret (Frame.set_column df "52W_High_Proximity"
                (map (fun x => x * of_Z 100) (zip_with div close high)))
       else ret df) ].

(** [try: ... return df / except Exception: return df]: the frame is
    updated in place, so a failing statement leaves the columns assigned
    before it. *)
Fixpoint run_steps (steps : list (DataFrame -> exc DataFrame)) (df : DataFrame)
  : DataFrame :=
  match steps with
  | [] => df
  | st :: rest =>
      match st df with
      | inr df' => run_steps rest df'
      | inl _ => df
      end
  end.

Definition calculate_technical_indicators (tech : TechnicalParams)
  (market : string) (df : option DataFrame) : option DataFrame :=
  match df with
  | None => None
  | Some d =>
      if Frame.empty d then Some d
      else Some (run_steps (indicator_steps tech market) d)
  end.

End Indicators.

(** ** Ranking: [candidates.sort(key=..., reverse=True)] and [candidates[:n]] *)

Section Rank.

Context {A K : Type}.
Variable key : A -> K.
Variable leb : K -> K -> bool.

(** [list.sort] is stable, also with [reverse=True]: an element goes
    before the first one whose key does not exceed its own. *)
Fixpoint insert_desc (x : A) (l : list A) : list A :=
  match l with
  | [] => [x]
  | y :: rest =>
      if leb (key y) (key x) then x :: l else y :: insert_desc x rest
  end.

Definition sort_desc (l : list A) : list A := fold_right insert_desc [] l.

End Rank.

(** [l[:m]]: a negative [m] counts from the end. *)
Definition slice_to {A : Type} (l : list A) (m : Z) : list A :=
  if 0 <=? m then firstn (Z.to_nat m) l
  else firstn (List.length l - Z.to_nat (- m)) l.

(** [for symbol in symbols: try: ... candidates.append(c) ... except
    Exception: continue], where the body either appends one candidate,
    appends nothing, or raises. *)
Definition analyze_each {C : Type} (body : string -> exc (option C))
  (symbols : list string) : list C :=
  fold_left
    (fun candidates symbol =>
       match body symbol with
       | inr (Some c) => (candidates ++ [c])%list
       | inr None => candidates
       | inl _ => candidates
       end)
    symbols [].

(** ** Scan inputs *)

(** The per-symbol dictionary of [batch_fetch_current_data]; the fields the
    scanners read. *)
Module Snapshot.
Record t : Type := {
  symbol : string;
  current_price : float;
  day_change_pct : float;
  high_proximity_pct : float
}.
End Snapshot.

(** A fundamentals dictionary; [None] is a key that is not present. *)
Module Fundamentals.
Record t : Type := {
  market_cap : option float;
  debt_to_equity : option float;
  roe : option float;
  sector : option string
}.
End Fundamentals.

(** [d.get(k, default)] and [d[k]] on a field of a fundamentals dictionary. *)
Definition get_or {A : Type} (field : option A) (default : A) : A :=
  match field with
  | Some v => v
  | None => default
  end.

Definition item_of {A : Type} (field : option A) (k : string) : exc A :=
  match field with
  | Some v => ret v
  | None => raise (KeyError k)
  end.

(** The data-retrieval collaborator: network calls, taken as given. *)
Record DataFetcher : Type := {
  get_symbols : list string;
  batch_fetch_current_data : list string -> dict Snapshot.t;
  batch_fetch_daily_data : list string -> Z -> dict DataFrame;
  batch_fetch_fundamentals : list string -> Z -> dict Fundamentals.t
}.

(** ** BTST scanner: [src/btst_scanner.py] *)

Module BTST.

Import Float.
Local Open Scope float_scope.

Record BTSTCriteria : Type := {
  min_gain_percent : float;
  max_gain_percent : float;
  min_volume_multiplier : float;
  max_results : Z
}.

(** [Config.BTST] *)
Definition Config_BTST : BTSTCriteria := {|
  min_gain_percent := dec 20 1;
  max_gain_percent := dec 35 1;
  min_volume_multiplier := dec 15 1;
  max_results := 10
|}.

Definition BTST_EXCLUDED_SECTORS : list string := ["IT"; "PHARMA"].

Module BTSTCandidate.
Record t : Type := {
  symbol : string;
  current_price : float;
  day_change_pct : float;
  volume_ratio : float;
  high_proximity_pct : float;
  sector : string;
  score : Z;
  reason : string
}.
End BTSTCandidate.

(** Check 1, price gain: points and reason, or the early return. *)
Inductive gain_result : Type :=
| GainAward (points : Z) (reason : string)
| GainReject (reason : string).

Definition gain_check (criteria : BTSTCriteria) (day_change : float)
  : gain_result :=
  if (min_gain_percent criteria <=? day_change)
     && (day_change <=? max_gain_percent criteria)
  then GainAward 30 ("✓ Gain " ++ Str.format_f 1 day_change ++ "% (ideal 2-3%)")
  else if day_change >? max_gain_percent criteria
  then GainAward 15
         ("⚠ Gain " ++ Str.format_f 1 day_change ++ "% (>3%, may be overbought)")
  else GainReject ("✗ Gain " ++ Str.format_f 1 day_change ++ "% (below 2%)").

(** Check 2, volume: the points added and the reasons appended. *)
Definition volume_check (criteria : BTSTCriteria)
  (historical_df : option DataFrame) : exc (Z * list string) :=
  match historical_df with
  | Some df =>
      if negb (Frame.empty df) then
        latest <- Frame.iloc_back df 1 ;;
        if Frame.has_column df "Volume_Ratio" then
          volume_ratio <- Frame.item latest "Volume_Ratio" ;;
          if volume_ratio >=? min_volume_multiplier criteria
          then ret (25%Z, ["✓ Volume " ++ Str.format_f 1 volume_ratio ++ "x average"])
          else ret (10%Z, ["⚠ Volume " ++ Str.format_f 1 volume_ratio
                             ++ "x (below 1.5x)"])
        else ret (0%Z, [])
      else ret (0%Z, [])
  | None => ret (0%Z, [])
  end.

(** Check 3, closing near the day's high. *)
Definition high_check (high_prox : float) : Z * list string :=
  if high_prox >=? of_Z 90
  then (20%Z, ["✓ Closing near high (" ++ Str.format_f 0 high_prox ++ "%)"])
  else if high_prox >=? of_Z 80
  then (15%Z, ["⚠ Near high (" ++ Str.format_f 0 high_prox ++ "%)"])
  else (5%Z, ["⚠ Not near high (" ++ Str.format_f 0 high_prox ++ "%)"]).

(** Check 4, trend confirmation. *)
Definition trend_check (historical_df : option DataFrame)
  : exc (Z * list string) :=
  match historical_df with
  | Some df =>
      if Frame.has_column df "EMA_20" then
        latest <- Frame.iloc_back df 1 ;;
        close <- Frame.item latest "Close" ;;
        ema_20 <- Frame.item latest "EMA_20" ;;
        if close >? ema_20
        then ret (15%Z, ["✓ Above 20 EMA (uptrend)"])
        else ret (5%Z, ["⚠ Below 20 EMA"])
      else ret (0%Z, [])
  | None => ret (0%Z, [])
  end.

(** Check 5, sector. *)
Definition sector_check (fundamentals : Fundamentals.t) : Z * list string :=
  let sector := get_or (Fundamentals.sector fundamentals) "Unknown" in
  if negb (Str.list_mem sector BTST_EXCLUDED_SECTORS)
  then (10%Z, ["✓ Sector: " ++ sector])
  else (0%Z, ["⚠ Excluded sector: " ++ sector]).

Definition check_btst_criteria (criteria : BTSTCriteria)
  (current_data : Snapshot.t) (historical_df : option DataFrame)
  (fundamentals : Fundamentals.t) : exc (bool * Z * string) :=
  let reasons : list string := [] in
  let score := 0%Z in
  let day_change := Snapshot.day_change_pct current_data in
  match gain_check criteria day_change with
  | GainReject r => ret (false, 0%Z, Str.join "; " (reasons ++ [r])%list)
  | GainAward gain_score r =>
      let score := (score + gain_score)%Z in
      let reasons := (reasons ++ [r])%list in
      '(pts, rs) <- volume_check criteria historical_df ;;
      let score := (score + pts)%Z in
      let reasons := (reasons ++ rs)%list in
      let high_prox := Snapshot.high_proximity_pct current_data in
      let '(pts, rs) := high_check high_prox in
      let score := (score + pts)%Z in
      let reasons := (reasons ++ rs)%list in
      '(pts, rs) <- trend_check historical_df ;;
      let score := (score + pts)%Z in
      let reasons := (reasons ++ rs)%list in
      let '(pts, rs) := sector_check fundamentals in
      let score := (score + pts)%Z in
      let reasons := (reasons ++ rs)%list in
      let passes := (score >=? 60)%Z in
      ret (passes, score, Str.join "; " reasons)
  end.

(** The body of the [try] of [scan_for_btst] for one symbol. *)
Definition analyze_symbol (criteria : BTSTCriteria)
  (current_data_dict : dict Snapshot.t) (historical_data_dict : dict DataFrame)
  (fundamentals_dict : dict Fundamentals.t) (symbol : string)
  : exc (option BTSTCandidate.t) :=
  let current_data := dict_get current_data_dict symbol in
  let historical_df := dict_get historical_data_dict symbol in
  let fundamentals :=
    get_or (dict_get fundamentals_dict symbol)
           {| Fundamentals.market_cap := None;
              Fundamentals.debt_to_equity := None;
              Fundamentals.roe := None;
              Fundamentals.sector := Some "Unknown" |} in
  match current_data, historical_df with
  | Some current_data, Some _ =>
      let historical_df :=
        Indicators.calculate_technical_indicators Indicators.TECHNICAL "india"
          historical_df in
      '(passes, score, reason) <-
        check_btst_criteria criteria current_data historical_df fundamentals ;;
      if passes : bool then
        volume_ratio <-
          match historical_df with
          | Some df =>
              if negb (Frame.empty df)
              then latest <- Frame.iloc_back df 1 ;;
                   ret (Frame.get latest "Volume_Ratio" (of_Z 1))
              else ret (of_Z 1)
          | None => raise (AttributeError "empty")
          end ;;
        ret (Some {|
          BTSTCandidate.symbol := Snapshot.symbol current_data;
          BTSTCandidate.current_price := Snapshot.current_price current_data;
          BTSTCandidate.day_change_pct := Snapshot.day_change_pct current_data;
          BTSTCandidate.volume_ratio := volume_ratio;
          BTSTCandidate.high_proximity_pct :=
            Snapshot.high_proximity_pct current_data;
          BTSTCandidate.sector :=
            get_or (Fundamentals.sector fundamentals) "Unknown";
          BTSTCandidate.score := score;
          BTSTCandidate.reason := reason |})
      else ret None
  | _, _ => ret None
  end.

(** Step 2 of [scan_for_btst]: the symbols that meet the minimum gain. *)
Definition filter_symbols (criteria : BTSTCriteria)
  (current_data_dict : dict Snapshot.t) : list string :=
  dict_keys
    (filter (fun kv => Snapshot.day_change_pct (snd kv)
                       >=? min_gain_percent criteria)
            current_data_dict).

Definition scan_for_btst (fetcher : DataFetcher) (criteria : BTSTCriteria)
  (symbols : option (list string)) (max_results : option Z)
  : list BTSTCandidate.t :=
  let symbols := get_or symbols (get_symbols fetcher) in
  let max_results := get_or max_results (BTST.max_results criteria) in
  let current_data_dict := batch_fetch_current_data fetcher symbols in
  let filtered_symbols := filter_symbols criteria current_data_dict in
  match filtered_symbols with
  | [] => []
  | _ =>
      let historical_data_dict :=
        batch_fetch_daily_data fetcher filtered_symbols 50 in
      let fundamentals_dict :=
        batch_fetch_fundamentals fetcher filtered_symbols 50 in
      let candidates :=
        analyze_each
          (analyze_symbol criteria current_data_dict historical_data_dict
             fundamentals_dict)
          filtered_symbols in
      slice_to (sort_desc BTSTCandidate.score Z.leb candidates) max_results
  end.

End BTST.

(** ** India swing scanner: [src/swing_scanner.py] *)

Module Swing.

Import Float.
Local Open Scope float_scope.

Record SwingCriteria : Type := {
  min_market_cap : float;
  max_debt_to_equity : float;
  min_roe : float;
  rsi_min : float;
  rsi_max : float;
  min_volume_multiplier : float;
  max_results : Z
}.

(** [Config.SWING] *)
Definition Config_SWING : SwingCriteria := {|
  min_market_cap := of_Z 5000;
  max_debt_to_equity := dec 5 1;
  min_roe := dec 150 1;
  rsi_min := of_Z 40;
  rsi_max := of_Z 60;
  min_volume_multiplier := dec 12 1;
  max_results := 15
|}.

Definition SWING_PREFERRED_SECTORS : list string :=
  ["DEFENCE"; "CAPITAL GOODS"; "INFRASTRUCTURE"; "PSU BANKS";
   "RENEWABLE ENERGY"].

Module SwingCandidate.
Record t : Type := {
  symbol : string;
  current_price : float;
  market_cap : float;
  sector : string;
  rsi : float;
  macd_signal : string;
  ema_alignment : bool;
  volume_ratio : float;
  debt_to_equity : float;
  roe : float;
  score : Z;
  entry_type : string;
  target : float;
  stop_loss : float;
  reason : string
}.
End SwingCandidate.

(** Check 2, trend alignment. *)
Definition trend_check (close ema_20 ema_50 sma_200 : float) : Z * string :=
  let above_all_ma :=
    (close >? ema_20) && (ema_20 >? ema_50) && (ema_50 >? sma_200) in
  if above_all_ma then (20%Z, "✓ Above all MAs (strong uptrend)")
  else if (close >? ema_20) && (close >? ema_50)
  then (15%Z, "⚠ Above 20/50 EMA (moderate trend)")
  else (5%Z, "⚠ Not in clear uptrend").

(** Check 3, RSI: points, the entry type after the check, reason. *)
Definition rsi_check (criteria : SwingCriteria) (rsi : float)
  (entry_type : string) : Z * string * string :=
  if (rsi_min criteria <=? rsi) && (rsi <=? rsi_max criteria)
  then (20%Z, entry_type, "✓ RSI " ++ Str.format_f 1 rsi ++ " (ideal range)")
  else if (of_Z 30 <? rsi) && (rsi <? of_Z 40)
  then (15%Z, "pullback", "✓ RSI " ++ Str.format_f 1 rsi ++ " (pullback zone)")
  else if rsi >? of_Z 60
  then (5%Z, entry_type,
        "⚠ RSI " ++ Str.format_f 1 rsi ++ " (approaching overbought)")
  else (0%Z, entry_type, "⚠ RSI " ++ Str.format_f 1 rsi).

(** Check 4, MACD: points, the entry type after the check, reasons. *)
Definition macd_check (macd macd_signal macd_hist prev_macd_hist : float)
  (entry_type : string) : Z * string * list string :=
  if (macd >? macd_signal) && (macd_hist >? of_Z 0)
  then (15%Z,
        (if prev_macd_hist <=? of_Z 0 then "macd_cross" else entry_type),
        ["✓ MACD bullish"])
  else if macd >? macd_signal
  then (10%Z, entry_type, ["⚠ MACD neutral"])
  else (0%Z, entry_type, []).

(** Check 5, volume confirmation. *)
Definition volume_check (criteria : SwingCriteria) (volume_ratio : float)
  : Z * string :=
  if volume_ratio >=? min_volume_multiplier criteria
  then (15%Z, "✓ Volume " ++ Str.format_f 1 volume_ratio ++ "x average")
  else (5%Z, "⚠ Volume " ++ Str.format_f 1 volume_ratio ++ "x").

(** Check 6, sector preference. *)
Definition sector_check (sector : string) : Z * string :=
  if Str.list_mem sector SWING_PREFERRED_SECTORS
  then (10%Z, "✓ Preferred sector: " ++ sector)
  else (5%Z, "Sector: " ++ sector).

(** "Detect entry type if not already set". *)
Definition detect_entry_type (entry_type : string) (latest prev : Series)
  (close ema_20 ema_50 volume_ratio : float) : string :=
  if String.eqb entry_type "none" then
    if (close >? Frame.get latest "EMA_20" (of_Z 0) * dec 102 2)
       && (volume_ratio >? dec 15 1)
    then "breakout"
    else if (ema_20 >? ema_50)
            && (Frame.get prev "EMA_20" (of_Z 0)
                <=? Frame.get prev "EMA_50" (of_Z 0))
    then "ma_cross"
    else "trend_follow"
  else entry_type.

Definition check_swing_criteria (criteria : SwingCriteria)
  (historical_df : option DataFrame) (fundamentals : Fundamentals.t)
  : exc (bool * Z * string * string) :=
  match historical_df with
  | None => ret (false, 0%Z, "", "Insufficient data")
  | Some df =>
  if Frame.empty df || Nat.ltb (Frame.len df) 50
  then ret (false, 0%Z, "", "Insufficient data")
  else
  let reasons : list string := [] in
  let score := 0%Z in
  let entry_type := "none" in
  latest <- Frame.iloc_back df 1 ;;
  prev <- Frame.iloc_back df 2 ;;
  let market_cap := get_or (Fundamentals.market_cap fundamentals) (of_Z 0) in
  let debt_to_equity :=
    get_or (Fundamentals.debt_to_equity fundamentals) (of_Z 999) in
  let roe := get_or (Fundamentals.roe fundamentals) (of_Z 0) in
  let sector := get_or (Fundamentals.sector fundamentals) "Unknown" in
  if market_cap <? min_market_cap criteria
  then ret (false, 0%Z, "",
            "Market cap too small: ₹" ++ Str.format_f 0 market_cap ++ " Cr")
  else if debt_to_equity >? max_debt_to_equity criteria
  then ret (false, 0%Z, "", "High debt: " ++ Str.format_f 2 debt_to_equity)
  else if roe <? min_roe criteria
  then ret (false, 0%Z, "", "Low ROE: " ++ Str.format_f 1 roe ++ "%")
  else
  let r :=
    "✓ Fundamentals: MCap ₹" ++ Str.format_f 0 market_cap
    ++ "Cr, D/E " ++ Str.format_f 2 debt_to_equity
    ++ ", ROE " ++ Str.format_f 1 roe ++ "%" in
  let reasons := (reasons ++ [r])%list in
  let score := (score + 20)%Z in
  let ema_20 := Frame.get latest "EMA_20" (of_Z 0) in
  let ema_50 := Frame.get latest "EMA_50" (of_Z 0) in
  let sma_200 := Frame.get latest "SMA_200" (of_Z 0) in
  close <- Frame.item latest "Close" ;;
  let '(pts, r) := trend_check close ema_20 ema_50 sma_200 in
  let score := (score + pts)%Z in
  let reasons := (reasons ++ [r])%list in
  let rsi := Frame.get latest "RSI" (of_Z 50) in
  let '(pts, entry_type, r) := rsi_check criteria rsi entry_type in
  let score := (score + pts)%Z in
  let reasons := (reasons ++ [r])%list in
  let macd := Frame.get latest "MACD" (of_Z 0) in
  let macd_signal := Frame.get latest "MACD_Signal" (of_Z 0) in
  let macd_hist := Frame.get latest "MACD_Hist" (of_Z 0) in
  let prev_macd_hist := Frame.get prev "MACD_Hist" (of_Z 0) in
  let '(pts, entry_type, rs) :=
    macd_check macd macd_signal macd_hist prev_macd_hist entry_type in
  let score := (score + pts)%Z in
  let reasons := (reasons ++ rs)%list in
  let volume_ratio := Frame.get latest "Volume_Ratio" (of_Z 1) in
  let '(pts, r) := volume_check criteria volume_ratio in
  let score := (score + pts)%Z in
  let reasons := (reasons ++ [r])%list in
  let '(pts, r) := sector_check sector in
  let score := (score + pts)%Z in
  let reasons := (reasons ++ [r])%list in
  let entry_type :=
    detect_entry_type entry_type latest prev close ema_20 ema_50 volume_ratio in
  let passes := (score >=? 65)%Z in
  ret (passes, score, entry_type, Str.join "; " reasons)
  end.

Definition calculate_targets (current_price : float) (entry_type : string)
  : exc (float * float) :=
  let '(target, stop_loss) :=
    if String.eqb entry_type "breakout"
    then (current_price * dec 112 2, current_price * dec 95 2)
    else if String.eqb entry_type "pullback"
    then (current_price * dec 110 2, current_price * dec 93 2)
    else (current_price * dec 112 2, current_price * dec 94 2) in
  ret (round target 2, round stop_loss 2).

(** The body of the [try] of [scan_for_swing] for one symbol. *)
Definition analyze_symbol (criteria : SwingCriteria)
  (fundamentals_dict : dict Fundamentals.t)
  (historical_data_dict : dict DataFrame) (symbol : string)
  : exc (option SwingCandidate.t) :=
  let fundamentals := dict_get fundamentals_dict symbol in
  let historical_df := dict_get historical_data_dict symbol in
  match historical_df, fundamentals with
  | Some _, Some fundamentals =>
      let historical_df :=
        Indicators.calculate_technical_indicators Indicators.TECHNICAL "india"
          historical_df in
      '(passes, score, entry_type, reason) <-
        check_swing_criteria criteria historical_df fundamentals ;;
      if passes : bool then
        latest <-
          match historical_df with
          | Some df => Frame.iloc_back df 1
          | None => raise (AttributeError "iloc")
          end ;;
        current_price <- Frame.item latest "Close" ;;
        '(target, stop_loss) <- calculate_targets current_price entry_type ;;
        market_cap <- item_of (Fundamentals.market_cap fundamentals) "market_cap" ;;
        sector <- item_of (Fundamentals.sector fundamentals) "sector" ;;
        debt_to_equity <-
          item_of (Fundamentals.debt_to_equity fundamentals) "debt_to_equity" ;;
        roe <- item_of (Fundamentals.roe fundamentals) "roe" ;;
        ret (Some {|
          SwingCandidate.symbol := Str.replace symbol ".NS" "";
          SwingCandidate.current_price := round current_price 2;
          SwingCandidate.market_cap := market_cap;
          SwingCandidate.sector := sector;
          SwingCandidate.rsi := round (Frame.get latest "RSI" (of_Z 0)) 1;
          SwingCandidate.macd_signal :=
            if Frame.get latest "MACD" (of_Z 0)
               >? Frame.get latest "MACD_Signal" (of_Z 0)
            then "bullish" else "bearish";
          SwingCandidate.ema_alignment :=
            (current_price >? Frame.get latest "EMA_20" (of_Z 0))
            && (Frame.get latest "EMA_20" (of_Z 0)
                >? Frame.get latest "EMA_50" (of_Z 0));
          SwingCandidate.volume_ratio :=
            round (Frame.get latest "Volume_Ratio" (of_Z 1)) 1;
          SwingCandidate.debt_to_equity := debt_to_equity;
          SwingCandidate.roe := roe;
          SwingCandidate.score := score;
          SwingCandidate.entry_type := entry_type;
          SwingCandidate.target := target;
          SwingCandidate.stop_loss := stop_loss;
          SwingCandidate.reason := reason |})
      else ret None
  | _, _ => ret None
  end.

(** Step 2 of [scan_for_swing]: the symbols that pass the fundamental
    filters. *)
Definition filter_symbols (criteria : SwingCriteria)
  (fundamentals_dict : dict Fundamentals.t) : list string :=
  dict_keys
    (filter
       (fun kv =>
          (get_or (Fundamentals.market_cap (snd kv)) (of_Z 0)
           >=? min_market_cap criteria)
          && (get_or (Fundamentals.debt_to_equity (snd kv)) (of_Z 999)
              <=? max_debt_to_equity criteria))
       fundamentals_dict).

Definition scan_for_swing (fetcher : DataFetcher) (criteria : SwingCriteria)
  (symbols : option (list string)) (max_results : option Z)
  : list SwingCandidate.t :=
  let symbols := get_or symbols (get_symbols fetcher) in
  let max_results := get_or max_results (Swing.max_results criteria) in
  let fundamentals_dict := batch_fetch_fundamentals fetcher symbols 50 in
  let filtered_symbols := filter_symbols criteria fundamentals_dict in
  match filtered_symbols with
  | [] => []
  | _ =>
      let historical_data_dict :=
        batch_fetch_daily_data fetcher filtered_symbols 100 in
      let candidates :=
        analyze_each
          (analyze_symbol criteria fundamentals_dict historical_data_dict)
          filtered_symbols in
      slice_to (sort_desc SwingCandidate.score Z.leb candidates) max_results
  end.

End Swing.

(** ** Australia swing scanner: [src/markets/australia/swing_scanner.py] *)

Module AustraliaSwing.

Import Float.
Local Open Scope float_scope.

Record AustraliaSwingCriteria : Type := {
  min_market_cap : float;
  max_debt_to_equity : float;
  min_roe : float;
  rsi_min : float;
  rsi_max : float;
  min_52w_high_proximity : float;
  max_52w_high_proximity : float;
  min_volume_ratio : float;
  max_results : Z;
  sector_weights : dict Q
}.

(** [AustraliaConfig.SWING] *)
Definition Config_SWING : AustraliaSwingCriteria := {|
  min_market_cap := of_Z 50000;
  max_debt_to_equity := of_Z 1;
  min_roe := of_Z 10;
  rsi_min := of_Z 35;
  rsi_max := of_Z 65;
  min_52w_high_proximity := of_Z 85;
  max_52w_high_proximity := of_Z 98;
  min_volume_ratio := dec 12 1;
  max_results := 15;
  sector_weights :=
    [("Materials", 12 # 10); ("Energy", 115 # 100); ("Financials", 1 # 1);
     ("Consumer Discretionary", 1 # 1); ("Industrials", 1 # 1);
     ("Information Technology", 8 # 10); ("Health Care", 9 # 10);
     ("Communication Services", 85 # 100); ("Consumer Staples", 95 # 100);
     ("Utilities", 9 # 10); ("Real Estate", 85 # 100)]%Q
|}.

Module AustraliaSwingCandidate.
Record t : Type := {
  symbol : string;
  current_price : float;
  market_cap : float;
  sector : string;
  rsi : float;
  macd_signal : string;
  ema_alignment : bool;
  volume_ratio : float;
  debt_to_equity : float;
  roe : float;
  week_52_high_proximity : float;
  score : Q;
  sector_weight : Q;
  entry_type : string;
  target : float;
  stop_loss : float;
  reason : string
}.
End AustraliaSwingCandidate.

(** Check 2, trend alignment. *)
Definition trend_check (close ema_20 ema_50 sma_200 : float) : Z * string :=
  let above_all_ma :=
    (close >? ema_20) && (ema_20 >? ema_50) && (ema_50 >? sma_200) in
  if above_all_ma then (20%Z, "Above all MAs (strong uptrend)")
  else if (close >? ema_20) && (close >? ema_50)
  then (15%Z, "Above 20/50 EMA (moderate trend)")
  else (5%Z, "Not in clear uptrend").

(** Check 3, RSI: points, the entry type after the check, reason. *)
Definition rsi_check (criteria : AustraliaSwingCriteria) (rsi : float)
  (entry_type : string) : Z * string * string :=
  if (rsi_min criteria <=? rsi) && (rsi <=? rsi_max criteria)
  then (20%Z, entry_type, "RSI " ++ Str.format_f 1 rsi ++ " (ideal range)")
  else if (of_Z 30 <? rsi) && (rsi <? of_Z 35)
  then (15%Z, "pullback", "RSI " ++ Str.format_f 1 rsi ++ " (pullback zone)")
  else if rsi >? of_Z 65
  then (5%Z, entry_type,
        "RSI " ++ Str.format_f 1 rsi ++ " (approaching overbought)")
  else (0%Z, entry_type, "RSI " ++ Str.format_f 1 rsi).

(** Check 4, proximity to the 52-week high. *)
Definition week_52_check (criteria : AustraliaSwingCriteria)
  (week_52_high_prox : float) : Z * string :=
  if (min_52w_high_proximity criteria <=? week_52_high_prox)
     && (week_52_high_prox <=? max_52w_high_proximity criteria)
  then (15%Z, "Near 52W high (" ++ Str.format_f 1 week_52_high_prox ++ "%)")
  else if week_52_high_prox >? max_52w_high_proximity criteria
  then (8%Z, "At 52W high (" ++ Str.format_f 1 week_52_high_prox ++ "%)")
  else (5%Z, "52W high prox: " ++ Str.format_f 1 week_52_high_prox ++ "%").

(** Check 5, MACD: points, the entry type after the check, reasons. *)
Definition macd_check (macd macd_signal_val macd_hist prev_macd_hist : float)
  (entry_type : string) : Z * string * list string :=
  if (macd >? macd_signal_val) && (macd_hist >? of_Z 0)
  then (15%Z,
        (if prev_macd_hist <=? of_Z 0 then "macd_cross" else entry_type),
        ["MACD bullish"])
  else if macd >? macd_signal_val
  then (10%Z, entry_type, ["MACD neutral"])
  else (0%Z, entry_type, []).

(** Check 6, volume confirmation. *)
Definition volume_check (criteria : AustraliaSwingCriteria)
  (volume_ratio : float) : Z * string :=
  if volume_ratio >=? min_volume_ratio criteria
  then (10%Z, "Volume " ++ Str.format_f 1 volume_ratio ++ "x average")
  else (5%Z, "Volume " ++ Str.format_f 1 volume_ratio ++ "x").

(** Step 7, the sector weight and its reason. *)
Definition sector_weight_of (criteria : AustraliaSwingCriteria)
  (sector : string) : Q * string :=
  let sector_weight := get_or (dict_get (sector_weights criteria) sector) 1%Q in
  if negb (Qle_bool sector_weight 1)
  then (sector_weight,
        "Sector: " ++ sector ++ " (weight: " ++ Str.repr sector_weight ++ "x)")
  else (sector_weight, "Sector: " ++ sector).

(** "Detect entry type if not already set". *)
Definition detect_entry_type (entry_type : string) (latest prev : Series)
  (close ema_20 ema_50 volume_ratio : float) : string :=
  if String.eqb entry_type "none" then
    if (close >? Frame.get latest "EMA_20" (of_Z 0) * dec 102 2)
       && (volume_ratio >? dec 15 1)
    then "breakout"
    else if (ema_20 >? ema_50)
            && (Frame.get prev "EMA_20" (of_Z 0)
                <=? Frame.get prev "EMA_50" (of_Z 0))
    then "ma_cross"
    else "trend_follow"
  else entry_type.

Definition check_swing_criteria (criteria : AustraliaSwingCriteria)
  (historical_df : option DataFrame) (fundamentals : Fundamentals.t)
  : exc (bool * Q * string * string * Q) :=
  match historical_df with
  | None => ret (false, 0%Q, "", "Insufficient data", 1%Q)
  | Some df =>
  if Frame.empty df || Nat.ltb (Frame.len df) 50
  then ret (false, 0%Q, "", "Insufficient data", 1%Q)
  else
  let reasons : list string := [] in
  let score := 0%Z in
  let entry_type := "none" in
  latest <- Frame.iloc_back df 1 ;;
  prev <- Frame.iloc_back df 2 ;;
  let market_cap := get_or (Fundamentals.market_cap fundamentals) (of_Z 0) in
  let debt_to_equity :=
    get_or (Fundamentals.debt_to_equity fundamentals) (of_Z 999) in
  let roe := get_or (Fundamentals.roe fundamentals) (of_Z 0) in
  let sector := get_or (Fundamentals.sector fundamentals) "Unknown" in
  if market_cap <? min_market_cap criteria
  then ret (false, 0%Q, "",
            "Market cap too small: A$" ++ Str.format_f 0 market_cap ++ " lakhs",
            1%Q)
  else if debt_to_equity >? max_debt_to_equity criteria
  then ret (false, 0%Q, "", "High debt: " ++ Str.format_f 2 debt_to_equity, 1%Q)
  else if roe <? min_roe criteria
  then ret (false, 0%Q, "", "Low ROE: " ++ Str.format_f 1 roe ++ "%", 1%Q)
  else
  let r :=
    "Fundamentals: MCap A$" ++ Str.format_f 0 market_cap
    ++ "L, D/E " ++ Str.format_f 2 debt_to_equity
    ++ ", ROE " ++ Str.format_f 1 roe ++ "%" in
  let reasons := (reasons ++ [r])%list in
  let score := (score + 15)%Z in
  let ema_20 := Frame.get latest "EMA_20" (of_Z 0) in
  let ema_50 := Frame.get latest "EMA_50" (of_Z 0) in
  let sma_200 := Frame.get latest "SMA_200" (of_Z 0) in
  close <- Frame.item latest "Close" ;;
  let '(pts, r) := trend_check close ema_20 ema_50 sma_200 in
  let score := (score + pts)%Z in
  let reasons := (reasons ++ [r])%list in
  let rsi := Frame.get latest "RSI" (of_Z 50) in
  let '(pts, entry_type, r) := rsi_check criteria rsi entry_type in
  let score := (score + pts)%Z in
  let reasons := (reasons ++ [r])%list in
  let week_52_high_prox := Frame.get latest "52W_High_Proximity" (of_Z 0) in
  let '(pts, r) := week_52_check criteria week_52_high_prox in
  let score := (score + pts)%Z in
  let reasons := (reasons ++ [r])%list in
  let macd := Frame.get latest "MACD" (of_Z 0) in
  let macd_signal_val := Frame.get latest "MACD_Signal" (of_Z 0) in
  let macd_hist := Frame.get latest "MACD_Hist" (of_Z 0) in
  let prev_macd_hist := Frame.get prev "MACD_Hist" (of_Z 0) in
  let '(pts, entry_type, rs) :=
    macd_check macd macd_signal_val macd_hist prev_macd_hist entry_type in
  let score := (score + pts)%Z in
  let reasons := (reasons ++ rs)%list in
  let volume_ratio := Frame.get latest "Volume_Ratio" (of_Z 1) in
  let '(pts, r) := volume_check criteria volume_ratio in
  let score := (score + pts)%Z in
  let reasons := (reasons ++ [r])%list in
  let '(sector_weight, r) := sector_weight_of criteria sector in
  let reasons := (reasons ++ [r])%list in
  let entry_type :=
    detect_entry_type entry_type latest prev close ema_20 ema_50 volume_ratio in
  let weighted_score := (inject_Z score * sector_weight)%Q in
  let passes := (score >=? 60)%Z in
  ret (passes, weighted_score, entry_type, Str.join "; " reasons, sector_weight)
  end.

Definition calculate_targets (current_price : float) (entry_type : string)
  : exc (float * float) :=
  let '(target, stop_loss) :=
    if String.eqb entry_type "breakout"
    then (current_price * dec 115 2, current_price * dec 95 2)
    else if String.eqb entry_type "pullback"
    then (current_price * dec 112 2, current_price * dec 93 2)
    else (current_price * dec 115 2, current_price * dec 94 2) in
  ret (round target 2, round stop_loss 2).

(** The body of the [try] of [scan_for_swing] for one symbol. *)
Definition analyze_symbol (criteria : AustraliaSwingCriteria)
  (fundamentals_dict : dict Fundamentals.t)
  (historical_data_dict : dict DataFrame) (symbol : string)
  : exc (option AustraliaSwingCandidate.t) :=
  let fundamentals := dict_get fundamentals_dict symbol in
  let historical_df := dict_get historical_data_dict symbol in
  match historical_df, fundamentals with
  | Some _, Some fundamentals =>
      let historical_df :=
        Indicators.calculate_technical_indicators Indicators.TECHNICAL
          "australia" historical_df in
      '(passes, score, entry_type, reason, sector_weight) <-
        check_swing_criteria criteria historical_df fundamentals ;;
      if passes : bool then
        latest <-
          match historical_df with
          | Some df => Frame.iloc_back df 1
          | None => raise (AttributeError "iloc")
          end ;;
        current_price <- Frame.item latest "Close" ;;
        '(target, stop_loss) <- calculate_targets current_price entry_type ;;
        market_cap <- item_of (Fundamentals.market_cap fundamentals) "market_cap" ;;
        sector <- item_of (Fundamentals.sector fundamentals) "sector" ;;
        debt_to_equity <-
          item_of (Fundamentals.debt_to_equity fundamentals) "debt_to_equity" ;;
        roe <- item_of (Fundamentals.roe fundamentals) "roe" ;;
        ret (Some {|
          AustraliaSwingCandidate.symbol := Str.replace symbol ".AX" "";
          AustraliaSwingCandidate.current_price := round current_price 2;
          AustraliaSwingCandidate.market_cap := market_cap;
          AustraliaSwingCandidate.sector := sector;
          AustraliaSwingCandidate.rsi :=
            round (Frame.get latest "RSI" (of_Z 0)) 1;
          AustraliaSwingCandidate.macd_signal :=
            if Frame.get latest "MACD" (of_Z 0)
               >? Frame.get latest "MACD_Signal" (of_Z 0)
            then "bullish" else "bearish";
          AustraliaSwingCandidate.ema_alignment :=
            (current_price >? Frame.get latest "EMA_20" (of_Z 0))
            && (Frame.get latest "EMA_20" (of_Z 0)
                >? Frame.get latest "EMA_50" (of_Z 0));
          AustraliaSwingCandidate.volume_ratio :=
            round (Frame.get latest "Volume_Ratio" (of_Z 1)) 1;
          AustraliaSwingCandidate.debt_to_equity := debt_to_equity;
          AustraliaSwingCandidate.roe := roe;
          AustraliaSwingCandidate.week_52_high_proximity :=
            round (Frame.get latest "52W_High_Proximity" (of_Z 0)) 1;
          AustraliaSwingCandidate.score := score;
          AustraliaSwingCandidate.sector_weight := sector_weight;
          AustraliaSwingCandidate.entry_type := entry_type;
          AustraliaSwingCandidate.target := target;
          AustraliaSwingCandidate.stop_loss := stop_loss;
          AustraliaSwingCandidate.reason := reason |})
      else ret None
  | _, _ => ret None
  end.

(** Step 2 of [scan_for_swing]: the symbols that pass the fundamental
    filters. *)
Definition filter_symbols (criteria : AustraliaSwingCriteria)
  (fundamentals_dict : dict Fundamentals.t) : list string :=
  dict_keys
    (filter
       (fun kv =>
          (get_or (Fundamentals.market_cap (snd kv)) (of_Z 0)
           >=? min_market_cap criteria)
          && (get_or (Fundamentals.debt_to_equity (snd kv)) (of_Z 999)
              <=? max_debt_to_equity criteria))
       fundamentals_dict).

Definition scan_for_swing (fetcher : DataFetcher)
  (criteria : AustraliaSwingCriteria) (symbols : option (list string))
  (max_results : option Z) : list AustraliaSwingCandidate.t :=
  let symbols := get_or symbols (get_symbols fetcher) in
  let max_results := get_or max_results (AustraliaSwing.max_results criteria) in
  let fundamentals_dict := batch_fetch_fundamentals fetcher symbols 50 in
  let filtered_symbols := filter_symbols criteria fundamentals_dict in
  match filtered_symbols with
  | [] => []
  | _ =>
      let historical_data_dict :=
        batch_fetch_daily_data fetcher filtered_symbols 300 in
      let candidates :=
        analyze_each
          (analyze_symbol criteria fundamentals_dict historical_data_dict)
          filtered_symbols in
      slice_to (sort_desc AustraliaSwingCandidate.score Qle_bool candidates)
               max_results
  end.

End AustraliaSwing.

(** ** Batch retrieval: [src/shared/data_fetcher.py], [src/data_fetcher.py] *)

Module Fetcher.

Import Float.
Local Open Scope float_scope.

(** The exceptions that the inner [except (KeyError, AttributeError,
    IndexError)] of [batch_fetch_current_data] does not catch. *)
Inductive escape : Type :=
| ValueError (msg : string)
| OverflowError (msg : string).

(** [int(x)] on a float: truncation towards zero. *)
Definition int_of (x : float) : sum escape Z :=
  match x with
  | Fin q => inr (Z.quot (Qnum q) (Zpos (Qden q)))
  | NaN => inl (ValueError "cannot convert float NaN to integer")
  | _ => inl (OverflowError "cannot convert float infinity to integer")
  end.

(** [a != b]: true whenever an operand is NaN. *)
Definition neqb (a b : float) : bool :=
  match a, b with
  | Fin x, Fin y => negb (Qeq_bool x y)
  | PInf, PInf | NInf, NInf => false
  | _, _ => true
  end.

(** What the body of the inner [try] does for one symbol: it stores a
    snapshot, or goes on to the next symbol (an empty frame, or an exception
    that the inner [except] catches), or raises past the inner [except]. *)
Inductive row_result : Type :=
| Row (snapshot : Snapshot.t)
| Skipped
| Escaped (e : escape).

(** The values read from the frame of one symbol, up to the volume. *)
Definition read_row (symbol_df : DataFrame)
  : exc (float * float * float * float) :=
  latest <- Frame.iloc_back symbol_df 1 ;;
  prev_close <-
    (if Nat.leb 2 (Frame.len symbol_df)
     then prev <- Frame.iloc_back symbol_df 2 ;; Frame.item prev "Close"
     else Frame.item latest "Open") ;;
  current_price <- Frame.item latest "Close" ;;
  let day_change_pct :=
    ((current_price - prev_close) / prev_close) * of_Z 100 in
  high <- Frame.item latest "High" ;;
  low <- Frame.item latest "Low" ;;
  let high_proximity :=
    if neqb high low
    then ((current_price - low) / (high - low)) * of_Z 100
    else of_Z 0 in
  _ <- Frame.item latest "Open" ;;
  volume <- Frame.item latest "Volume" ;;
  ret (current_price, day_change_pct, high_proximity, volume).

Definition current_row (suffix symbol : string) (symbol_df : exc DataFrame)
  : row_result :=
  match symbol_df with
  | inl _ => Skipped
  | inr d =>
      if Frame.empty d || Nat.ltb (Frame.len d) 1 then Skipped
      else
        match read_row d with
        | inl _ => Skipped
        | inr (current_price, day_change_pct, high_proximity, volume) =>
            match int_of volume with
            | inl e => Escaped e
            | inr _ =>
                Row {| Snapshot.symbol := Str.replace symbol suffix "";
                       Snapshot.current_price := round current_price 2;
                       Snapshot.day_change_pct := round day_change_pct 2;
                       Snapshot.high_proximity_pct := round high_proximity 2 |}
            end
        end
  end.

(** The loop over the symbols; [None] when an exception escapes it. *)
Fixpoint current_rows (suffix : string) (download : string -> exc DataFrame)
  (symbols : list string) (results : dict Snapshot.t)
  : option (dict Snapshot.t) :=
  match symbols with
  | [] => Some results
  | symbol :: rest =>
      match current_row suffix symbol (download symbol) with
      | Row s =>
          current_rows suffix download rest (Frame.dict_set results symbol s)
      | Skipped => current_rows suffix download rest results
      | Escaped _ => None
      end
  end.

(** [batch_fetch_current_data]: [download] is the frame that [yf.download]
    holds for each symbol ([None] when the download itself raises); the
    outer [except Exception] turns every escaping exception into an empty
    result. *)
Definition batch_fetch_current_data (suffix : string)
  (download : option (string -> exc DataFrame)) (symbols : list string)
  : dict Snapshot.t :=
  match download with
  | None => []
  | Some frames =>
      match current_rows suffix frames symbols [] with
      | Some results => results
      | None => []
      end
  end.

(** [range(0, stop, step)] for [step >= 1]. *)
Definition range_step (stop step : nat) : list nat :=
  map (fun k => (k * step)%nat) (seq 0 ((stop + step - 1) / step)).

(** The batches [symbols[i:i + batch_size]] of the outer loop. *)
Definition batches (symbols : list string) (batch_size : nat)
  : list (list string) :=
  map (fun i => firstn batch_size (skipn i symbols))
      (range_step (List.length symbols) batch_size).

(** The dictionary stored for a symbol whose lookup raised; the fields the
    scanners read. *)
Definition placeholder : Fundamentals.t := {|
  Fundamentals.market_cap := Some (of_Z 0);
  Fundamentals.debt_to_equity := Some (of_Z 0);
  Fundamentals.roe := Some (of_Z 0);
  Fundamentals.sector := Some "Unknown"
|}.

(** [batch_fetch_fundamentals]: [lookup] is the dictionary that the body of
    the [try] builds from [ticker.info], [None] when it raises.  A batch
    size of zero makes [range] raise, a negative one gives no batch. *)
Definition batch_fetch_fundamentals (lookup : string -> option Fundamentals.t)
  (symbols : list string) (batch_size : Z)
  : sum escape (dict Fundamentals.t) :=
  if (batch_size =? 0)%Z
  then inl (ValueError "range() arg 3 must not be zero")
  else if (batch_size <? 0)%Z then inr []
  else
    inr (fold_left
           (fun results batch =>
              fold_left
                (fun results symbol =>
                   Frame.dict_set results symbol
                     (get_or (lookup symbol) placeholder))
                batch results)
           (batches symbols (Z.to_nat batch_size)) []).

End Fetcher.

(** * Properties *)

(** ** Float comparisons *)

Module FloatFacts.

Import Float.
Local Open Scope float_scope.

Lemma leb_Fin (a b : Q) : (Fin a <=? Fin b) = true <-> (a <= b)%Q.
Proof. apply Qle_bool_iff. Qed.

Lemma ltb_Fin (a b : Q) : (Fin a <? Fin b) = true <-> (a < b)%Q.
Proof.
  simpl. rewrite negb_true_iff. split; intro H.
  - apply Qnot_le_lt. intro Hle. apply Qle_bool_iff in Hle. congruence.
  - destruct (Qle_bool b a) eqn:E; [|reflexivity].
    apply Qle_bool_iff in E. exfalso. apply (Qlt_not_le _ _ H E).
Qed.

Lemma leb_Fin_false (a b : Q) : (Fin a <=? Fin b) = false <-> (b < a)%Q.
Proof.
  rewrite <- ltb_Fin. simpl. destruct (Qle_bool a b); simpl; split; congruence.
Qed.

Lemma ltb_Fin_false (a b : Q) : (Fin a <? Fin b) = false <-> (b <= a)%Q.
Proof.
  rewrite <- leb_Fin. simpl. destruct (Qle_bool b a); simpl; split; congruence.
Qed.

Lemma ltb_leb (a b : float) : (a <? b) = true -> (a <=? b) = true.
Proof.
  destruct a, b; simpl; try congruence.
  rewrite negb_true_iff. intro H. apply Qle_bool_iff.
  apply Qlt_le_weak. apply Qnot_le_lt. intro Hle.
  apply Qle_bool_iff in Hle. congruence.
Qed.

Lemma ltb_not_leb (a b : float) : (a <? b) = true -> (b <=? a) = false.
Proof.
  destruct a, b; simpl; try congruence.
  rewrite negb_true_iff. auto.
Qed.

Lemma ltb_trans (a b c : float) :
  (a <? b) = true -> (b <? c) = true -> (a <? c) = true.
Proof.
  destruct a, b, c; simpl; try congruence.
  rewrite !negb_true_iff. intros H1 H2.
  apply (proj1 (leb_Fin_false _ _)) in H1.
  apply (proj1 (leb_Fin_false _ _)) in H2.
  apply (proj2 (leb_Fin_false _ _)). eapply Qlt_trans; eauto.
Qed.

Lemma leb_ltb_trans (a b c : float) :
  (a <=? b) = true -> (b <? c) = true -> (a <? c) = true.
Proof.
  destruct a, b, c; simpl; try congruence.
  rewrite !negb_true_iff. intros H1 H2.
  apply Qle_bool_iff in H1.
  apply (proj1 (leb_Fin_false _ _)) in H2.
  apply (proj2 (leb_Fin_false _ _)). eapply Qle_lt_trans; eauto.
Qed.

Lemma ltb_irrefl (a : float) : (a <? a) = false.
Proof.
  destruct a; simpl; try reflexivity.
  rewrite negb_false_iff. apply Qle_bool_iff. apply Qle_refl.
Qed.

End FloatFacts.

(** ** Strings *)

Lemma contains_app_r (sub a b : string) :
  Str.contains sub b = true -> Str.contains sub (a ++ b) = true.
Proof.
  intro H. induction a as [|c a IH].
  - exact H.
  - change (String c a ++ b) with (String c (a ++ b)).
    cbn [Str.contains]. rewrite IH. apply orb_true_r.
Qed.

(** ** Frames *)

Lemma dict_get_map_snd {A B : Type} (f : A -> B) (d : dict A) (k : string) :
  dict_get (map (fun c => (fst c, f (snd c))) d) k = option_map f (dict_get d k).
Proof.
  induction d as [|[k' v] d IH]; simpl; [reflexivity|].
  destruct (String.eqb k k'); [reflexivity | exact IH].
Qed.

Lemma iloc_back_item_has_column (df : DataFrame) (n : nat) (row : Series)
  (k : string) (v : float) :
  Frame.iloc_back df n = inr row -> Frame.item row k = inr v ->
  Frame.has_column df k = true.
Proof.
  unfold Frame.iloc_back, Frame.item, Frame.has_column.
  destruct (Nat.ltb (Frame.index_len df) n); [discriminate|].
  cbn. intros Hrow. inversion Hrow as [Hr]. clear Hrow.
  rewrite (dict_get_map_snd (fun vals => nth (Frame.index_len df - n) vals NaN)).
  destruct (dict_get (Frame.columns df) k); simpl; [reflexivity | discriminate].
Qed.

Lemma iloc_back_not_empty (df : DataFrame) (row : Series) (k : string) :
  Frame.iloc_back df 1 = inr row -> Frame.has_column df k = true ->
  Frame.empty df = false.
Proof.
  unfold Frame.iloc_back, Frame.has_column, Frame.empty.
  destruct (Nat.ltb (Frame.index_len df) 1) eqn:E; [discriminate|].
  intros _ Hc. apply Nat.ltb_ge in E.
  destruct (Frame.columns df); [discriminate|].
  destruct (Frame.index_len df); [lia | reflexivity].
Qed.

(** ** Ranking *)

Section RankFacts.

Context {A K : Type}.
Variable key : A -> K.
Variable leb : K -> K -> bool.
Hypothesis leb_total : forall a b, leb a b = false -> leb b a = true.
Hypothesis leb_trans :
  forall a b c, leb a b = true -> leb b c = true -> leb a c = true.

(** [a] may stand before [b] in a ranking: the key of [b] does not exceed
    the key of [a]. *)
Definition ranks_before (a b : A) : Prop := leb (key b) (key a) = true.

(** Two keys compare equal. *)
Definition same_key (k : K) (x : A) : bool :=
  leb (key x) k && leb k (key x).

Lemma insert_desc_perm (x : A) (l : list A) :
  Permutation (x :: l) (insert_desc key leb x l).
Proof.
  induction l as [|y l IH]; simpl; [reflexivity|].
  destruct (leb (key y) (key x)); [reflexivity|].
  rewrite perm_swap. apply perm_skip. exact IH.
Qed.

Lemma sort_desc_perm (l : list A) : Permutation l (sort_desc key leb l).
Proof.
  induction l as [|x l IH]; simpl; [reflexivity|].
  rewrite <- insert_desc_perm. apply perm_skip. exact IH.
Qed.

Lemma insert_desc_sorted (x : A) (l : list A) :
  StronglySorted ranks_before l ->
  StronglySorted ranks_before (insert_desc key leb x l).
Proof.
  induction 1 as [|y l Hs IH Hy]; simpl.
  - constructor; constructor.
  - destruct (leb (key y) (key x)) eqn:E.
    + constructor; [constructor; assumption|].
      constructor; [exact E|].
      rewrite Forall_forall in Hy |- *. intros z Hz.
      unfold ranks_before in *. eapply leb_trans; [apply Hy, Hz | exact E].
    + constructor; [exact IH|].
      rewrite Forall_forall in Hy |- *. intros z Hz.
      apply (Permutation_in _ (Permutation_sym (insert_desc_perm x l))) in Hz.
      destruct Hz as [<-|Hz]; [|apply Hy, Hz].
      apply leb_total, E.
Qed.

Lemma sort_desc_sorted (l : list A) :
  StronglySorted ranks_before (sort_desc key leb l).
Proof.
  induction l as [|x l IH]; simpl; [constructor|].
  apply insert_desc_sorted, IH.
Qed.

(** Stability: among the elements of one key the order of the input is
    kept. *)
Lemma insert_desc_stable (k : K) (x : A) (l : list A) :
  filter (same_key k) (insert_desc key leb x l)
  = filter (same_key k) (x :: l).
Proof.
  induction l as [|y l IH]; [reflexivity|].
  cbn [insert_desc]. destruct (leb (key y) (key x)) eqn:E; [reflexivity|].
  cbn [filter] in *. rewrite IH.
  destruct (same_key k y) eqn:Ey, (same_key k x) eqn:Ex; try reflexivity.
  exfalso. unfold same_key in Ey, Ex.
  apply andb_true_iff in Ey, Ex. destruct Ey as [Ey _], Ex as [_ Ex].
  rewrite (leb_trans _ _ _ Ey Ex) in E. discriminate.
Qed.

Lemma sort_desc_stable (k : K) (l : list A) :
  filter (same_key k) (sort_desc key leb l) = filter (same_key k) l.
Proof.
  induction l as [|x l IH]; [reflexivity|].
  cbn [sort_desc fold_right]. rewrite insert_desc_stable.
  cbn [filter]. fold (sort_desc key leb l). rewrite IH. reflexivity.
Qed.

Lemma StronglySorted_firstn (R : A -> A -> Prop) (n : nat) (l : list A) :
  StronglySorted R l -> StronglySorted R (firstn n l).
Proof.
  intros H. revert n. induction H as [|x l Hs IH Hx]; intros [|n]; simpl;
    try constructor.
  - apply IH.
  - rewrite Forall_forall in Hx |- *. intros z Hz. apply Hx.
    rewrite <- (firstn_skipn n l). apply in_or_app. left. exact Hz.
Qed.

End RankFacts.

(** [l[:m]] is a prefix of [l], of at most [m] elements when [m] is not
    negative. *)
Lemma slice_to_prefix {A : Type} (l : list A) (m : Z) :
  exists rest, l = (slice_to l m ++ rest)%list.
Proof.
  unfold slice_to. destruct (0 <=? m).
  - exists (skipn (Z.to_nat m) l). symmetry. apply firstn_skipn.
  - exists (skipn (List.length l - Z.to_nat (- m)) l). symmetry.
    apply firstn_skipn.
Qed.

Lemma slice_to_length {A : Type} (l : list A) (m : Z) :
  0 <= m -> Z.of_nat (List.length (slice_to l m)) <= m.
Proof.
  intro Hm. unfold slice_to.
  destruct (Z.leb_spec 0 m); [|lia].
  rewrite length_firstn. lia.
Qed.

Lemma slice_to_In {A : Type} (l : list A) (m : Z) (x : A) :
  In x (slice_to l m) -> In x l.
Proof.
  destruct (slice_to_prefix l m) as [rest H]. intro Hx.
  rewrite H. apply in_or_app. left. exact Hx.
Qed.

Lemma slice_to_sorted {A : Type} (R : A -> A -> Prop) (l : list A) (m : Z) :
  StronglySorted R l -> StronglySorted R (slice_to l m).
Proof. unfold slice_to. destruct (0 <=? m); apply StronglySorted_firstn. Qed.

Lemma StronglySorted_impl {A : Type} (R R' : A -> A -> Prop) (l : list A) :
  (forall a b, R a b -> R' a b) -> StronglySorted R l -> StronglySorted R' l.
Proof.
  intros HR H. induction H as [|x l Hs IH Hx]; constructor; [exact IH|].
  rewrite Forall_forall in Hx |- *. intros z Hz. apply HR, Hx, Hz.
Qed.

(** [out] is the head of a stable descending ranking of [cands]: with the
    elements cut off it is a permutation of [cands], in descending order of
    the key, where elements of one key keep the order they have in
    [cands]. *)
Definition ranked_prefix {A K : Type} (key : A -> K) (leb : K -> K -> bool)
  (cands out : list A) : Prop :=
  exists rest,
    Permutation (out ++ rest) cands
    /\ StronglySorted (ranks_before key leb) (out ++ rest)
    /\ forall k,
        filter (same_key key leb k) (out ++ rest)
        = filter (same_key key leb k) cands.

Lemma slice_sort_ranked_prefix {A K : Type} (key : A -> K)
  (leb : K -> K -> bool) (l : list A) (m : Z) :
  (forall a b, leb a b = false -> leb b a = true) ->
  (forall a b c, leb a b = true -> leb b c = true -> leb a c = true) ->
  ranked_prefix key leb l (slice_to (sort_desc key leb l) m).
Proof.
  intros Htot Htrans.
  destruct (slice_to_prefix (sort_desc key leb l) m) as [rest Hrest].
  exists rest. rewrite <- Hrest. split; [|split].
  - symmetry. apply sort_desc_perm.
  - apply sort_desc_sorted; assumption.
  - intro k. apply sort_desc_stable. exact Htrans.
Qed.

Lemma Zleb_total (a b : Z) : (a <=? b)%Z = false -> (b <=? a)%Z = true.
Proof. intro H. apply Z.leb_gt in H. apply Z.leb_le. lia. Qed.

Lemma Zleb_trans (a b c : Z) :
  (a <=? b)%Z = true -> (b <=? c)%Z = true -> (a <=? c)%Z = true.
Proof. rewrite !Z.leb_le. lia. Qed.

Lemma Qle_bool_total (a b : Q) : Qle_bool a b = false -> Qle_bool b a = true.
Proof.
  intro H. apply Qle_bool_iff. apply Qlt_le_weak. apply Qnot_le_lt.
  intro Hle. apply Qle_bool_iff in Hle. congruence.
Qed.

Lemma Qle_bool_trans (a b c : Q) :
  Qle_bool a b = true -> Qle_bool b c = true -> Qle_bool a c = true.
Proof. rewrite !Qle_bool_iff. apply Qle_trans. Qed.

(** ** The per-symbol loop *)

(** What one symbol adds to the candidate list: its candidate when the body
    returns one, nothing when it returns none or raises. *)
Definition contribution {C : Type} (body : string -> exc (option C))
  (symbol : string) : list C :=
  match body symbol with
  | inr (Some c) => [c]
  | inr None => []
  | inl _ => []
  end.

Lemma analyze_each_flat_map {C : Type} (body : string -> exc (option C))
  (symbols : list string) :
  analyze_each body symbols = flat_map (contribution body) symbols.
Proof.
  unfold analyze_each.
  assert (H : forall acc,
             fold_left
               (fun candidates symbol =>
                  match body symbol with
                  | inr (Some c) => (candidates ++ [c])%list
                  | inr None => candidates
                  | inl _ => candidates
                  end) symbols acc
             = (acc ++ flat_map (contribution body) symbols)%list).
  { induction symbols as [|s symbols IH]; intro acc; simpl.
    - symmetry. apply app_nil_r.
    - rewrite IH. unfold contribution.
      destruct (body s) as [e|[c|]]; simpl; try reflexivity.
      rewrite <- app_assoc. reflexivity. }
  apply (H []).
Qed.

Lemma analyze_each_app {C : Type} (body : string -> exc (option C))
  (l1 l2 : list string) :
  analyze_each body (l1 ++ l2)
  = (analyze_each body l1 ++ analyze_each body l2)%list.
Proof. rewrite !analyze_each_flat_map. apply flat_map_app. Qed.

(** A symbol whose body raises leaves the candidates of the batch as they
    are without it. *)
Lemma analyze_each_skips_raise {C : Type} (body : string -> exc (option C))
  (l1 l2 : list string) (s : string) (e : exn) :
  body s = inl e ->
  analyze_each body (l1 ++ s :: l2) = analyze_each body (l1 ++ l2).
Proof.
  intro H. rewrite !analyze_each_app.
  change (s :: l2) with ([s] ++ l2)%list. rewrite analyze_each_app.
  rewrite (analyze_each_flat_map body [s]). simpl.
  unfold contribution. rewrite H. reflexivity.
Qed.

Lemma analyze_each_In {C : Type} (body : string -> exc (option C))
  (symbols : list string) (c : C) :
  In c (analyze_each body symbols)
  <-> exists s, In s symbols /\ body s = inr (Some c).
Proof.
  rewrite analyze_each_flat_map, in_flat_map. unfold contribution.
  split; intros [s [Hs H]]; exists s; split; try exact Hs.
  - destruct (body s) as [e|[c'|]]; simpl in H; try contradiction.
    destruct H as [->|[]]. reflexivity.
  - rewrite H. left. reflexivity.
Qed.

(** ** BTST criteria *)

Module BTSTFacts.

Import Float FloatFacts BTST.
Local Open Scope float_scope.

Lemma gain_check_in_band (criteria : BTSTCriteria) (dc : float) :
  (min_gain_percent criteria <=? dc) = true ->
  (dc <=? max_gain_percent criteria) = true ->
  gain_check criteria dc
  = GainAward 30 ("✓ Gain " ++ Str.format_f 1 dc ++ "% (ideal 2-3%)").
Proof. intros H1 H2. unfold gain_check. rewrite H1, H2. reflexivity. Qed.

Lemma gain_check_above (criteria : BTSTCriteria) (dc : float) :
  (dc >? max_gain_percent criteria) = true ->
  gain_check criteria dc
  = GainAward 15
      ("⚠ Gain " ++ Str.format_f 1 dc ++ "% (>3%, may be overbought)").
Proof.
  intros H. unfold gain_check. rewrite H.
  unfold gtb in H. rewrite (ltb_not_leb _ _ H), andb_false_r. reflexivity.
Qed.

Lemma gain_check_below (criteria : BTSTCriteria) (dc : float) :
  (min_gain_percent criteria <=? max_gain_percent criteria) = true ->
  (dc <? min_gain_percent criteria) = true ->
  gain_check criteria dc
  = GainReject ("✗ Gain " ++ Str.format_f 1 dc ++ "% (below 2%)").
Proof.
  intros Hc H. unfold gain_check.
  rewrite (ltb_not_leb _ _ H). simpl andb.
  destruct (dc >? max_gain_percent criteria) eqn:E; [|reflexivity].
  unfold gtb in E.
  pose proof (leb_ltb_trans _ _ _ Hc E) as H1.
  pose proof (ltb_trans _ _ _ H1 H) as H2.
  rewrite ltb_irrefl in H2. discriminate.
Qed.

(** C7. Directional-gain band of the BTST policy: a day change within
    [2.0, 3.5] earns the full 30 points of the gain check; above 3.5 it
    earns 15 points with a cautionary reason; below 2.0 the evaluation
    returns at once with passed = false, score 0 and a reason containing
    "below 2%", whatever the history and the fundamentals are. *)
Theorem btst_gain_band (current_data : Snapshot.t)
  (historical_df : option DataFrame) (fundamentals : Fundamentals.t) :
  let dc := Snapshot.day_change_pct current_data in
  ((dec 20 1 <=? dc) = true -> (dc <=? dec 35 1) = true ->
     exists reason, gain_check Config_BTST dc = GainAward 30 reason
                    /\ String.prefix "✓" reason = true)
  /\ ((dc >? dec 35 1) = true ->
     exists reason, gain_check Config_BTST dc = GainAward 15 reason
                    /\ String.prefix "⚠" reason = true
                    /\ Str.contains "may be overbought" reason = true)
  /\ ((dc <? dec 20 1) = true ->
     exists reason,
       check_btst_criteria Config_BTST current_data historical_df fundamentals
       = inr (false, 0%Z, reason)
       /\ Str.contains "below 2%" reason = true).
Proof.
  intro dc. repeat split.
  - intros H1 H2. eexists. split.
    + apply (gain_check_in_band Config_BTST dc H1 H2).
    + reflexivity.
  - intros H. eexists. split; [|split].
    + apply (gain_check_above Config_BTST dc H).
    + reflexivity.
    + apply (contains_app_r _ "⚠ Gain "), contains_app_r. reflexivity.
  - intros H. eexists. split.
    + unfold check_btst_criteria. fold dc.
      rewrite (gain_check_below Config_BTST dc eq_refl H). reflexivity.
    + cbn [app Str.join].
      apply (contains_app_r _ "✗ Gain "), contains_app_r. reflexivity.
Qed.

Definition snapshot_of (day_change high_prox : float) : Snapshot.t := {|
  Snapshot.symbol := "RELIANCE";
  Snapshot.current_price := dec 250000 2;
  Snapshot.day_change_pct := day_change;
  Snapshot.high_proximity_pct := high_prox
|}.

Definition sector_only (s : string) : Fundamentals.t := {|
  Fundamentals.market_cap := None;
  Fundamentals.debt_to_equity := None;
  Fundamentals.roe := None;
  Fundamentals.sector := Some s
|}.

(** An empty history that has an EMA_20 column. *)
Definition empty_frame_with_ema : DataFrame := {|
  Frame.index_len := 0;
  Frame.columns := [("Close", []); ("EMA_20", [])]
|}.

Lemma btst_gain_band_witness :
  (exists reason, gain_check Config_BTST (dec 25 1) = GainAward 30 reason
                  /\ String.prefix "✓" reason = true)
  /\ (exists reason, gain_check Config_BTST (dec 50 1) = GainAward 15 reason
                     /\ String.prefix "⚠" reason = true
                     /\ Str.contains "may be overbought" reason = true)
  /\ (exists reason,
        check_btst_criteria Config_BTST (snapshot_of (dec 10 1) (dec 95 0))
          (Some empty_frame_with_ema) (sector_only "Energy")
        = inr (false, 0%Z, reason)
        /\ Str.contains "below 2%" reason = true).
Proof.
  split; [|split].
  - apply (proj1 (btst_gain_band (snapshot_of (dec 25 1) (dec 95 0)) None
                    (sector_only "Energy"))); reflexivity.
  - apply (proj1 (proj2 (btst_gain_band (snapshot_of (dec 50 1) (dec 95 0)) None
                           (sector_only "Energy")))); reflexivity.
  - apply (proj2 (proj2 (btst_gain_band (snapshot_of (dec 10 1) (dec 95 0))
                           (Some empty_frame_with_ema)
                           (sector_only "Energy")))); reflexivity.
Defined.

Lemma volume_check_full (criteria : BTSTCriteria) (df : DataFrame)
  (latest : Series) (volume_ratio : float) :
  Frame.iloc_back df 1 = inr latest ->
  Frame.item latest "Volume_Ratio" = inr volume_ratio ->
  (volume_ratio >=? min_volume_multiplier criteria) = true ->
  volume_check criteria (Some df)
  = inr (25%Z, ["✓ Volume " ++ Str.format_f 1 volume_ratio ++ "x average"]).
Proof.
  intros Hl Hv Hge. unfold volume_check.
  pose proof (iloc_back_item_has_column _ _ _ _ _ Hl Hv) as Hc.
  rewrite (iloc_back_not_empty _ _ _ Hl Hc). cbn [negb].
  rewrite Hl. cbn. rewrite Hc, Hv. cbn. rewrite Hge. reflexivity.
Qed.

Lemma trend_check_full (df : DataFrame) (latest : Series) (close ema_20 : float) :
  Frame.iloc_back df 1 = inr latest ->
  Frame.item latest "Close" = inr close ->
  Frame.item latest "EMA_20" = inr ema_20 ->
  (close >? ema_20) = true ->
  trend_check (Some df) = inr (15%Z, ["✓ Above 20 EMA (uptrend)"]).
Proof.
  intros Hl Hc He Hgt. unfold trend_check.
  rewrite (iloc_back_item_has_column _ _ _ _ _ Hl He).
  rewrite Hl. cbn. rewrite Hc. cbn. rewrite He. cbn. rewrite Hgt. reflexivity.
Qed.

(** C8. Full-score scenario of the BTST policy: a day change inside
    [2.0, 3.5] (2.5 in the scenario), a latest Volume_Ratio of at least 1.5
    (1.8), a high proximity of at least 90 (95), a latest Close strictly
    above the latest EMA_20 and a sector that is not excluded give
    30 + 25 + 20 + 15 + 10 = 100 points and passed = true. *)
Theorem btst_full_score (current_data : Snapshot.t) (df : DataFrame)
  (fundamentals : Fundamentals.t) (latest : Series)
  (volume_ratio close ema_20 : float) :
  (dec 20 1 <=? Snapshot.day_change_pct current_data) = true ->
  (Snapshot.day_change_pct current_data <=? dec 35 1) = true ->
  Frame.iloc_back df 1 = inr latest ->
  Frame.item latest "Volume_Ratio" = inr volume_ratio ->
  (volume_ratio >=? dec 15 1) = true ->
  (Snapshot.high_proximity_pct current_data >=? of_Z 90) = true ->
  Frame.item latest "Close" = inr close ->
  Frame.item latest "EMA_20" = inr ema_20 ->
  (close >? ema_20) = true ->
  Str.list_mem (get_or (Fundamentals.sector fundamentals) "Unknown")
    BTST_EXCLUDED_SECTORS = false ->
  exists reason,
    check_btst_criteria Config_BTST current_data (Some df) fundamentals
    = inr (true, (30 + 25 + 20 + 15 + 10)%Z, reason).
Proof.
  intros Hlo Hhi Hl Hv Hvr Hp Hc He Hgt Hs.
  unfold check_btst_criteria.
  rewrite (gain_check_in_band Config_BTST _ Hlo Hhi).
  rewrite (volume_check_full Config_BTST df latest volume_ratio Hl Hv Hvr).
  rewrite (trend_check_full df latest close ema_20 Hl Hc He Hgt).
  unfold high_check, sector_check. rewrite Hp, Hs.
  eexists. reflexivity.
Qed.

Definition full_score_frame : DataFrame := {|
  Frame.index_len := 2;
  Frame.columns :=
    [("Close", [dec 24400 2; dec 25000 2]);
     ("EMA_20", [dec 24000 2; dec 24100 2]);
     ("Volume_Ratio", [dec 10 1; dec 18 1])]
|}.

Lemma btst_full_score_witness :
  exists reason,
    check_btst_criteria Config_BTST (snapshot_of (dec 25 1) (dec 95 0))
      (Some full_score_frame) (sector_only "Energy")
    = inr (true, 100%Z, reason).
Proof.
  apply (btst_full_score (snapshot_of (dec 25 1) (dec 95 0)) full_score_frame
           (sector_only "Energy")
           [("Close", dec 25000 2); ("EMA_20", dec 24100 2);
            ("Volume_Ratio", dec 18 1)]
           (dec 18 1) (dec 25000 2) (dec 24100 2)); reflexivity.
Defined.

(** The checks that read the history when the frame is absent, lacks both
    columns, or is empty and has no EMA_20 column: both are skipped. *)
Definition history_unusable (historical_df : option DataFrame) : Prop :=
  match historical_df with
  | None => True
  | Some df =>
      (Frame.has_column df "Volume_Ratio" = false
       /\ Frame.has_column df "EMA_20" = false)
      \/ (Frame.empty df = true /\ Frame.has_column df "EMA_20" = false)
  end.

Lemma checks_skipped (criteria : BTSTCriteria) (historical_df : option DataFrame) :
  history_unusable historical_df ->
  volume_check criteria historical_df = inr (0%Z, [])
  /\ trend_check historical_df = inr (0%Z, []).
Proof.
  destruct historical_df as [df|]; simpl; [|auto].
  intros [[Hv He]|[Hem He]]; rewrite He; split; try reflexivity.
  - destruct (Frame.empty df) eqn:E; cbn [negb]; [reflexivity|].
    unfold Frame.iloc_back.
    destruct (Nat.ltb (Frame.index_len df) 1) eqn:El.
    + exfalso. apply Nat.ltb_lt in El. unfold Frame.empty in E.
      destruct (Frame.index_len df); [discriminate | lia].
    + cbn. rewrite Hv. reflexivity.
  - rewrite Hem. reflexivity.
Qed.

(** Without a usable history a BTST evaluation of a day change of at least
    2.0 does not raise, scores at most 60, and passes exactly when the gain
    band, the high proximity and the sector all give their full points. *)
Lemma btst_without_history (current_data : Snapshot.t)
  (historical_df : option DataFrame) (fundamentals : Fundamentals.t) :
  history_unusable historical_df ->
  (dec 20 1 <=? Snapshot.day_change_pct current_data) = true ->
  exists passes score reason,
    check_btst_criteria Config_BTST current_data historical_df fundamentals
    = inr (passes, score, reason)
    /\ (score <= 60)%Z
    /\ (passes = true <->
        (Snapshot.day_change_pct current_data <=? dec 35 1) = true
        /\ (Snapshot.high_proximity_pct current_data >=? of_Z 90) = true
        /\ Str.list_mem (get_or (Fundamentals.sector fundamentals) "Unknown")
             BTST_EXCLUDED_SECTORS = false)
    /\ (passes = true -> score = 60%Z).
Proof.
  intros Hu Hlo.
  destruct (checks_skipped Config_BTST historical_df Hu) as [Hv Ht].
  unfold check_btst_criteria. rewrite Hv, Ht.
  unfold gain_check, high_check, sector_check.
  change (min_gain_percent Config_BTST) with (dec 20 1).
  change (max_gain_percent Config_BTST) with (dec 35 1).
  rewrite Hlo. cbn [andb].
  destruct (Snapshot.day_change_pct current_data <=? dec 35 1) eqn:Ehi.
  - destruct (Snapshot.high_proximity_pct current_data >=? of_Z 90) eqn:Ep;
      [|destruct (Snapshot.high_proximity_pct current_data >=? of_Z 80)];
      destruct (Str.list_mem _ BTST_EXCLUDED_SECTORS);
      cbn; do 3 eexists; (split; [reflexivity|]);
      repeat split; try lia; try tauto; try discriminate;
      intros; try reflexivity;
      repeat match goal with H : _ /\ _ |- _ => destruct H end;
      try discriminate.
  - assert (Hgt : (Snapshot.day_change_pct current_data >? dec 35 1) = true).
    { destruct (Snapshot.day_change_pct current_data) as [q| | |];
        simpl in *; try discriminate; try reflexivity.
      rewrite Ehi. reflexivity. }
    rewrite Hgt.
    destruct (Snapshot.high_proximity_pct current_data >=? of_Z 90) eqn:Ep;
      [|destruct (Snapshot.high_proximity_pct current_data >=? of_Z 80)];
      destruct (Str.list_mem _ BTST_EXCLUDED_SECTORS);
      cbn; do 3 eexists; (split; [reflexivity|]);
      repeat split; try lia; try tauto; try discriminate;
      intros; try reflexivity;
      repeat match goal with H : _ /\ _ |- _ => destruct H end;
      try discriminate.
Qed.

(** C10 at its failing input.  The frame is empty and has an EMA_20
    column: the volume check is skipped by its [not historical_df.empty]
    guard, the trend check has no such guard and its [iloc[-1]] raises. *)
Theorem btst_empty_frame_with_ema_raises :
  Frame.empty empty_frame_with_ema = true
  /\ volume_check Config_BTST (Some empty_frame_with_ema) = inr (0%Z, [])
  /\ check_btst_criteria Config_BTST (snapshot_of (dec 25 1) (dec 95 0))
       (Some empty_frame_with_ema) (sector_only "Energy")
     = inl (IndexError "single positional indexer is out-of-bounds").
Proof. repeat split. Qed.

End BTSTFacts.

(** ** Swing criteria *)

Module SwingFacts.

Import Float FloatFacts Swing.
Local Open Scope float_scope.

(** The rows and values that an evaluation reads once the history is long
    enough and the fundamental gates are passed. *)
Record reading : Type := {
  latest : Series;
  prev : Series;
  close : float
}.

Definition ema_20_of (r : reading) : float := Frame.get (latest r) "EMA_20" (of_Z 0).
Definition ema_50_of (r : reading) : float := Frame.get (latest r) "EMA_50" (of_Z 0).
Definition rsi_of (r : reading) : float := Frame.get (latest r) "RSI" (of_Z 50).
Definition volume_ratio_of (r : reading) : float :=
  Frame.get (latest r) "Volume_Ratio" (of_Z 1).

Definition reads (df : DataFrame) (r : reading) : Prop :=
  Frame.iloc_back df 1 = inr (latest r)
  /\ Frame.iloc_back df 2 = inr (prev r)
  /\ Frame.item (latest r) "Close" = inr (close r).

Definition entry_after_rsi (criteria : SwingCriteria) (r : reading) : string :=
  snd (fst (rsi_check criteria (rsi_of r) "none")).

Definition entry_after_macd (criteria : SwingCriteria) (r : reading) : string :=
  snd (fst (macd_check (Frame.get (latest r) "MACD" (of_Z 0))
                       (Frame.get (latest r) "MACD_Signal" (of_Z 0))
                       (Frame.get (latest r) "MACD_Hist" (of_Z 0))
                       (Frame.get (prev r) "MACD_Hist" (of_Z 0))
                       (entry_after_rsi criteria r))).

Definition final_entry_type (criteria : SwingCriteria) (r : reading) : string :=
  detect_entry_type (entry_after_macd criteria r) (latest r) (prev r) (close r)
    (ema_20_of r) (ema_50_of r) (volume_ratio_of r).

Definition total_score (criteria : SwingCriteria) (r : reading)
  (fundamentals : Fundamentals.t) : Z :=
  (20
   + fst (trend_check (close r) (ema_20_of r) (ema_50_of r)
            (Frame.get (latest r) "SMA_200" (of_Z 0)))
   + fst (fst (rsi_check criteria (rsi_of r) "none"))
   + fst (fst (macd_check (Frame.get (latest r) "MACD" (of_Z 0))
                          (Frame.get (latest r) "MACD_Signal" (of_Z 0))
                          (Frame.get (latest r) "MACD_Hist" (of_Z 0))
                          (Frame.get (prev r) "MACD_Hist" (of_Z 0))
                          (entry_after_rsi criteria r)))
   + fst (volume_check criteria (volume_ratio_of r))
   + fst (sector_check (get_or (Fundamentals.sector fundamentals) "Unknown")))%Z.

(** Every result of [check_swing_criteria] is an early rejection or the
    full evaluation of the last two rows. *)
Lemma check_swing_criteria_inv (criteria : SwingCriteria)
  (historical_df : option DataFrame) (fundamentals : Fundamentals.t)
  (passes : bool) (score : Z) (entry_type reason : string) :
  check_swing_criteria criteria historical_df fundamentals
  = inr (passes, score, entry_type, reason) ->
  (passes = false /\ score = 0%Z /\ entry_type = "")
  \/ (exists df r,
        historical_df = Some df /\ reads df r
        /\ entry_type = final_entry_type criteria r
        /\ score = total_score criteria r fundamentals
        /\ passes = (score >=? 65)%Z).
Proof.
  unfold check_swing_criteria.
  destruct historical_df as [df|]; [|intro H; inversion H; auto].
  destruct (Frame.empty df || Nat.ltb (Frame.len df) 50);
    [intro H; inversion H; auto|].
  destruct (Frame.iloc_back df 1) as [e|la] eqn:Hl; [discriminate|].
  destruct (Frame.iloc_back df 2) as [e|pr] eqn:Hp; [discriminate|].
  cbn [bind Monad_either].
  destruct (_ <? min_market_cap criteria); [intro H; inversion H; auto|].
  destruct (_ >? max_debt_to_equity criteria); [intro H; inversion H; auto|].
  destruct (_ <? min_roe criteria); [intro H; inversion H; auto|].
  destruct (Frame.item la "Close") as [e|cl] eqn:Hc; [discriminate|].
  intro H. right. exists df, {| latest := la; prev := pr; close := cl |}.
  unfold reads, final_entry_type, total_score, entry_after_macd,
    entry_after_rsi, ema_20_of, ema_50_of, rsi_of, volume_ratio_of.
  cbn [latest prev close].
  destruct (trend_check cl _ _ _) as [p1 r1].
  destruct (rsi_check criteria _ "none") as [[p2 e2] r2].
  cbn [fst snd] in *.
  destruct (macd_check _ _ _ _ e2) as [[p3 e3] r3].
  destruct (volume_check criteria _) as [p4 r4].
  destruct (sector_check _) as [p5 r5].
  cbn [fst snd] in *.
  inversion H. subst. repeat split; try assumption; try reflexivity.
Qed.

(** The conditions of the entry-type classification. *)
Definition in_pullback_zone (criteria : SwingCriteria) (r : reading) : bool :=
  negb ((rsi_min criteria <=? rsi_of r) && (rsi_of r <=? rsi_max criteria))
  && (of_Z 30 <? rsi_of r) && (rsi_of r <? of_Z 40).

Definition macd_hist_of (row : Series) : float :=
  Frame.get row "MACD_Hist" (of_Z 0).

Definition fresh_macd_cross (r : reading) : bool :=
  (Frame.get (latest r) "MACD" (of_Z 0)
   >? Frame.get (latest r) "MACD_Signal" (of_Z 0))
  && (macd_hist_of (latest r) >? of_Z 0)
  && (macd_hist_of (prev r) <=? of_Z 0).

Definition is_breakout (r : reading) : bool :=
  (close r >? ema_20_of r * dec 102 2) && (volume_ratio_of r >? dec 15 1).

Definition is_ma_cross (r : reading) : bool :=
  (ema_20_of r >? ema_50_of r)
  && (Frame.get (prev r) "EMA_20" (of_Z 0)
      <=? Frame.get (prev r) "EMA_50" (of_Z 0)).

Definition fallback_entry_type (r : reading) : string :=
  if is_breakout r then "breakout"
  else if is_ma_cross r then "ma_cross"
  else "trend_follow".

(** The order of the claim: the pullback zone first. *)
Definition entry_type_pullback_first (criteria : SwingCriteria) (r : reading)
  : string :=
  if in_pullback_zone criteria r then "pullback"
  else if fresh_macd_cross r then "macd_cross"
  else fallback_entry_type r.

(** The order of the code: the MACD check runs after the RSI check and
    overwrites its entry type. *)
Definition entry_type_macd_first (criteria : SwingCriteria) (r : reading)
  : string :=
  if fresh_macd_cross r then "macd_cross"
  else if in_pullback_zone criteria r then "pullback"
  else fallback_entry_type r.

Lemma rsi_check_entry (criteria : SwingCriteria) (rsi : float) (e : string) :
  snd (fst (rsi_check criteria rsi e))
  = if negb ((rsi_min criteria <=? rsi) && (rsi <=? rsi_max criteria))
       && (of_Z 30 <? rsi) && (rsi <? of_Z 40)
    then "pullback" else e.
Proof.
  unfold rsi_check.
  destruct ((rsi_min criteria <=? rsi) && (rsi <=? rsi_max criteria));
    [reflexivity|].
  cbn [negb andb].
  destruct ((of_Z 30 <? rsi) && (rsi <? of_Z 40)); [reflexivity|].
  destruct (rsi >? of_Z 60); reflexivity.
Qed.

Lemma macd_check_entry (macd sig hist prev_hist : float) (e : string) :
  snd (fst (macd_check macd sig hist prev_hist e))
  = if (macd >? sig) && (hist >? of_Z 0) && (prev_hist <=? of_Z 0)
    then "macd_cross" else e.
Proof.
  unfold macd_check.
  destruct (macd >? sig), (hist >? of_Z 0), (prev_hist <=? of_Z 0);
    reflexivity.
Qed.

Lemma final_entry_type_macd_first (criteria : SwingCriteria) (r : reading) :
  final_entry_type criteria r = entry_type_macd_first criteria r.
Proof.
  unfold final_entry_type, entry_after_macd, entry_after_rsi,
    entry_type_macd_first.
  rewrite macd_check_entry, rsi_check_entry.
  fold (macd_hist_of (latest r)). fold (macd_hist_of (prev r)).
  fold (fresh_macd_cross r). fold (in_pullback_zone criteria r).
  destruct (fresh_macd_cross r); [reflexivity|].
  destruct (in_pullback_zone criteria r); [reflexivity|].
  unfold detect_entry_type, fallback_entry_type, is_breakout, is_ma_cross,
    ema_20_of.
  reflexivity.
Qed.

Definition entry_types : list string :=
  ["pullback"; "macd_cross"; "breakout"; "ma_cross"; "trend_follow"].

Lemma entry_type_macd_first_classified (criteria : SwingCriteria) (r : reading) :
  In (entry_type_macd_first criteria r) entry_types.
Proof.
  unfold entry_type_macd_first, fallback_entry_type, entry_types.
  destruct (fresh_macd_cross r), (in_pullback_zone criteria r),
    (is_breakout r), (is_ma_cross r); simpl; auto 6.
Qed.

Lemma entry_type_macd_cross_iff (criteria : SwingCriteria) (r : reading) :
  entry_type_macd_first criteria r = "macd_cross"
  <-> fresh_macd_cross r = true.
Proof.
  unfold entry_type_macd_first, fallback_entry_type.
  destruct (fresh_macd_cross r), (in_pullback_zone criteria r),
    (is_breakout r), (is_ma_cross r); split; congruence.
Qed.

(** A crossing is flagged at one bar only: at the next bar the previous
    histogram is the positive one of the flagged bar. *)
Lemma fresh_macd_cross_once (r next : reading) :
  prev next = latest r -> fresh_macd_cross r = true ->
  fresh_macd_cross next = false.
Proof.
  unfold fresh_macd_cross. intros -> H.
  apply andb_true_iff in H. destruct H as [H _].
  apply andb_true_iff in H. destruct H as [_ H].
  unfold gtb in H. rewrite (ltb_not_leb _ _ H). apply andb_false_r.
Qed.

Lemma fresh_macd_cross_prev (r : reading) :
  fresh_macd_cross r = true ->
  (macd_hist_of (latest r) >? of_Z 0) = true
  /\ (macd_hist_of (prev r) >? of_Z 0) = false.
Proof.
  unfold fresh_macd_cross. intro H.
  apply andb_true_iff in H. destruct H as [H Hp].
  apply andb_true_iff in H. destruct H as [_ H]. split; [exact H|].
  unfold gtb. destruct (of_Z 0 <? macd_hist_of (prev r)) eqn:E; [|reflexivity].
  rewrite (ltb_not_leb _ _ E) in Hp. discriminate.
Qed.

End SwingFacts.

(** ** Australia swing criteria *)

Module AustraliaSwingFacts.

Import Float FloatFacts AustraliaSwing.
Local Open Scope float_scope.

(** The rows and values that an evaluation reads once the history is long
    enough and the fundamental gates are passed. *)
Record reading : Type := {
  latest : Series;
  prev : Series;
  close : float
}.

Definition ema_20_of (r : reading) : float := Frame.get (latest r) "EMA_20" (of_Z 0).
Definition ema_50_of (r : reading) : float := Frame.get (latest r) "EMA_50" (of_Z 0).
Definition rsi_of (r : reading) : float := Frame.get (latest r) "RSI" (of_Z 50).
Definition volume_ratio_of (r : reading) : float :=
  Frame.get (latest r) "Volume_Ratio" (of_Z 1).

Definition reads (df : DataFrame) (r : reading) : Prop :=
  Frame.iloc_back df 1 = inr (latest r)
  /\ Frame.iloc_back df 2 = inr (prev r)
  /\ Frame.item (latest r) "Close" = inr (close r).

Definition entry_after_rsi (criteria : AustraliaSwingCriteria) (r : reading) : string :=
  snd (fst (rsi_check criteria (rsi_of r) "none")).

Definition entry_after_macd (criteria : AustraliaSwingCriteria) (r : reading) : string :=
  snd (fst (macd_check (Frame.get (latest r) "MACD" (of_Z 0))
                       (Frame.get (latest r) "MACD_Signal" (of_Z 0))
                       (Frame.get (latest r) "MACD_Hist" (of_Z 0))
                       (Frame.get (prev r) "MACD_Hist" (of_Z 0))
                       (entry_after_rsi criteria r))).

Definition final_entry_type (criteria : AustraliaSwingCriteria) (r : reading) : string :=
  detect_entry_type (entry_after_macd criteria r) (latest r) (prev r) (close r)
    (ema_20_of r) (ema_50_of r) (volume_ratio_of r).

Definition total_score (criteria : AustraliaSwingCriteria) (r : reading)
  : Z :=
  (15
   + fst (trend_check (close r) (ema_20_of r) (ema_50_of r)
            (Frame.get (latest r) "SMA_200" (of_Z 0)))
   + fst (fst (rsi_check criteria (rsi_of r) "none"))
   + fst (week_52_check criteria
            (Frame.get (latest r) "52W_High_Proximity" (of_Z 0)))
   + fst (fst (macd_check (Frame.get (latest r) "MACD" (of_Z 0))
                          (Frame.get (latest r) "MACD_Signal" (of_Z 0))
                          (Frame.get (latest r) "MACD_Hist" (of_Z 0))
                          (Frame.get (prev r) "MACD_Hist" (of_Z 0))
                          (entry_after_rsi criteria r)))
   + fst (volume_check criteria (volume_ratio_of r)))%Z.

(** Every result of [check_swing_criteria] is an early rejection or the
    full evaluation of the last two rows. *)
Lemma au_check_swing_criteria_inv (criteria : AustraliaSwingCriteria)
  (historical_df : option DataFrame) (fundamentals : Fundamentals.t)
  (passes : bool) (score : Q) (entry_type reason : string) (sector_weight : Q) :
  check_swing_criteria criteria historical_df fundamentals
  = inr (passes, score, entry_type, reason, sector_weight) ->
  (passes = false /\ score = 0%Q /\ entry_type = "")
  \/ (exists df r,
        historical_df = Some df /\ reads df r
        /\ entry_type = final_entry_type criteria r
        /\ sector_weight
           = get_or (dict_get (sector_weights criteria)
                       (get_or (Fundamentals.sector fundamentals) "Unknown"))
                    1%Q
        /\ score = (inject_Z (total_score criteria r) * sector_weight)%Q
        /\ passes = (total_score criteria r >=? 60)%Z).
Proof.
  unfold check_swing_criteria.
  destruct historical_df as [df|]; [|intro H; inversion H; auto].
  destruct (Frame.empty df || Nat.ltb (Frame.len df) 50);
    [intro H; inversion H; auto|].
  destruct (Frame.iloc_back df 1) as [e|la] eqn:Hl; [discriminate|].
  destruct (Frame.iloc_back df 2) as [e|pr] eqn:Hp; [discriminate|].
  cbn [bind Monad_either].
  destruct (_ <? min_market_cap criteria); [intro H; inversion H; auto|].
  destruct (_ >? max_debt_to_equity criteria); [intro H; inversion H; auto|].
  destruct (_ <? min_roe criteria); [intro H; inversion H; auto|].
  destruct (Frame.item la "Close") as [e|cl] eqn:Hc; [discriminate|].
  intro H. right. exists df, {| latest := la; prev := pr; close := cl |}.
  unfold reads, final_entry_type, total_score, entry_after_macd,
    entry_after_rsi, ema_20_of, ema_50_of, rsi_of, volume_ratio_of.
  cbn [latest prev close].
  destruct (trend_check cl _ _ _) as [p1 r1].
  destruct (rsi_check criteria _ "none") as [[p2 e2] r2].
  cbn [fst snd] in *.
  destruct (week_52_check criteria _) as [p6 r6].
  destruct (macd_check _ _ _ _ e2) as [[p3 e3] r3].
  destruct (volume_check criteria _) as [p4 r4].
  unfold sector_weight_of in H.
  destruct (negb (Qle_bool _ 1)) in H;
    cbn [fst snd] in *; inversion H; subst;
    repeat split; try assumption; try reflexivity.
Qed.

(** The conditions of the entry-type classification. *)
Definition in_pullback_zone (criteria : AustraliaSwingCriteria) (r : reading) : bool :=
  negb ((rsi_min criteria <=? rsi_of r) && (rsi_of r <=? rsi_max criteria))
  && (of_Z 30 <? rsi_of r) && (rsi_of r <? of_Z 35).

Definition macd_hist_of (row : Series) : float :=
  Frame.get row "MACD_Hist" (of_Z 0).

Definition fresh_macd_cross (r : reading) : bool :=
  (Frame.get (latest r) "MACD" (of_Z 0)
   >? Frame.get (latest r) "MACD_Signal" (of_Z 0))
  && (macd_hist_of (latest r) >? of_Z 0)
  && (macd_hist_of (prev r) <=? of_Z 0).

Definition is_breakout (r : reading) : bool :=
  (close r >? ema_20_of r * dec 102 2) && (volume_ratio_of r >? dec 15 1).

Definition is_ma_cross (r : reading) : bool :=
  (ema_20_of r >? ema_50_of r)
  && (Frame.get (prev r) "EMA_20" (of_Z 0)
      <=? Frame.get (prev r) "EMA_50" (of_Z 0)).

Definition fallback_entry_type (r : reading) : string :=
  if is_breakout r then "breakout"
  else if is_ma_cross r then "ma_cross"
  else "trend_follow".

(** The order of the claim: the pullback zone first. *)
Definition entry_type_pullback_first (criteria : AustraliaSwingCriteria) (r : reading)
  : string :=
  if in_pullback_zone criteria r then "pullback"
  else if fresh_macd_cross r then "macd_cross"
  else fallback_entry_type r.

(** The order of the code: the MACD check runs after the RSI check and
    overwrites its entry type. *)
Definition entry_type_macd_first (criteria : AustraliaSwingCriteria) (r : reading)
  : string :=
  if fresh_macd_cross r then "macd_cross"
  else if in_pullback_zone criteria r then "pullback"
  else fallback_entry_type r.

Lemma au_rsi_check_entry (criteria : AustraliaSwingCriteria) (rsi : float) (e : string) :
  snd (fst (rsi_check criteria rsi e))
  = if negb ((rsi_min criteria <=? rsi) && (rsi <=? rsi_max criteria))
       && (of_Z 30 <? rsi) && (rsi <? of_Z 35)
    then "pullback" else e.
Proof.
  unfold rsi_check.
  destruct ((rsi_min criteria <=? rsi) && (rsi <=? rsi_max criteria));
    [reflexivity|].
  cbn [negb andb].
  destruct ((of_Z 30 <? rsi) && (rsi <? of_Z 35)); [reflexivity|].
  destruct (rsi >? of_Z 65); reflexivity.
Qed.

Lemma au_macd_check_entry (macd sig hist prev_hist : float) (e : string) :
  snd (fst (macd_check macd sig hist prev_hist e))
  = if (macd >? sig) && (hist >? of_Z 0) && (prev_hist <=? of_Z 0)
    then "macd_cross" else e.
Proof.
  unfold macd_check.
  destruct (macd >? sig), (hist >? of_Z 0), (prev_hist <=? of_Z 0);
    reflexivity.
Qed.

Lemma au_final_entry_type_macd_first (criteria : AustraliaSwingCriteria) (r : reading) :
  final_entry_type criteria r = entry_type_macd_first criteria r.
Proof.
  unfold final_entry_type, entry_after_macd, entry_after_rsi,
    entry_type_macd_first.
  rewrite au_macd_check_entry, au_rsi_check_entry.
  fold (macd_hist_of (latest r)). fold (macd_hist_of (prev r)).
  fold (fresh_macd_cross r). fold (in_pullback_zone criteria r).
  destruct (fresh_macd_cross r); [reflexivity|].
  destruct (in_pullback_zone criteria r); [reflexivity|].
  unfold detect_entry_type, fallback_entry_type, is_breakout, is_ma_cross,
    ema_20_of.
  reflexivity.
Qed.

Definition entry_types : list string :=
  ["pullback"; "macd_cross"; "breakout"; "ma_cross"; "trend_follow"].

Lemma au_entry_type_macd_first_classified (criteria : AustraliaSwingCriteria) (r : reading) :
  In (entry_type_macd_first criteria r) entry_types.
Proof.
  unfold entry_type_macd_first, fallback_entry_type, entry_types.
  destruct (fresh_macd_cross r), (in_pullback_zone criteria r),
    (is_breakout r), (is_ma_cross r); simpl; auto 6.
Qed.

Lemma au_entry_type_macd_cross_iff (criteria : AustraliaSwingCriteria) (r : reading) :
  entry_type_macd_first criteria r = "macd_cross"
  <-> fresh_macd_cross r = true.
Proof.
  unfold entry_type_macd_first, fallback_entry_type.
  destruct (fresh_macd_cross r), (in_pullback_zone criteria r),
    (is_breakout r), (is_ma_cross r); split; congruence.
Qed.

(** A crossing is flagged at one bar only: at the next bar the previous
    histogram is the positive one of the flagged bar. *)
Lemma au_fresh_macd_cross_once (r next : reading) :
  prev next = latest r -> fresh_macd_cross r = true ->
  fresh_macd_cross next = false.
Proof.
  unfold fresh_macd_cross. intros -> H.
  apply andb_true_iff in H. destruct H as [H _].
  apply andb_true_iff in H. destruct H as [_ H].
  unfold gtb in H. rewrite (ltb_not_leb _ _ H). apply andb_false_r.
Qed.

Lemma au_fresh_macd_cross_prev (r : reading) :
  fresh_macd_cross r = true ->
  (macd_hist_of (latest r) >? of_Z 0) = true
  /\ (macd_hist_of (prev r) >? of_Z 0) = false.
Proof.
  unfold fresh_macd_cross. intro H.
  apply andb_true_iff in H. destruct H as [H Hp].
  apply andb_true_iff in H. destruct H as [_ H]. split; [exact H|].
  unfold gtb. destruct (of_Z 0 <? macd_hist_of (prev r)) eqn:E; [|reflexivity].
  rewrite (ltb_not_leb _ _ E) in Hp. discriminate.
Qed.

End AustraliaSwingFacts.


(** ** Entry types, targets and stops *)

Module EntryTypeFacts.

Import Float FloatFacts.
Local Open Scope float_scope.

(** A frame of 50 rows: every column holds one value in the first 49 rows
    and another in the last one. *)
Definition two_level_frame (cols : list (string * float * float)) : DataFrame := {|
  Frame.index_len := 50;
  Frame.columns :=
    map (fun c => (fst (fst c), (repeat (snd (fst c)) 49 ++ [snd c])%list)) cols
|}.

Definition sound_fundamentals (sector : string) : Fundamentals.t := {|
  Fundamentals.market_cap := Some (of_Z 100000);
  Fundamentals.debt_to_equity := Some (dec 2 1);
  Fundamentals.roe := Some (of_Z 20);
  Fundamentals.sector := Some sector
|}.

(** RSI 33 in the last row, and a MACD histogram that turns from -1 to 1. *)
Definition pullback_cross_frame : DataFrame :=
  two_level_frame
    [("Close", of_Z 100, of_Z 110); ("EMA_20", of_Z 100, of_Z 100);
     ("EMA_50", of_Z 90, of_Z 90); ("SMA_200", of_Z 80, of_Z 80);
     ("RSI", of_Z 50, of_Z 33);
     ("MACD", of_Z 1, of_Z 2); ("MACD_Signal", of_Z 2, of_Z 1);
     ("MACD_Hist", of_Z (-1), of_Z 1);
     ("Volume_Ratio", of_Z 1, dec 13 1);
     ("52W_High_Proximity", of_Z 90, of_Z 90)].

Definition pullback_cross_reading : SwingFacts.reading := {|
  SwingFacts.latest :=
    [("Close", of_Z 110); ("EMA_20", of_Z 100); ("EMA_50", of_Z 90);
     ("SMA_200", of_Z 80); ("RSI", of_Z 33); ("MACD", of_Z 2);
     ("MACD_Signal", of_Z 1); ("MACD_Hist", of_Z 1);
     ("Volume_Ratio", dec 13 1); ("52W_High_Proximity", of_Z 90)];
  SwingFacts.prev :=
    [("Close", of_Z 100); ("EMA_20", of_Z 100); ("EMA_50", of_Z 90);
     ("SMA_200", of_Z 80); ("RSI", of_Z 50); ("MACD", of_Z 1);
     ("MACD_Signal", of_Z 2); ("MACD_Hist", of_Z (-1));
     ("Volume_Ratio", of_Z 1); ("52W_High_Proximity", of_Z 90)];
  SwingFacts.close := of_Z 110
|}.

(** C1, counterexample.  The RSI of the last row lies in the pullback zone
    and the MACD histogram crosses on the same bar: the order of the claim
    gives "pullback", the evaluation passes with "macd_cross". *)
Lemma pullback_zone_overridden_by_macd_cross :
  SwingFacts.reads pullback_cross_frame pullback_cross_reading
  /\ SwingFacts.in_pullback_zone Swing.Config_SWING pullback_cross_reading = true
  /\ SwingFacts.fresh_macd_cross pullback_cross_reading = true
  /\ SwingFacts.entry_type_pullback_first Swing.Config_SWING
       pullback_cross_reading = "pullback"
  /\ (exists reason,
        Swing.check_swing_criteria Swing.Config_SWING
          (Some pullback_cross_frame) (sound_fundamentals "DEFENCE")
        = inr (true, 95%Z, "macd_cross", reason))
  /\ ~ (forall criteria df r f score entry_type reason,
          SwingFacts.reads df r ->
          SwingFacts.in_pullback_zone criteria r = true ->
          Swing.check_swing_criteria criteria (Some df) f
          = inr (true, score, entry_type, reason) ->
          entry_type = "pullback").
Proof.
  assert (Hr : SwingFacts.reads pullback_cross_frame pullback_cross_reading)
    by (repeat split).
  assert (Hc : Swing.check_swing_criteria Swing.Config_SWING
                 (Some pullback_cross_frame) (sound_fundamentals "DEFENCE")
               = inr (true, 95%Z, "macd_cross",
                      "✓ Fundamentals: MCap ₹100000Cr, D/E 0.20, ROE 20.0%; ✓ Above all MAs (strong uptrend); ✓ RSI 33.0 (pullback zone); ✓ MACD bullish; ✓ Volume 1.3x average; ✓ Preferred sector: DEFENCE"))
    by (vm_compute; reflexivity).
  repeat split; try exact (proj1 Hr); try apply Hr.
  - eexists. exact Hc.
  - intro H.
    specialize (H Swing.Config_SWING _ _ _ _ _ _ Hr eq_refl Hc). discriminate.
Qed.

(** C1, as the code has it.  In a passing evaluation of either swing
    policy the entry type is decided in this order, first match winning: a
    fresh MACD bullish crossover gives "macd_cross"; otherwise an RSI in the
    pullback zone gives "pullback"; otherwise a close more than 2% above
    the EMA_20 with a volume ratio above 1.5 gives "breakout", an EMA_20
    that newly exceeds the EMA_50 gives "ma_cross", and anything else
    "trend_follow".  The entry type of a passing evaluation is one of these
    five, never "none" or empty. *)
Theorem swing_entry_type_order :
  (forall criteria historical_df fundamentals score entry_type reason,
      Swing.check_swing_criteria criteria historical_df fundamentals
      = inr (true, score, entry_type, reason) ->
      exists df r,
        historical_df = Some df /\ SwingFacts.reads df r
        /\ entry_type = SwingFacts.entry_type_macd_first criteria r
        /\ In entry_type SwingFacts.entry_types)
  /\ (forall criteria historical_df fundamentals score entry_type reason weight,
        AustraliaSwing.check_swing_criteria criteria historical_df fundamentals
        = inr (true, score, entry_type, reason, weight) ->
        exists df r,
          historical_df = Some df /\ AustraliaSwingFacts.reads df r
          /\ entry_type = AustraliaSwingFacts.entry_type_macd_first criteria r
          /\ In entry_type AustraliaSwingFacts.entry_types).
Proof.
  split.
  - intros criteria hdf f score et reason H.
    destruct (SwingFacts.check_swing_criteria_inv _ _ _ _ _ _ _ H)
      as [[Hp _]|[df [r [Hdf [Hr [Het _]]]]]]; [discriminate|].
    exists df, r. rewrite SwingFacts.final_entry_type_macd_first in Het.
    repeat split; try assumption; try apply Hr.
    rewrite Het. apply SwingFacts.entry_type_macd_first_classified.
  - intros criteria hdf f score et reason weight H.
    destruct (AustraliaSwingFacts.au_check_swing_criteria_inv _ _ _ _ _ _ _ _ H)
      as [[Hp _]|[df [r [Hdf [Hr [Het _]]]]]]; [discriminate|].
    exists df, r.
    rewrite AustraliaSwingFacts.au_final_entry_type_macd_first in Het.
    repeat split; try assumption; try apply Hr.
    rewrite Het. apply AustraliaSwingFacts.au_entry_type_macd_first_classified.
Qed.

Lemma swing_entry_type_order_witness :
  (exists df r,
      Some pullback_cross_frame = Some df /\ SwingFacts.reads df r
      /\ "macd_cross" = SwingFacts.entry_type_macd_first Swing.Config_SWING r
      /\ In "macd_cross" SwingFacts.entry_types)
  /\ (exists df r,
        Some pullback_cross_frame = Some df /\ AustraliaSwingFacts.reads df r
        /\ "macd_cross"
           = AustraliaSwingFacts.entry_type_macd_first
               AustraliaSwing.Config_SWING r
        /\ In "macd_cross" AustraliaSwingFacts.entry_types).
Proof.
  split.
  - eapply (proj1 swing_entry_type_order Swing.Config_SWING
              (Some pullback_cross_frame) (sound_fundamentals "DEFENCE")).
    vm_compute. reflexivity.
  - eapply (proj2 swing_entry_type_order AustraliaSwing.Config_SWING
              (Some pullback_cross_frame) (sound_fundamentals "Materials")).
    vm_compute. reflexivity.
Defined.

(** The MACD histogram rises from -1 to exactly 0. *)
Definition touch_zero_frame : DataFrame :=
  two_level_frame
    [("Close", of_Z 100, of_Z 110); ("EMA_20", of_Z 100, of_Z 100);
     ("EMA_50", of_Z 90, of_Z 90); ("SMA_200", of_Z 80, of_Z 80);
     ("RSI", of_Z 50, of_Z 50);
     ("MACD", of_Z 1, of_Z 2); ("MACD_Signal", of_Z 2, of_Z 2);
     ("MACD_Hist", of_Z (-1), of_Z 0);
     ("Volume_Ratio", of_Z 1, dec 13 1);
     ("52W_High_Proximity", of_Z 90, of_Z 90)].

Definition touch_zero_reading : SwingFacts.reading := {|
  SwingFacts.latest :=
    [("Close", of_Z 110); ("EMA_20", of_Z 100); ("EMA_50", of_Z 90);
     ("SMA_200", of_Z 80); ("RSI", of_Z 50); ("MACD", of_Z 2);
     ("MACD_Signal", of_Z 2); ("MACD_Hist", of_Z 0);
     ("Volume_Ratio", dec 13 1); ("52W_High_Proximity", of_Z 90)];
  SwingFacts.prev :=
    [("Close", of_Z 100); ("EMA_20", of_Z 100); ("EMA_50", of_Z 90);
     ("SMA_200", of_Z 80); ("RSI", of_Z 50); ("MACD", of_Z 1);
     ("MACD_Signal", of_Z 2); ("MACD_Hist", of_Z (-1));
     ("Volume_Ratio", of_Z 1); ("52W_High_Proximity", of_Z 90)];
  SwingFacts.close := of_Z 110
|}.

(** C6, counterexample.  The current histogram is 0 (so it is >= 0) and the
    previous one is -1 (so it is <= 0), yet no crossover is flagged: the
    evaluation passes with "trend_follow". *)
Lemma histogram_at_zero_not_flagged :
  SwingFacts.reads touch_zero_frame touch_zero_reading
  /\ (SwingFacts.macd_hist_of (SwingFacts.latest touch_zero_reading)
      >=? of_Z 0) = true
  /\ (SwingFacts.macd_hist_of (SwingFacts.prev touch_zero_reading)
      <=? of_Z 0) = true
  /\ (exists reason,
        Swing.check_swing_criteria Swing.Config_SWING
          (Some touch_zero_frame) (sound_fundamentals "DEFENCE")
        = inr (true, 85%Z, "trend_follow", reason))
  /\ "trend_follow" <> "macd_cross".
Proof.
  repeat split; try discriminate.
  eexists. vm_compute. reflexivity.
Qed.

(** C6, as the code has it.  An evaluation of either swing policy that is
    not an early rejection has entry type "macd_cross" exactly when, in the
    last row, MACD is above its signal line and the histogram is strictly
    positive while the histogram of the row before is <= 0; so never when
    the previous histogram was already positive.  A crossing is flagged at
    one bar only: at the bar after a flagged one no crossover is fresh. *)
Theorem macd_cross_at_sign_change :
  (forall criteria historical_df fundamentals passes score entry_type reason,
      Swing.check_swing_criteria criteria historical_df fundamentals
      = inr (passes, score, entry_type, reason) ->
      entry_type <> "" ->
      exists df r,
        historical_df = Some df /\ SwingFacts.reads df r
        /\ (entry_type = "macd_cross" <-> SwingFacts.fresh_macd_cross r = true)
        /\ (entry_type = "macd_cross" ->
            (SwingFacts.macd_hist_of (SwingFacts.latest r) >? of_Z 0) = true
            /\ (SwingFacts.macd_hist_of (SwingFacts.prev r) >? of_Z 0) = false))
  /\ (forall r next,
        SwingFacts.prev next = SwingFacts.latest r ->
        SwingFacts.fresh_macd_cross r = true ->
        SwingFacts.fresh_macd_cross next = false)
  /\ (forall criteria historical_df fundamentals passes score entry_type reason
             weight,
        AustraliaSwing.check_swing_criteria criteria historical_df fundamentals
        = inr (passes, score, entry_type, reason, weight) ->
        entry_type <> "" ->
        exists df r,
          historical_df = Some df /\ AustraliaSwingFacts.reads df r
          /\ (entry_type = "macd_cross"
              <-> AustraliaSwingFacts.fresh_macd_cross r = true)
          /\ (entry_type = "macd_cross" ->
              (AustraliaSwingFacts.macd_hist_of (AustraliaSwingFacts.latest r)
               >? of_Z 0) = true
              /\ (AustraliaSwingFacts.macd_hist_of (AustraliaSwingFacts.prev r)
                  >? of_Z 0) = false))
  /\ (forall r next,
        AustraliaSwingFacts.prev next = AustraliaSwingFacts.latest r ->
        AustraliaSwingFacts.fresh_macd_cross r = true ->
        AustraliaSwingFacts.fresh_macd_cross next = false).
Proof.
  split; [|split; [|split]].
  - intros criteria hdf f passes score et reason H Hne.
    destruct (SwingFacts.check_swing_criteria_inv _ _ _ _ _ _ _ H)
      as [[_ [_ He]]|[df [r [Hdf [Hr [Het _]]]]]]; [contradiction|].
    exists df, r. rewrite SwingFacts.final_entry_type_macd_first in Het.
    pose proof (SwingFacts.entry_type_macd_cross_iff criteria r) as Hiff.
    rewrite <- Het in Hiff.
    split; [exact Hdf|]. split; [exact Hr|]. split; [exact Hiff|].
    intro E. apply Hiff in E. apply (SwingFacts.fresh_macd_cross_prev r E).
  - exact SwingFacts.fresh_macd_cross_once.
  - intros criteria hdf f passes score et reason weight H Hne.
    destruct (AustraliaSwingFacts.au_check_swing_criteria_inv _ _ _ _ _ _ _ _ H)
      as [[_ [_ He]]|[df [r [Hdf [Hr [Het _]]]]]]; [contradiction|].
    exists df, r.
    rewrite AustraliaSwingFacts.au_final_entry_type_macd_first in Het.
    pose proof (AustraliaSwingFacts.au_entry_type_macd_cross_iff criteria r)
      as Hiff.
    rewrite <- Het in Hiff.
    split; [exact Hdf|]. split; [exact Hr|]. split; [exact Hiff|].
    intro E. apply Hiff in E.
    apply (AustraliaSwingFacts.au_fresh_macd_cross_prev r E).
  - exact AustraliaSwingFacts.au_fresh_macd_cross_once.
Qed.

Definition next_bar_reading : SwingFacts.reading := {|
  SwingFacts.latest := [("MACD_Hist", of_Z 2)];
  SwingFacts.prev := SwingFacts.latest pullback_cross_reading;
  SwingFacts.close := of_Z 111
|}.

Lemma macd_cross_at_sign_change_witness :
  (exists df r,
      Some pullback_cross_frame = Some df /\ SwingFacts.reads df r
      /\ ("macd_cross" = "macd_cross" <-> SwingFacts.fresh_macd_cross r = true)
      /\ ("macd_cross" = "macd_cross" ->
          (SwingFacts.macd_hist_of (SwingFacts.latest r) >? of_Z 0) = true
          /\ (SwingFacts.macd_hist_of (SwingFacts.prev r) >? of_Z 0) = false))
  /\ SwingFacts.fresh_macd_cross next_bar_reading = false.
Proof.
  split.
  - eapply (proj1 macd_cross_at_sign_change Swing.Config_SWING
              (Some pullback_cross_frame) (sound_fundamentals "DEFENCE")).
    + vm_compute. reflexivity.
    + discriminate.
  - apply (proj1 (proj2 macd_cross_at_sign_change) pullback_cross_reading
             next_bar_reading); reflexivity.
Defined.

(** The multiplier table of the specification: an entry for each of the
    five entry types, India and Australia. *)
Definition target_table_india : dict (float * float) :=
  [("breakout", (dec 112 2, dec 95 2)); ("pullback", (dec 110 2, dec 93 2));
   ("trend_follow", (dec 112 2, dec 94 2));
   ("macd_cross", (dec 112 2, dec 94 2)); ("ma_cross", (dec 112 2, dec 94 2))].

Definition target_table_australia : dict (float * float) :=
  [("breakout", (dec 115 2, dec 95 2)); ("pullback", (dec 112 2, dec 93 2));
   ("trend_follow", (dec 115 2, dec 94 2));
   ("macd_cross", (dec 115 2, dec 94 2)); ("ma_cross", (dec 115 2, dec 94 2))].

(** The derivation as the claim words it: a lookup that raises on an entry
    type without an entry. *)
Definition targets_by_strict_lookup (table : dict (float * float))
  (current_price : float) (entry_type : string) : exc (float * float) :=
  match dict_get table entry_type with
  | Some (target_mult, stop_mult) =>
      ret (round (current_price * target_mult) 2,
           round (current_price * stop_mult) 2)
  | None => raise (KeyError entry_type)
  end.

(** The derivation as the code has it: entry types without an entry take
    the pair of "trend_follow". *)
Definition targets_by_default_lookup (table : dict (float * float))
  (current_price : float) (entry_type : string) : float * float :=
  let '(target_mult, stop_mult) :=
    get_or (dict_get table entry_type)
           (get_or (dict_get table "trend_follow") (NaN, NaN)) in
  (round (current_price * target_mult) 2, round (current_price * stop_mult) 2).

(** C3, counterexample.  "none" has no entry in the table: the strict
    lookup raises, [calculate_targets] returns the default pair. *)
Lemma unknown_entry_type_gets_default_targets :
  dict_get target_table_india "none" = None
  /\ targets_by_strict_lookup target_table_india (of_Z 100) "none"
     = inl (KeyError "none")
  /\ Swing.calculate_targets (of_Z 100) "none" = inr (of_Z 112, of_Z 94)
  /\ AustraliaSwing.calculate_targets (of_Z 100) "none"
     = inr (of_Z 115, of_Z 94).
Proof. repeat split. Qed.

(** C3, as the code has it.  For every price and every entry type, known
    or not, the derivation returns round(price * target_multiplier, 2) and
    round(price * stop_multiplier, 2) for the table entry of the entry
    type, and for the entry of "trend_follow" when the entry type has none;
    it never raises. *)
Theorem targets_follow_table_with_default (current_price : float)
  (entry_type : string) :
  Swing.calculate_targets current_price entry_type
  = inr (targets_by_default_lookup target_table_india current_price entry_type)
  /\ AustraliaSwing.calculate_targets current_price entry_type
     = inr (targets_by_default_lookup target_table_australia current_price
              entry_type).
Proof.
  unfold Swing.calculate_targets, AustraliaSwing.calculate_targets,
    targets_by_default_lookup, target_table_india, target_table_australia.
  cbn [dict_get].
  destruct (String.eqb entry_type "breakout") eqn:E1; [split; reflexivity|].
  destruct (String.eqb entry_type "pullback") eqn:E2; [split; reflexivity|].
  destruct (String.eqb entry_type "trend_follow");
    destruct (String.eqb entry_type "macd_cross");
    destruct (String.eqb entry_type "ma_cross"); split; reflexivity.
Qed.

End EntryTypeFacts.

(** ** Scans *)

Module ScanFacts.

Import Float FloatFacts.
Local Open Scope float_scope.

(** The symbols a scan analyses, the body it runs on each, and the
    candidates in the order of the loop, before ranking. *)
Definition btst_filtered (fetcher : DataFetcher) (criteria : BTST.BTSTCriteria)
  (symbols : option (list string)) : list string :=
  BTST.filter_symbols criteria
    (batch_fetch_current_data fetcher (get_or symbols (get_symbols fetcher))).

Definition btst_body (fetcher : DataFetcher) (criteria : BTST.BTSTCriteria)
  (symbols : option (list string)) : string -> exc (option BTST.BTSTCandidate.t) :=
  let filtered := btst_filtered fetcher criteria symbols in
  BTST.analyze_symbol criteria
    (batch_fetch_current_data fetcher (get_or symbols (get_symbols fetcher)))
    (batch_fetch_daily_data fetcher filtered 50)
    (batch_fetch_fundamentals fetcher filtered 50).

Definition btst_candidates (fetcher : DataFetcher)
  (criteria : BTST.BTSTCriteria) (symbols : option (list string))
  : list BTST.BTSTCandidate.t :=
  analyze_each (btst_body fetcher criteria symbols)
    (btst_filtered fetcher criteria symbols).

Definition swing_filtered (fetcher : DataFetcher)
  (criteria : Swing.SwingCriteria) (symbols : option (list string))
  : list string :=
  Swing.filter_symbols criteria
    (batch_fetch_fundamentals fetcher (get_or symbols (get_symbols fetcher)) 50).

Definition swing_body (fetcher : DataFetcher) (criteria : Swing.SwingCriteria)
  (symbols : option (list string))
  : string -> exc (option Swing.SwingCandidate.t) :=
  Swing.analyze_symbol criteria
    (batch_fetch_fundamentals fetcher (get_or symbols (get_symbols fetcher)) 50)
    (batch_fetch_daily_data fetcher (swing_filtered fetcher criteria symbols) 100).

Definition swing_candidates (fetcher : DataFetcher)
  (criteria : Swing.SwingCriteria) (symbols : option (list string))
  : list Swing.SwingCandidate.t :=
  analyze_each (swing_body fetcher criteria symbols)
    (swing_filtered fetcher criteria symbols).

Definition au_filtered (fetcher : DataFetcher)
  (criteria : AustraliaSwing.AustraliaSwingCriteria)
  (symbols : option (list string)) : list string :=
  AustraliaSwing.filter_symbols criteria
    (batch_fetch_fundamentals fetcher (get_or symbols (get_symbols fetcher)) 50).

Definition au_body (fetcher : DataFetcher)
  (criteria : AustraliaSwing.AustraliaSwingCriteria)
  (symbols : option (list string))
  : string -> exc (option AustraliaSwing.AustraliaSwingCandidate.t) :=
  AustraliaSwing.analyze_symbol criteria
    (batch_fetch_fundamentals fetcher (get_or symbols (get_symbols fetcher)) 50)
    (batch_fetch_daily_data fetcher (au_filtered fetcher criteria symbols) 300).

Definition au_candidates (fetcher : DataFetcher)
  (criteria : AustraliaSwing.AustraliaSwingCriteria)
  (symbols : option (list string))
  : list AustraliaSwing.AustraliaSwingCandidate.t :=
  analyze_each (au_body fetcher criteria symbols)
    (au_filtered fetcher criteria symbols).

Lemma slice_to_nil {A : Type} (m : Z) : slice_to (@nil A) m = [].
Proof. unfold slice_to. destruct (Z.leb 0 m); apply firstn_nil. Qed.

(** Each scan is the ranking of its candidates, cut to the limit. *)
Lemma scan_for_btst_ranked (fetcher : DataFetcher)
  (criteria : BTST.BTSTCriteria) (symbols : option (list string))
  (max_results : option Z) :
  BTST.scan_for_btst fetcher criteria symbols max_results
  = slice_to (sort_desc BTST.BTSTCandidate.score Z.leb
                (btst_candidates fetcher criteria symbols))
             (get_or max_results (BTST.max_results criteria)).
Proof.
  unfold BTST.scan_for_btst, btst_candidates, btst_body, btst_filtered.
  destruct (BTST.filter_symbols criteria _) eqn:E; [|reflexivity].
  cbn. symmetry. apply slice_to_nil.
Qed.

Lemma scan_for_swing_ranked (fetcher : DataFetcher)
  (criteria : Swing.SwingCriteria) (symbols : option (list string))
  (max_results : option Z) :
  Swing.scan_for_swing fetcher criteria symbols max_results
  = slice_to (sort_desc Swing.SwingCandidate.score Z.leb
                (swing_candidates fetcher criteria symbols))
             (get_or max_results (Swing.max_results criteria)).
Proof.
  unfold Swing.scan_for_swing, swing_candidates, swing_body, swing_filtered.
  destruct (Swing.filter_symbols criteria _) eqn:E; [|reflexivity].
  cbn. symmetry. apply slice_to_nil.
Qed.

Lemma au_scan_for_swing_ranked (fetcher : DataFetcher)
  (criteria : AustraliaSwing.AustraliaSwingCriteria)
  (symbols : option (list string)) (max_results : option Z) :
  AustraliaSwing.scan_for_swing fetcher criteria symbols max_results
  = slice_to (sort_desc AustraliaSwing.AustraliaSwingCandidate.score Qle_bool
                (au_candidates fetcher criteria symbols))
             (get_or max_results (AustraliaSwing.max_results criteria)).
Proof.
  unfold AustraliaSwing.scan_for_swing, au_candidates, au_body, au_filtered.
  destruct (AustraliaSwing.filter_symbols criteria _) eqn:E; [|reflexivity].
  cbn. symmetry. apply slice_to_nil.
Qed.

(** *** The pass threshold *)

Lemma check_btst_criteria_passed (criteria : BTST.BTSTCriteria)
  (current_data : Snapshot.t) (historical_df : option DataFrame)
  (fundamentals : Fundamentals.t) (score : Z) (reason : string) :
  BTST.check_btst_criteria criteria current_data historical_df fundamentals
  = inr (true, score, reason) ->
  (60 <= score)%Z.
Proof.
  unfold BTST.check_btst_criteria.
  destruct (BTST.gain_check criteria _) as [g r|r]; [|discriminate].
  destruct (BTST.volume_check criteria historical_df) as [e|[p1 r1]];
    [discriminate|].
  cbn [bind Monad_either].
  destruct (BTST.high_check _) as [p2 r2].
  destruct (BTST.trend_check historical_df) as [e|[p3 r3]]; [discriminate|].
  destruct (BTST.sector_check fundamentals) as [p4 r4].
  cbn [ret Monad_either]. intro H. inversion H as [[Hp Hs Hr]].
  apply Z.geb_le in Hp. rewrite Hs in Hp. lia.
Qed.

Lemma btst_analyze_symbol_score (criteria : BTST.BTSTCriteria)
  (cd : dict Snapshot.t) (hd : dict DataFrame) (fd : dict Fundamentals.t)
  (s : string) (c : BTST.BTSTCandidate.t) :
  BTST.analyze_symbol criteria cd hd fd s = inr (Some c) ->
  (60 <= BTST.BTSTCandidate.score c)%Z.
Proof.
  unfold BTST.analyze_symbol.
  destruct (dict_get cd s) as [current_data|]; [|discriminate].
  destruct (dict_get hd s) as [df|]; [|discriminate].
  destruct (BTST.check_btst_criteria criteria current_data _ _)
    as [e|[[passes score] reason]] eqn:Hc; [discriminate|].
  cbn [bind Monad_either].
  destruct passes; [|discriminate].
  match goal with
  | |- context [match ?m with inl _ => _ | inr _ => _ end] =>
      destruct m as [e|volume_ratio]; [discriminate|]
  end.
  cbn [ret Monad_either]. intro H. inversion H. cbn.
  eapply check_btst_criteria_passed. exact Hc.
Qed.

Lemma swing_analyze_symbol_score (criteria : Swing.SwingCriteria)
  (fd : dict Fundamentals.t) (hd : dict DataFrame)
  (s : string) (c : Swing.SwingCandidate.t) :
  Swing.analyze_symbol criteria fd hd s = inr (Some c) ->
  (65 <= Swing.SwingCandidate.score c)%Z.
Proof.
  unfold Swing.analyze_symbol.
  destruct (dict_get hd s) as [df|]; [|discriminate].
  destruct (dict_get fd s) as [fundamentals|]; [|discriminate].
  destruct (Swing.check_swing_criteria criteria _ fundamentals)
    as [e|[[[passes score] entry_type] reason]] eqn:Hc; [discriminate|].
  cbn [bind Monad_either].
  destruct passes; [|discriminate].
  repeat match goal with
  | |- context [match ?m with inl _ => _ | inr _ => _ end] =>
      destruct m as [?e|?v]; [discriminate|]
  | |- context [let '(_, _) := ?m in _] => destruct m
  end.
  cbn [ret Monad_either]. intro H. inversion H. cbn.
  destruct (SwingFacts.check_swing_criteria_inv _ _ _ _ _ _ _ Hc)
    as [[Hp _]|[df' [r [_ [_ [_ [_ Hp]]]]]]]; [discriminate|].
  symmetry in Hp. apply Z.geb_le in Hp. exact Hp.
Qed.

(** What an Australian candidate carries: the unweighted score times the
    weight of its sector. *)
Definition au_weighted (criteria : AustraliaSwing.AustraliaSwingCriteria)
  (c : AustraliaSwing.AustraliaSwingCandidate.t) : Prop :=
  exists unweighted : Z,
    (60 <= unweighted)%Z
    /\ AustraliaSwing.AustraliaSwingCandidate.score c
       = (inject_Z unweighted
          * AustraliaSwing.AustraliaSwingCandidate.sector_weight c)%Q
    /\ AustraliaSwing.AustraliaSwingCandidate.sector_weight c
       = get_or (dict_get (AustraliaSwing.sector_weights criteria)
                   (AustraliaSwing.AustraliaSwingCandidate.sector c))
                1%Q.

Lemma au_analyze_symbol_score (criteria : AustraliaSwing.AustraliaSwingCriteria)
  (fd : dict Fundamentals.t) (hd : dict DataFrame)
  (s : string) (c : AustraliaSwing.AustraliaSwingCandidate.t) :
  AustraliaSwing.analyze_symbol criteria fd hd s = inr (Some c) ->
  au_weighted criteria c.
Proof.
  unfold AustraliaSwing.analyze_symbol.
  destruct (dict_get hd s) as [df|]; [|discriminate].
  destruct (dict_get fd s) as [fundamentals|]; [|discriminate].
  destruct (AustraliaSwing.check_swing_criteria criteria _ fundamentals)
    as [e|[[[[passes score] entry_type] reason] weight]] eqn:Hc;
    [discriminate|].
  cbn [bind Monad_either].
  destruct passes; [|discriminate].
  destruct (AustraliaSwingFacts.au_check_swing_criteria_inv _ _ _ _ _ _ _ _ Hc)
    as [[Hp _]|[df' [r [_ [_ [_ [Hw [Hs Hp]]]]]]]]; [discriminate|].
  repeat match goal with
  | |- context [item_of ?f ?k] =>
      destruct f eqn:?; [cbn [item_of ret Monad_either] | cbn; discriminate]
  | |- context [match ?m with inl _ => _ | inr _ => _ end] =>
      destruct m as [?e|?v]; [discriminate|]
  | |- context [let '(_, _) := ?m in _] => destruct m
  end.
  intro H. inversion H.
  exists (AustraliaSwingFacts.total_score criteria r). cbn.
  symmetry in Hp. apply Z.geb_le in Hp.
  repeat split; assumption.
Qed.

Lemma ranked_In {A K : Type} (key : A -> K) (leb : K -> K -> bool)
  (l : list A) (m : Z) (x : A) :
  In x (slice_to (sort_desc key leb l) m) -> In x l.
Proof.
  intro H. apply slice_to_In in H.
  apply (Permutation_in _ (Permutation_sym (sort_desc_perm key leb l))) in H.
  exact H.
Qed.

(** A 50-bar history of steadily rising closes, with a last bar of twice
    the usual volume. *)
Definition rising_frame : DataFrame := {|
  Frame.index_len := 50;
  Frame.columns :=
    [("Close", map (fun i => of_Z (100 + Z.of_nat i)) (seq 1 50));
     ("Volume", (repeat (of_Z 100) 49 ++ [of_Z 200])%list)]
|}.

(** One symbol of the Information Technology sector (weight 0.8). *)
Definition tech_fetcher : DataFetcher := {|
  get_symbols := ["XRO.AX"];
  batch_fetch_current_data := fun _ => [];
  batch_fetch_daily_data := fun _ _ => [("XRO.AX", rising_frame)];
  batch_fetch_fundamentals :=
    fun _ _ =>
      [("XRO.AX", EntryTypeFacts.sound_fundamentals "Information Technology")]
|}.

(** C2, counterexample.  The Australian scan returns a candidate whose
    score is 54.4: the unweighted 68 passed the threshold of 60 and was then
    multiplied by the sector weight 0.8. *)
Lemma weighted_score_below_threshold :
  map (fun c => (AustraliaSwing.AustraliaSwingCandidate.symbol c,
                 AustraliaSwing.AustraliaSwingCandidate.score c,
                 AustraliaSwing.AustraliaSwingCandidate.sector_weight c))
      (AustraliaSwing.scan_for_swing tech_fetcher AustraliaSwing.Config_SWING
         None None)
  = [("XRO", (inject_Z 68 * (8 # 10))%Q, (8 # 10)%Q)]
  /\ (inject_Z 68 * (8 # 10) < 60)%Q.
Proof. split; [vm_compute; reflexivity | reflexivity]. Qed.

(** C2, as the code has it.  Every candidate in the output of the BTST scan
    has a score of at least 60 and every candidate of the India swing scan a
    score of at least 65.  Every candidate of the Australian swing scan
    carries the product of an unweighted score of at least 60 and the
    weight of its sector (1 for a sector without a weight): the threshold
    is compared with the unweighted score, and the carried score may be
    below 60 when the weight is below 1. *)
Theorem candidates_meet_threshold (fetcher : DataFetcher)
  (symbols : option (list string)) (max_results : option Z) :
  (forall criteria,
      Forall (fun c => (60 <= BTST.BTSTCandidate.score c)%Z)
        (BTST.scan_for_btst fetcher criteria symbols max_results))
  /\ (forall criteria,
        Forall (fun c => (65 <= Swing.SwingCandidate.score c)%Z)
          (Swing.scan_for_swing fetcher criteria symbols max_results))
  /\ (forall criteria,
        Forall (au_weighted criteria)
          (AustraliaSwing.scan_for_swing fetcher criteria symbols max_results)).
Proof.
  split; [|split]; intro criteria; apply Forall_forall; intros c Hc.
  - rewrite scan_for_btst_ranked in Hc. apply ranked_In in Hc.
    apply analyze_each_In in Hc. destruct Hc as [s [_ Hs]].
    eapply btst_analyze_symbol_score. exact Hs.
  - rewrite scan_for_swing_ranked in Hc. apply ranked_In in Hc.
    apply analyze_each_In in Hc. destruct Hc as [s [_ Hs]].
    eapply swing_analyze_symbol_score. exact Hs.
  - rewrite au_scan_for_swing_ranked in Hc. apply ranked_In in Hc.
    apply analyze_each_In in Hc. destruct Hc as [s [_ Hs]].
    eapply au_analyze_symbol_score. exact Hs.
Qed.

(** *** Ranking of the output *)

Definition snapshot_for (sym : string) (high_prox : float) : Snapshot.t := {|
  Snapshot.symbol := sym;
  Snapshot.current_price := of_Z 105;
  Snapshot.day_change_pct := dec 25 1;
  Snapshot.high_proximity_pct := high_prox
|}.

Definition two_bar_frame : DataFrame := {|
  Frame.index_len := 2;
  Frame.columns :=
    [("Close", [of_Z 100; of_Z 105]); ("Volume", [of_Z 1000; of_Z 1800])]
|}.

(** Three symbols with a 2.5% gain; the second and the third close nearer
    to the high and tie at 85 points, the first scores 80. *)
Definition three_symbol_fetcher : DataFetcher := {|
  get_symbols := ["INFY.NS"; "SBIN.NS"; "ITC.NS"];
  batch_fetch_current_data :=
    fun _ =>
      [("INFY.NS", snapshot_for "INFY" (of_Z 85));
       ("SBIN.NS", snapshot_for "SBIN" (of_Z 95));
       ("ITC.NS", snapshot_for "ITC" (of_Z 95))];
  batch_fetch_daily_data :=
    fun _ _ =>
      [("INFY.NS", two_bar_frame); ("SBIN.NS", two_bar_frame);
       ("ITC.NS", two_bar_frame)];
  batch_fetch_fundamentals := fun _ _ => []
|}.

Example three_symbol_scan :
  map (fun c => (BTST.BTSTCandidate.symbol c, BTST.BTSTCandidate.score c))
      (BTST.scan_for_btst three_symbol_fetcher BTST.Config_BTST None (Some 2%Z))
  = [("SBIN", 85%Z); ("ITC", 85%Z)].
Proof. vm_compute. reflexivity. Qed.

(** C9, counterexample.  With [max_results = -1] the slice
    [candidates[:-1]] drops the last of the three ranked candidates and
    returns the other two: more than [max_results]. *)
Lemma negative_max_results_exceeds_limit :
  map BTST.BTSTCandidate.symbol
      (BTST.scan_for_btst three_symbol_fetcher BTST.Config_BTST None
         (Some (-1)%Z))
  = ["SBIN"; "ITC"]
  /\ ~ (Z.of_nat
          (List.length
             (BTST.scan_for_btst three_symbol_fetcher BTST.Config_BTST None
                (Some (-1)%Z)))
        <= -1)%Z.
Proof.
  split; [vm_compute; reflexivity|].
  intro H. vm_compute in H. apply H. reflexivity.
Qed.

(** C9, as the code has it.  With a non-negative limit ([max_results], or
    the policy's [max_results] when none is given) the output of each scan
    has at most
    that many candidates, is sorted by non-increasing score, and is the head
    of a stable descending ranking of the candidates in the order in which
    the loop produced them: candidates of equal score keep that order, and
    the cut comes after the sort. *)
Theorem ranked_output (fetcher : DataFetcher) (symbols : option (list string))
  (max_results : option Z) :
  (forall criteria,
      (0 <= get_or max_results (BTST.max_results criteria))%Z ->
      let out := BTST.scan_for_btst fetcher criteria symbols max_results in
      (Z.of_nat (List.length out)
       <= get_or max_results (BTST.max_results criteria))%Z
      /\ StronglySorted
           (fun a b => (BTST.BTSTCandidate.score b
                        <= BTST.BTSTCandidate.score a)%Z) out
      /\ ranked_prefix BTST.BTSTCandidate.score Z.leb
           (btst_candidates fetcher criteria symbols) out)
  /\ (forall criteria,
        (0 <= get_or max_results (Swing.max_results criteria))%Z ->
        let out := Swing.scan_for_swing fetcher criteria symbols max_results in
        (Z.of_nat (List.length out)
         <= get_or max_results (Swing.max_results criteria))%Z
        /\ StronglySorted
             (fun a b => (Swing.SwingCandidate.score b
                          <= Swing.SwingCandidate.score a)%Z) out
        /\ ranked_prefix Swing.SwingCandidate.score Z.leb
             (swing_candidates fetcher criteria symbols) out)
  /\ (forall criteria,
        (0 <= get_or max_results (AustraliaSwing.max_results criteria))%Z ->
        let out :=
          AustraliaSwing.scan_for_swing fetcher criteria symbols max_results in
        (Z.of_nat (List.length out)
         <= get_or max_results (AustraliaSwing.max_results criteria))%Z
        /\ StronglySorted
             (fun a b => (AustraliaSwing.AustraliaSwingCandidate.score b
                          <= AustraliaSwing.AustraliaSwingCandidate.score a)%Q)
             out
        /\ ranked_prefix AustraliaSwing.AustraliaSwingCandidate.score Qle_bool
             (au_candidates fetcher criteria symbols) out).
Proof.
  split; [|split]; intros criteria Hm out; subst out.
  - rewrite scan_for_btst_ranked. split; [|split].
    + apply slice_to_length, Hm.
    + apply slice_to_sorted.
      apply (StronglySorted_impl (ranks_before BTST.BTSTCandidate.score Z.leb)).
      * intros a b H. apply Z.leb_le, H.
      * apply sort_desc_sorted; [exact Zleb_total | exact Zleb_trans].
    + apply slice_sort_ranked_prefix; [exact Zleb_total | exact Zleb_trans].
  - rewrite scan_for_swing_ranked. split; [|split].
    + apply slice_to_length, Hm.
    + apply slice_to_sorted.
      apply (StronglySorted_impl (ranks_before Swing.SwingCandidate.score Z.leb)).
      * intros a b H. apply Z.leb_le, H.
      * apply sort_desc_sorted; [exact Zleb_total | exact Zleb_trans].
    + apply slice_sort_ranked_prefix; [exact Zleb_total | exact Zleb_trans].
  - rewrite au_scan_for_swing_ranked. split; [|split].
    + apply slice_to_length, Hm.
    + apply slice_to_sorted.
      apply (StronglySorted_impl
               (ranks_before AustraliaSwing.AustraliaSwingCandidate.score
                  Qle_bool)).
      * intros a b H. apply Qle_bool_iff, H.
      * apply sort_desc_sorted; [exact Qle_bool_total | exact Qle_bool_trans].
    + apply slice_sort_ranked_prefix;
        [exact Qle_bool_total | exact Qle_bool_trans].
Qed.

Lemma ranked_output_witness :
  (let out :=
     BTST.scan_for_btst three_symbol_fetcher BTST.Config_BTST None (Some 2%Z) in
   (Z.of_nat (List.length out) <= 2)%Z
   /\ StronglySorted
        (fun a b => (BTST.BTSTCandidate.score b
                     <= BTST.BTSTCandidate.score a)%Z) out
   /\ ranked_prefix BTST.BTSTCandidate.score Z.leb
        (btst_candidates three_symbol_fetcher BTST.Config_BTST None) out)
  /\ (let out :=
        Swing.scan_for_swing tech_fetcher Swing.Config_SWING None None in
      (Z.of_nat (List.length out) <= 15)%Z
      /\ StronglySorted
           (fun a b => (Swing.SwingCandidate.score b
                        <= Swing.SwingCandidate.score a)%Z) out
      /\ ranked_prefix Swing.SwingCandidate.score Z.leb
           (swing_candidates tech_fetcher Swing.Config_SWING None) out)
  /\ (let out :=
        AustraliaSwing.scan_for_swing tech_fetcher AustraliaSwing.Config_SWING
          None None in
      (Z.of_nat (List.length out) <= 15)%Z
      /\ StronglySorted
           (fun a b => (AustraliaSwing.AustraliaSwingCandidate.score b
                        <= AustraliaSwing.AustraliaSwingCandidate.score a)%Q)
           out
      /\ ranked_prefix AustraliaSwing.AustraliaSwingCandidate.score Qle_bool
           (au_candidates tech_fetcher AustraliaSwing.Config_SWING None) out).
Proof.
  split; [|split].
  - apply (proj1 (ranked_output three_symbol_fetcher None (Some 2%Z))
             BTST.Config_BTST).
    cbn. lia.
  - apply (proj1 (proj2 (ranked_output tech_fetcher None None))
             Swing.Config_SWING).
    cbn. lia.
  - apply (proj2 (proj2 (ranked_output tech_fetcher None None))
             AustraliaSwing.Config_SWING).
    cbn. lia.
Defined.

(** *** Isolation of a failing symbol *)

(** The output of a scan when the loop runs over [l1 ++ s :: l2] and the
    body raises on [s]: the ranking of what the other symbols contribute,
    each candidate coming from a symbol other than [s]. *)
Definition isolates {C K : Type} (key : C -> K) (leb : K -> K -> bool)
  (body : string -> exc (option C)) (l1 : list string) (s : string)
  (l2 : list string) (limit : Z) (out : list C) : Prop :=
  out = slice_to (sort_desc key leb (flat_map (contribution body) (l1 ++ l2)))
                 limit
  /\ forall c, In c out ->
       exists s', In s' (l1 ++ l2) /\ s' <> s /\ body s' = inr (Some c).

Lemma ranked_isolates {C K : Type} (key : C -> K) (leb : K -> K -> bool)
  (body : string -> exc (option C)) (l1 l2 : list string) (s : string)
  (e : exn) (limit : Z) :
  body s = inl e ->
  isolates key leb body l1 s l2 limit
    (slice_to (sort_desc key leb (analyze_each body (l1 ++ s :: l2))) limit).
Proof.
  intro He. rewrite (analyze_each_skips_raise body l1 l2 s e He).
  split.
  - rewrite analyze_each_flat_map. reflexivity.
  - intros c Hc. apply ranked_In in Hc. apply analyze_each_In in Hc.
    destruct Hc as [s' [Hs' Hb]]. exists s'. repeat split; try assumption.
    intros ->. rewrite He in Hb. discriminate.
Qed.

(** The exception that stops the indicator computation, if any: it is
    caught there and never reaches the loop of a scan. *)
Fixpoint first_failure (steps : list (DataFrame -> exc DataFrame))
  (df : DataFrame) : option exn :=
  match steps with
  | [] => None
  | st :: rest =>
      match st df with
      | inr df' => first_failure rest df'
      | inl e => Some e
      end
  end.

(** A history without a Volume column: the indicator computation raises at
    [df['Volume']], after the columns computed from Close are assigned. *)
Definition frame_without_volume : DataFrame := {|
  Frame.index_len := 2;
  Frame.columns := [("Close", [of_Z 100; of_Z 105])]
|}.

Definition fetcher_without_volume : DataFetcher := {|
  get_symbols := ["INFY.NS"];
  batch_fetch_current_data :=
    fun _ => [("INFY.NS", snapshot_for "INFY" (of_Z 95))];
  batch_fetch_daily_data := fun _ _ => [("INFY.NS", frame_without_volume)];
  batch_fetch_fundamentals := fun _ _ => []
|}.

(** C4, counterexample.  The indicator computation of the only symbol
    raises KeyError('Volume'); [calculate_technical_indicators] catches it
    and returns the frame with the columns assigned so far, the criteria
    are evaluated on that frame, and the symbol is in the output with 75
    points. *)
Lemma indicator_failure_keeps_symbol :
  first_failure (Indicators.indicator_steps Indicators.TECHNICAL "india")
    frame_without_volume
  = Some (KeyError "Volume")
  /\ map (fun c => (BTST.BTSTCandidate.symbol c, BTST.BTSTCandidate.score c))
       (BTST.scan_for_btst fetcher_without_volume BTST.Config_BTST None None)
     = [("INFY", 75%Z)].
Proof. split; vm_compute; reflexivity. Qed.

(** C4, as the code has it.  When the body of the loop of a scan raises for
    one symbol (in the criteria evaluation or while the candidate is
    built), the scan still returns its ranked list: the list is the ranking
    of the candidates of the other symbols, each evaluated by the same body
    on the same data, and no candidate comes from the symbol that raised.
    An exception inside the indicator computation is caught there and is
    not such a raise. *)
Theorem scan_isolates_failure (fetcher : DataFetcher)
  (symbols : option (list string)) (max_results : option Z) :
  (forall criteria l1 s l2 e,
      btst_filtered fetcher criteria symbols = (l1 ++ s :: l2)%list ->
      btst_body fetcher criteria symbols s = inl e ->
      isolates BTST.BTSTCandidate.score Z.leb
        (btst_body fetcher criteria symbols) l1 s l2
        (get_or max_results (BTST.max_results criteria))
        (BTST.scan_for_btst fetcher criteria symbols max_results))
  /\ (forall criteria l1 s l2 e,
        swing_filtered fetcher criteria symbols = (l1 ++ s :: l2)%list ->
        swing_body fetcher criteria symbols s = inl e ->
        isolates Swing.SwingCandidate.score Z.leb
          (swing_body fetcher criteria symbols) l1 s l2
          (get_or max_results (Swing.max_results criteria))
          (Swing.scan_for_swing fetcher criteria symbols max_results))
  /\ (forall criteria l1 s l2 e,
        au_filtered fetcher criteria symbols = (l1 ++ s :: l2)%list ->
        au_body fetcher criteria symbols s = inl e ->
        isolates AustraliaSwing.AustraliaSwingCandidate.score Qle_bool
          (au_body fetcher criteria symbols) l1 s l2
          (get_or max_results (AustraliaSwing.max_results criteria))
          (AustraliaSwing.scan_for_swing fetcher criteria symbols max_results)).
Proof.
  split; [|split]; intros criteria l1 s l2 e Hf He.
  - rewrite scan_for_btst_ranked. unfold btst_candidates. rewrite Hf.
    apply (ranked_isolates _ _ _ _ _ _ e). exact He.
  - rewrite scan_for_swing_ranked. unfold swing_candidates. rewrite Hf.
    apply (ranked_isolates _ _ _ _ _ _ e). exact He.
  - rewrite au_scan_for_swing_ranked. unfold au_candidates. rewrite Hf.
    apply (ranked_isolates _ _ _ _ _ _ e). exact He.
Qed.

(** A history with an EMA_20 column and no Close column: the indicator
    computation stops at its first statement and leaves the frame as it is,
    and the BTST trend check raises on [latest['Close']]. *)
Definition frame_without_close : DataFrame := {|
  Frame.index_len := 2;
  Frame.columns := [("EMA_20", [of_Z 100; of_Z 101])]
|}.

Definition fetcher_with_bad_frame : DataFetcher := {|
  get_symbols := ["INFY.NS"; "SBIN.NS"; "ITC.NS"];
  batch_fetch_current_data :=
    fun _ =>
      [("INFY.NS", snapshot_for "INFY" (of_Z 85));
       ("SBIN.NS", snapshot_for "SBIN" (of_Z 95));
       ("ITC.NS", snapshot_for "ITC" (of_Z 95))];
  batch_fetch_daily_data :=
    fun _ _ =>
      [("INFY.NS", two_bar_frame); ("SBIN.NS", frame_without_close);
       ("ITC.NS", two_bar_frame)];
  batch_fetch_fundamentals := fun _ _ => []
|}.

(** A 50-bar history without a Close column, next to a sound one. *)
Definition long_frame_without_close : DataFrame := {|
  Frame.index_len := 50;
  Frame.columns := [("Volume", repeat (of_Z 100) 50)]
|}.

Definition swing_fetcher_with_bad_frame : DataFetcher := {|
  get_symbols := ["BAD.NS"; "GOOD.NS"];
  batch_fetch_current_data := fun _ => [];
  batch_fetch_daily_data :=
    fun _ _ => [("BAD.NS", long_frame_without_close); ("GOOD.NS", rising_frame)];
  batch_fetch_fundamentals :=
    fun _ _ =>
      [("BAD.NS", EntryTypeFacts.sound_fundamentals "Energy");
       ("GOOD.NS", EntryTypeFacts.sound_fundamentals "Energy")]
|}.

Example scan_with_bad_frame :
  map (fun c => (BTST.BTSTCandidate.symbol c, BTST.BTSTCandidate.score c))
      (BTST.scan_for_btst fetcher_with_bad_frame BTST.Config_BTST None None)
  = [("ITC", 85%Z); ("INFY", 80%Z)]
  /\ map (fun c => (Swing.SwingCandidate.symbol c, Swing.SwingCandidate.score c))
       (Swing.scan_for_swing swing_fetcher_with_bad_frame Swing.Config_SWING
          None None)
     = [("GOOD", 75%Z)]
  /\ map AustraliaSwing.AustraliaSwingCandidate.symbol
       (AustraliaSwing.scan_for_swing swing_fetcher_with_bad_frame
          AustraliaSwing.Config_SWING None None)
     = ["GOOD.NS"].
Proof. split; [|split]; vm_compute; reflexivity. Qed.

Lemma scan_isolates_failure_witness :
  isolates BTST.BTSTCandidate.score Z.leb
    (btst_body fetcher_with_bad_frame BTST.Config_BTST None)
    ["INFY.NS"] "SBIN.NS" ["ITC.NS"] 10%Z
    (BTST.scan_for_btst fetcher_with_bad_frame BTST.Config_BTST None None)
  /\ isolates Swing.SwingCandidate.score Z.leb
       (swing_body swing_fetcher_with_bad_frame Swing.Config_SWING None)
       [] "BAD.NS" ["GOOD.NS"] 15%Z
       (Swing.scan_for_swing swing_fetcher_with_bad_frame Swing.Config_SWING
          None None)
  /\ isolates AustraliaSwing.AustraliaSwingCandidate.score Qle_bool
       (au_body swing_fetcher_with_bad_frame AustraliaSwing.Config_SWING None)
       [] "BAD.NS" ["GOOD.NS"] 15%Z
       (AustraliaSwing.scan_for_swing swing_fetcher_with_bad_frame
          AustraliaSwing.Config_SWING None None).
Proof.
  split; [|split].
  - apply (proj1 (scan_isolates_failure fetcher_with_bad_frame None None)
             BTST.Config_BTST ["INFY.NS"] "SBIN.NS" ["ITC.NS"]
             (KeyError "Close")); reflexivity.
  - apply (proj1 (proj2 (scan_isolates_failure swing_fetcher_with_bad_frame
                           None None))
             Swing.Config_SWING [] "BAD.NS" ["GOOD.NS"] (KeyError "Close"));
      reflexivity.
  - apply (proj2 (proj2 (scan_isolates_failure swing_fetcher_with_bad_frame
                           None None))
             AustraliaSwing.Config_SWING [] "BAD.NS" ["GOOD.NS"]
             (KeyError "Close")); reflexivity.
Defined.

End ScanFacts.

(** ** The momentum oscillator *)

Module IndicatorFacts.

Import Float FloatFacts Indicators.
Local Open Scope float_scope.

(** The two rolling averages of the RSI computation: [gain] and [loss]. *)
Definition avg_gain (period : nat) (close : list float) : list float :=
  rolling_mean period
    (where_ (fun d => d >? of_Z 0) (of_Z 0) (diff close)).

Definition avg_loss (period : nat) (close : list float) : list float :=
  rolling_mean period
    (map neg (where_ (fun d => d <? of_Z 0) (of_Z 0) (diff close))).

(** [100 - 100 / (1 + gain / loss)] *)
Definition rsi_of (gain loss : float) : float :=
  of_Z 100 - (of_Z 100 / (of_Z 1 + gain / loss)).

Lemma rsi_unfold (period : nat) (close : list float) :
  rsi period close
  = map (fun p => rsi_of (fst p) (snd p))
        (combine (avg_gain period close) (avg_loss period close)).
Proof.
  unfold rsi, zip_with, avg_gain, avg_loss, rsi_of.
  rewrite map_map. reflexivity.
Qed.

(** A finite value that is not negative. *)
Definition nonneg (x : float) : Prop :=
  match x with
  | Fin q => (0 <= q)%Q
  | _ => False
  end.

Definition nan_or_nonneg (x : float) : Prop := x = NaN \/ nonneg x.

Definition fin_or_nan (x : float) : Prop :=
  match x with
  | Fin _ | NaN => True
  | _ => False
  end.

(** Undefined, or a finite value within [0, 100]. *)
Definition in_rsi_range (x : float) : Prop :=
  match x with
  | NaN => True
  | Fin q => (0 <= q <= 100)%Q
  | _ => False
  end.

Lemma diff_fin_or_nan (qs : list Q) :
  Forall fin_or_nan (diff (map Fin qs)).
Proof.
  unfold diff. destruct qs as [|q qs]; [constructor|].
  cbn [map]. constructor; [exact I|].
  unfold zip_with. apply Forall_forall. intros x Hx.
  apply in_map_iff in Hx. destruct Hx as [[a b] [<- Hab]].
  pose proof (in_combine_l _ _ _ _ Hab) as Ha.
  pose proof (in_combine_r _ _ _ _ Hab) as Hb.
  apply in_map_iff in Ha. destruct Ha as [qa [<- _]].
  change (Fin q :: map Fin qs) with (map Fin (q :: qs)) in Hb.
  apply in_map_iff in Hb. destruct Hb as [qb [<- _]].
  exact I.
Qed.

Lemma gains_nonneg (qs : list Q) :
  Forall nonneg (where_ (fun d => d >? of_Z 0) (of_Z 0) (diff (map Fin qs))).
Proof.
  unfold where_. apply Forall_map.
  eapply Forall_impl; [|apply diff_fin_or_nan].
  intros [d| | |] Hd; try contradiction.
  - destruct (Fin d >? of_Z 0) eqn:E; cbn.
    + apply (ltb_Fin (inject_Z 0) d) in E. apply Qlt_le_weak, E.
    + apply Qle_refl.
  - cbn. apply Qle_refl.
Qed.

Lemma losses_nonneg (qs : list Q) :
  Forall nonneg
    (map neg (where_ (fun d => d <? of_Z 0) (of_Z 0) (diff (map Fin qs)))).
Proof.
  unfold where_. rewrite map_map. apply Forall_map.
  eapply Forall_impl; [|apply diff_fin_or_nan].
  intros [d| | |] Hd; try contradiction.
  - destruct (Fin d <? of_Z 0) eqn:E; cbn.
    + apply (ltb_Fin d (inject_Z 0)) in E. apply Qlt_le_weak in E.
      apply (Qopp_le_compat d 0) in E. exact E.
    + discriminate.
  - cbn. discriminate.
Qed.

Lemma fsum_nonneg (l : list float) : Forall nonneg l -> nonneg (fsum l).
Proof.
  induction 1 as [|x l Hx Hl IH].
  - cbn. discriminate.
  - change (fsum (x :: l)) with (x + fsum l).
    destruct x as [q| | |]; try contradiction.
    destruct (fsum l) as [s| | |]; try contradiction.
    cbn [add nonneg] in *. rewrite Qred_correct.
    rewrite <- (Qplus_0_l 0). apply Qplus_le_compat; assumption.
Qed.

Lemma fsum_nil_zero (l : list float) :
  List.length l = O -> fsum l = of_Z 0.
Proof. destruct l; [reflexivity | discriminate]. Qed.

Lemma mean_nan_or_nonneg (l : list float) :
  Forall nonneg l -> nan_or_nonneg (mean l).
Proof.
  intro H. unfold mean.
  pose proof (fsum_nonneg l H) as Hs.
  destruct (List.length l) as [|n] eqn:En.
  - rewrite (fsum_nil_zero l En). left. reflexivity.
  - destruct (fsum l) as [s| | |]; try contradiction.
    right. unfold Indicators.of_nat, of_Z. cbn [div].
    assert (Hpos : (0 < inject_Z (Z.of_nat (S n)))%Q).
    { change 0%Q with (inject_Z 0). rewrite <- Zlt_Qlt. lia. }
    destruct (Qeq_bool (inject_Z (Z.of_nat (S n))) 0) eqn:E.
    + apply Qeq_bool_iff in E. rewrite E in Hpos.
      exfalso. apply (Qlt_irrefl 0 Hpos).
    + cbn [nonneg] in *. rewrite Qred_correct.
      apply Qle_shift_div_l; [exact Hpos|].
      rewrite Qmult_0_l. exact Hs.
Qed.

Lemma window_incl (w i : nat) (l : list float) (x : float) :
  In x (window w i l) -> In x l.
Proof.
  unfold window. intro H.
  pose proof (firstn_skipn (i + 1 - w) (firstn (i + 1) l)) as E.
  assert (Hf : In x (firstn (i + 1) l)).
  { rewrite <- E. apply in_or_app. right. exact H. }
  rewrite <- (firstn_skipn (i + 1) l). apply in_or_app. left. exact Hf.
Qed.

Lemma rolling_mean_nan_or_nonneg (w : nat) (l : list float) :
  Forall nonneg l -> Forall nan_or_nonneg (rolling_mean w l).
Proof.
  intro H. unfold rolling_mean. apply Forall_map, Forall_forall.
  intros i _. destruct (Nat.ltb (i + 1) w); [left; reflexivity|].
  apply mean_nan_or_nonneg. apply Forall_forall. intros x Hx.
  rewrite Forall_forall in H. apply H. eapply window_incl. exact Hx.
Qed.

(** The oscillator of two averages that are undefined or not negative. *)
Lemma rsi_of_range (gain loss : float) :
  nan_or_nonneg gain -> nan_or_nonneg loss -> in_rsi_range (rsi_of gain loss).
Proof.
  intros [->|Hg] [->|Hl]; try exact I.
  - destruct gain; exact I.
  - destruct gain as [g| | |]; try contradiction.
    destruct loss as [l| | |]; try contradiction.
    unfold rsi_of, of_Z. cbn [div].
    destruct (Qeq_bool l 0) eqn:El.
    + unfold Qsgn. destruct g as [gn gd]. cbn [Qnum Z.sgn].
      destruct gn as [|p|p].
      * exact I.
      * cbn [Z.sgn signed_inf add sub neg div in_rsi_range].
        rewrite !Qred_correct. split; vm_compute; discriminate.
      * exfalso. cbn [nonneg] in Hg. unfold Qle in Hg. cbn in Hg. lia.
    + cbn [nonneg] in Hg, Hl.
      assert (Hlpos : (0 < l)%Q).
      { apply Qle_lteq in Hl. destruct Hl as [Hl|Hl]; [exact Hl|].
        symmetry in Hl. apply Qeq_bool_iff in Hl. congruence. }
      assert (Hr : (0 <= Qred (g / l))%Q).
      { rewrite Qred_correct. apply Qle_shift_div_l; [exact Hlpos|].
        rewrite Qmult_0_l. exact Hg. }
      set (r := Qred (g / l)) in *.
      cbn [add].
      assert (Hone : (1 <= Qred (inject_Z 1 + r))%Q).
      { rewrite Qred_correct. change (inject_Z 1) with 1%Q.
        rewrite <- (Qplus_0_r 1) at 1. apply Qplus_le_compat;
          [apply Qle_refl | exact Hr]. }
      set (d := Qred (inject_Z 1 + r)) in *.
      assert (Hdpos : (0 < d)%Q).
      { eapply Qlt_le_trans; [|exact Hone]. reflexivity. }
      cbn [div].
      destruct (Qeq_bool d 0) eqn:Ed.
      { apply Qeq_bool_iff in Ed. rewrite Ed in Hdpos.
        exfalso. apply (Qlt_irrefl 0 Hdpos). }
      cbn [sub add neg in_rsi_range]. rewrite !Qred_correct.
      change (inject_Z 100) with 100%Q.
      assert (Hq0 : (0 <= 100 / d)%Q).
      { apply Qle_shift_div_l; [exact Hdpos|]. rewrite Qmult_0_l. discriminate. }
      assert (Hq1 : (100 / d <= 100)%Q).
      { apply Qle_shift_div_r; [exact Hdpos|].
        rewrite <- (Qmult_1_r 100) at 1.
        apply Qmult_le_l; [reflexivity | exact Hone]. }
      generalize dependent (100 / d)%Q. intros x Hx0 Hx1.
      clear - Hx0 Hx1. split; lra.
Qed.

(** The first half of C5: wherever the RSI of a series of finite closes is
    defined (not NaN), it is a finite value within [0, 100]. *)
Lemma rsi_in_range (period : nat) (closes : list Q) (i : nat) (v : float) :
  nth_error (rsi period (map Fin closes)) i = Some v -> in_rsi_range v.
Proof.
  rewrite rsi_unfold. intro H. apply nth_error_In in H.
  apply in_map_iff in H. destruct H as [[g l] [<- Hgl]].
  pose proof (in_combine_l _ _ _ _ Hgl) as Hg.
  pose proof (in_combine_r _ _ _ _ Hgl) as Hl.
  cbn [fst snd]. apply rsi_of_range.
  - pose proof (rolling_mean_nan_or_nonneg period _ (gains_nonneg closes)) as F.
    rewrite Forall_forall in F. apply F, Hg.
  - pose proof (rolling_mean_nan_or_nonneg period _ (losses_nonneg closes)) as F.
    rewrite Forall_forall in F. apply F, Hl.
Qed.

Lemma nth_error_combine {A B : Type} (a : list A) (b : list B) (i : nat)
  (x : A) (y : B) :
  nth_error a i = Some x -> nth_error b i = Some y ->
  nth_error (combine a b) i = Some (x, y).
Proof.
  revert b i. induction a as [|a0 a IH]; intros [|b0 b] [|i]; cbn;
    try discriminate.
  - intros H1 H2. inversion H1. inversion H2. reflexivity.
  - apply IH.
Qed.

(** The saturating case of C5: a zero average loss with a positive average
    gain gives exactly 100. *)
Lemma rsi_saturates (period : nat) (close : list float) (i : nat) (g l : Q) :
  nth_error (avg_gain period close) i = Some (Fin g) ->
  nth_error (avg_loss period close) i = Some (Fin l) ->
  (0 < g)%Q -> (l == 0)%Q ->
  exists q, nth_error (rsi period close) i = Some (Fin q) /\ (q == 100)%Q.
Proof.
  intros Hg Hl Hpos Hz. rewrite rsi_unfold.
  rewrite (nth_error_map _ _ _).
  rewrite (nth_error_combine _ _ _ _ _ Hg Hl). cbn [option_map fst snd].
  unfold rsi_of. cbn [div].
  apply Qeq_bool_iff in Hz. rewrite Hz.
  assert (Hs : exists p, Qnum g = Zpos p).
  { destruct g as [[|p|p] gd]; unfold Qlt in Hpos; cbn in Hpos; try lia.
    exists p. reflexivity. }
  destruct Hs as [p Hp]. unfold Qsgn. rewrite Hp.
  cbn [Z.sgn signed_inf add sub neg div of_Z].
  eexists. split; [reflexivity|]. rewrite !Qred_correct. reflexivity.
Qed.

(** The undefined case: a zero average loss with a zero average gain
    gives NaN. *)
Lemma rsi_flat_window_nan (period : nat) (close : list float) (i : nat)
  (g l : Q) :
  nth_error (avg_gain period close) i = Some (Fin g) ->
  nth_error (avg_loss period close) i = Some (Fin l) ->
  (g == 0)%Q -> (l == 0)%Q ->
  nth_error (rsi period close) i = Some NaN.
Proof.
  intros Hg Hl Hgz Hz. rewrite rsi_unfold.
  rewrite (nth_error_map _ _ _).
  rewrite (nth_error_combine _ _ _ _ _ Hg Hl). cbn [option_map fst snd].
  unfold rsi_of. cbn [div].
  apply Qeq_bool_iff in Hz. rewrite Hz.
  assert (Hs : Qnum g = 0%Z).
  { unfold Qeq in Hgz. cbn in Hgz. lia. }
  unfold Qsgn. rewrite Hs. reflexivity.
Qed.

(** Fourteen equal closes, and a 50-bar history of equal closes. *)
Definition flat_closes : list float := repeat (of_Z 10) 14.

Definition flat_frame : DataFrame := {|
  Frame.index_len := 50;
  Frame.columns :=
    [("Close", repeat (of_Z 10) 50); ("Volume", repeat (of_Z 1000) 50)]
|}.

(** The RSI that an evaluation reads from the last row of the history once
    the indicators are computed. *)
Definition latest_rsi (df : DataFrame) : exc float :=
  match calculate_technical_indicators TECHNICAL "india" (Some df) with
  | Some df' =>
      latest <- Frame.iloc_back df' 1 ;;
      ret (Frame.get latest "RSI" (of_Z 50))
  | None => raise (AttributeError "iloc")
  end.

(** C5 at its failing input.  Over a window of equal closes no delta is
    negative and the average loss is zero, and so is the average gain: the
    ratio is 0 / 0 and the RSI is NaN, not 100.  The NaN reaches the
    scoring: every comparison of the RSI check with it is false and the
    check gives no points. *)
Theorem rsi_of_flat_closes :
  nth_error (avg_gain 14 flat_closes) 13 = Some (of_Z 0)
  /\ nth_error (avg_loss 14 flat_closes) 13 = Some (of_Z 0)
  /\ nth_error (rsi 14 flat_closes) 13 = Some NaN
  /\ latest_rsi flat_frame = inr NaN
  /\ Swing.rsi_check Swing.Config_SWING NaN "none" = (0%Z, "none", "⚠ RSI nan")
  /\ AustraliaSwing.rsi_check AustraliaSwing.Config_SWING NaN "none"
     = (0%Z, "none", "RSI nan").
Proof. repeat split; vm_compute; reflexivity. Qed.

(** For contrast: closes that rise by one each bar have a zero average
    loss and a positive average gain, and an RSI of 100. *)
Example rsi_of_rising_closes :
  nth_error (rsi 14 (map of_Z [1; 2; 3; 4; 5; 6; 7; 8; 9; 10; 11; 12; 13; 14]%Z))
            13
  = Some (of_Z 100).
Proof. vm_compute. reflexivity. Qed.

End IndicatorFacts.

(** * Further properties *)

(** ** The frame through the indicator computation *)

Module FrameFacts.

Import Float Indicators.
Local Open Scope float_scope.

Lemma run_steps_invariant (P : DataFrame -> Prop)
  (steps : list (DataFrame -> exc DataFrame)) (df : DataFrame) :
  Forall (fun st => forall d d', P d -> st d = inr d' -> P d') steps ->
  P df -> P (run_steps steps df).
Proof.
  intro H. revert df. induction H as [|st steps Hst Hsteps IH]; intros df Hdf.
  - exact Hdf.
  - cbn [run_steps]. destruct (st df) as [e|df'] eqn:E; [exact Hdf|].
    apply IH. eapply Hst; eauto.
Qed.

Lemma dict_get_set {A : Type} (d : dict A) (k k' : string) (v : A) :
  dict_get (Frame.dict_set d k v) k'
  = if String.eqb k' k then Some v else dict_get d k'.
Proof.
  induction d as [|[k0 v0] d IH]; cbn [Frame.dict_set dict_get].
  - destruct (String.eqb k' k); reflexivity.
  - destruct (String.eqb k k0) eqn:E.
    + apply String.eqb_eq in E. subst k0. cbn [dict_get].
      destruct (String.eqb k' k); reflexivity.
    + cbn [dict_get]. destruct (String.eqb k' k0) eqn:E0.
      * apply String.eqb_eq in E0. subst k0.
        rewrite String.eqb_sym, E. reflexivity.
      * exact IH.
Qed.

Lemma column_set_other (df : DataFrame) (k k' : string) (v : list float) :
  String.eqb k' k = false ->
  Frame.column (Frame.set_column df k v) k' = Frame.column df k'.
Proof.
  intro H. unfold Frame.column, Frame.set_column. cbn [Frame.columns Frame.index_len].
  rewrite dict_get_set, H. reflexivity.
Qed.

Lemma has_column_set (df : DataFrame) (k k' : string) (v : list float) :
  Frame.has_column (Frame.set_column df k v) k'
  = String.eqb k' k || Frame.has_column df k'.
Proof.
  unfold Frame.has_column, Frame.set_column. cbn [Frame.columns].
  rewrite dict_get_set. destruct (String.eqb k' k); reflexivity.
Qed.

(** Solves the goal for one statement of the indicator computation, from
    the hypothesis that the statement succeeded. *)
Ltac step_case H :=
  cbn beta in H;
  repeat match type of H with
         | context [String.eqb ?m "australia"] =>
             destruct (String.eqb m "australia")
         | context [Frame.column ?d ?k] =>
             let E := fresh "E" in
             destruct (Frame.column d k) eqn:E;
             cbn [bind ret Monad_either] in H
         end;
  cbn [bind ret Monad_either] in H;
  try discriminate H;
  inversion H; subst; clear H.

Lemma indicator_steps_index_len (tech : TechnicalParams) (market : string) :
  Forall (fun st => forall d d',
              Frame.index_len d = Frame.index_len d ->
              st d = inr d' -> Frame.index_len d' = Frame.index_len d)
         (indicator_steps tech market).
Proof.
  unfold indicator_steps.
  repeat (constructor; [intros d d' _ H; step_case H; reflexivity|]).
  constructor.
Qed.

(** The indicator computation keeps the number of rows. *)
Lemma run_steps_index_len (tech : TechnicalParams) (market : string)
  (df : DataFrame) :
  Frame.index_len (run_steps (indicator_steps tech market) df)
  = Frame.index_len df.
Proof.
  apply (run_steps_invariant
           (fun d => Frame.index_len d = Frame.index_len df)); [|reflexivity].
  eapply Forall_impl; [|apply indicator_steps_index_len].
  intros st Hst d d' Hd H. rewrite <- Hd. apply Hst; [reflexivity | exact H].
Qed.

End FrameFacts.

(** ** Rejections and score ranges of the criteria *)

Module CriteriaFacts.

Import Float FloatFacts.
Local Open Scope float_scope.

(** A history on which the swing criteria do not run: absent, empty, or
    shorter than 50 rows. *)
Definition insufficient (historical_df : option DataFrame) : Prop :=
  match historical_df with
  | None => True
  | Some df => Frame.empty df = true \/ (Frame.len df < 50)%nat
  end.

Lemma insufficient_test (df : DataFrame) :
  insufficient (Some df) ->
  Frame.empty df || Nat.ltb (Frame.len df) 50 = true.
Proof.
  intros [H|H]; [rewrite H; reflexivity|].
  apply Nat.ltb_lt in H. rewrite H. apply orb_true_r.
Qed.

Lemma swing_insufficient (criteria : Swing.SwingCriteria)
  (historical_df : option DataFrame) (fundamentals : Fundamentals.t) :
  insufficient historical_df ->
  Swing.check_swing_criteria criteria historical_df fundamentals
  = inr (false, 0%Z, "", "Insufficient data").
Proof.
  intro H. unfold Swing.check_swing_criteria.
  destruct historical_df as [df|]; [|reflexivity].
  rewrite (insufficient_test df H). reflexivity.
Qed.

Lemma au_swing_insufficient (criteria : AustraliaSwing.AustraliaSwingCriteria)
  (historical_df : option DataFrame) (fundamentals : Fundamentals.t) :
  insufficient historical_df ->
  AustraliaSwing.check_swing_criteria criteria historical_df fundamentals
  = inr (false, 0%Q, "", "Insufficient data", 1%Q).
Proof.
  intro H. unfold AustraliaSwing.check_swing_criteria.
  destruct historical_df as [df|]; [|reflexivity].
  rewrite (insufficient_test df H). reflexivity.
Qed.

Lemma calculate_insufficient (tech : Indicators.TechnicalParams)
  (market : string) (df : DataFrame) :
  insufficient (Some df) ->
  insufficient (Indicators.calculate_technical_indicators tech market (Some df)).
Proof.
  intros H. unfold Indicators.calculate_technical_indicators.
  destruct (Frame.empty df) eqn:E; [left; exact E|].
  destruct H as [H|H]; [congruence|]. right.
  unfold Frame.len in *. rewrite FrameFacts.run_steps_index_len. exact H.
Qed.

(** A symbol whose history is empty or has fewer than 50 rows gives no
    swing candidate, in either market, and its analysis does not raise:
    the indicator computation keeps the number of rows and the criteria
    answer "Insufficient data" before they read any row or any
    fundamental. *)
Theorem short_history_gives_no_candidate (fundamentals_dict : dict Fundamentals.t)
  (historical_data_dict : dict DataFrame) (symbol : string) (df : DataFrame) :
  dict_get historical_data_dict symbol = Some df ->
  insufficient (Some df) ->
  (forall criteria,
      Swing.analyze_symbol criteria fundamentals_dict historical_data_dict symbol
      = inr None)
  /\ (forall criteria,
        AustraliaSwing.analyze_symbol criteria fundamentals_dict
          historical_data_dict symbol
        = inr None).
Proof.
  intros Hd Hi. split; intro criteria.
  - unfold Swing.analyze_symbol. rewrite Hd.
    destruct (dict_get fundamentals_dict symbol) as [f|]; [|reflexivity].
    rewrite swing_insufficient; [reflexivity|].
    apply calculate_insufficient, Hi.
  - unfold AustraliaSwing.analyze_symbol. rewrite Hd.
    destruct (dict_get fundamentals_dict symbol) as [f|]; [|reflexivity].
    rewrite au_swing_insufficient; [reflexivity|].
    apply calculate_insufficient, Hi.
Qed.

Definition short_frame : DataFrame := {|
  Frame.index_len := 49;
  Frame.columns :=
    [("Close", map (fun i => of_Z (100 + Z.of_nat i)) (seq 1 49));
     ("Volume", repeat (of_Z 100) 49)]
|}.

Lemma short_history_gives_no_candidate_witness :
  Swing.analyze_symbol Swing.Config_SWING
    [("TCS.NS", EntryTypeFacts.sound_fundamentals "DEFENCE")]
    [("TCS.NS", short_frame)] "TCS.NS"
  = inr None
  /\ AustraliaSwing.analyze_symbol AustraliaSwing.Config_SWING
       [("TCS.NS", EntryTypeFacts.sound_fundamentals "DEFENCE")]
       [("TCS.NS", short_frame)] "TCS.NS"
     = inr None.
Proof.
  pose proof (short_history_gives_no_candidate
                [("TCS.NS", EntryTypeFacts.sound_fundamentals "DEFENCE")]
                [("TCS.NS", short_frame)] "TCS.NS" short_frame eq_refl) as H.
  assert (Hi : insufficient (Some short_frame)).
  { right. unfold Frame.len. cbn. lia. }
  specialize (H Hi). destruct H as [H1 H2].
  split; [apply H1 | apply H2].
Defined.

(** The rows of a history of at least 50 rows are there. *)
Lemma sufficient_rows (df : DataFrame) :
  Frame.empty df = false -> (50 <= Frame.len df)%nat ->
  Frame.empty df || Nat.ltb (Frame.len df) 50 = false
  /\ (exists latest, Frame.iloc_back df 1 = inr latest)
  /\ (exists prev, Frame.iloc_back df 2 = inr prev).
Proof.
  intros He Hl. unfold Frame.len in Hl. split; [|split].
  - rewrite He. apply Nat.ltb_ge. exact Hl.
  - unfold Frame.iloc_back.
    destruct (Nat.ltb (Frame.index_len df) 1) eqn:E;
      [apply Nat.ltb_lt in E; lia|].
    eexists. reflexivity.
  - unfold Frame.iloc_back.
    destruct (Nat.ltb (Frame.index_len df) 2) eqn:E;
      [apply Nat.ltb_lt in E; lia|].
    eexists. reflexivity.
Qed.

(** The three gates on the fundamentals, with the defaults that stand in
    for a missing key. *)
Definition market_cap_of (f : Fundamentals.t) : float :=
  get_or (Fundamentals.market_cap f) (of_Z 0).
Definition debt_to_equity_of (f : Fundamentals.t) : float :=
  get_or (Fundamentals.debt_to_equity f) (of_Z 999).
Definition roe_of (f : Fundamentals.t) : float :=
  get_or (Fundamentals.roe f) (of_Z 0).

(** The hard gates of the swing policies.  On a history of at least 50
    rows the evaluation is rejected with score 0 and an empty entry type as
    soon as one gate fails, in the order market cap, debt to equity, return
    on equity, each with its own reason; a missing key counts as market cap
    0, debt to equity 999 and return on equity 0.  The rejection comes
    before the Close of the last row is read, so it does not depend on the
    columns of the history. *)
Theorem swing_gates_reject_in_order (df : DataFrame) (f : Fundamentals.t) :
  Frame.empty df = false -> (50 <= Frame.len df)%nat ->
  (forall criteria,
      ((market_cap_of f <? Swing.min_market_cap criteria) = true ->
       Swing.check_swing_criteria criteria (Some df) f
       = inr (false, 0%Z, "",
              "Market cap too small: ₹" ++ Str.format_f 0 (market_cap_of f)
              ++ " Cr"))
      /\ ((market_cap_of f <? Swing.min_market_cap criteria) = false ->
          (debt_to_equity_of f >? Swing.max_debt_to_equity criteria) = true ->
          Swing.check_swing_criteria criteria (Some df) f
          = inr (false, 0%Z, "",
                 "High debt: " ++ Str.format_f 2 (debt_to_equity_of f)))
      /\ ((market_cap_of f <? Swing.min_market_cap criteria) = false ->
          (debt_to_equity_of f >? Swing.max_debt_to_equity criteria) = false ->
          (roe_of f <? Swing.min_roe criteria) = true ->
          Swing.check_swing_criteria criteria (Some df) f
          = inr (false, 0%Z, "",
                 "Low ROE: " ++ Str.format_f 1 (roe_of f) ++ "%")))
  /\ (forall criteria,
        ((market_cap_of f <? AustraliaSwing.min_market_cap criteria) = true ->
         AustraliaSwing.check_swing_criteria criteria (Some df) f
         = inr (false, 0%Q, "",
                "Market cap too small: A$" ++ Str.format_f 0 (market_cap_of f)
                ++ " lakhs", 1%Q))
        /\ ((market_cap_of f <? AustraliaSwing.min_market_cap criteria) = false ->
            (debt_to_equity_of f >? AustraliaSwing.max_debt_to_equity criteria)
            = true ->
            AustraliaSwing.check_swing_criteria criteria (Some df) f
            = inr (false, 0%Q, "",
                   "High debt: " ++ Str.format_f 2 (debt_to_equity_of f), 1%Q))
        /\ ((market_cap_of f <? AustraliaSwing.min_market_cap criteria) = false ->
            (debt_to_equity_of f >? AustraliaSwing.max_debt_to_equity criteria)
            = false ->
            (roe_of f <? AustraliaSwing.min_roe criteria) = true ->
            AustraliaSwing.check_swing_criteria criteria (Some df) f
            = inr (false, 0%Q, "",
                   "Low ROE: " ++ Str.format_f 1 (roe_of f) ++ "%", 1%Q))).
Proof.
  intros He Hl.
  destruct (sufficient_rows df He Hl) as [Ht [[latest Hla] [prev Hpr]]].
  unfold market_cap_of, debt_to_equity_of, roe_of.
  split; intro criteria.
  - unfold Swing.check_swing_criteria. rewrite Ht, Hla, Hpr.
    cbn [bind Monad_either].
    repeat split.
    + intros ->. reflexivity.
    + intros -> ->. reflexivity.
    + intros -> -> ->. reflexivity.
  - unfold AustraliaSwing.check_swing_criteria. rewrite Ht, Hla, Hpr.
    cbn [bind Monad_either].
    repeat split.
    + intros ->. reflexivity.
    + intros -> ->. reflexivity.
    + intros -> -> ->. reflexivity.
Qed.

Definition fundamentals_of (market_cap debt_to_equity roe : option float)
  : Fundamentals.t := {|
  Fundamentals.market_cap := market_cap;
  Fundamentals.debt_to_equity := debt_to_equity;
  Fundamentals.roe := roe;
  Fundamentals.sector := Some "Energy"
|}.

(** A history of 50 rows without a Close column. *)
Definition closeless_frame : DataFrame := {|
  Frame.index_len := 50;
  Frame.columns := [("Volume", repeat (of_Z 100) 50)]
|}.

Lemma swing_gates_reject_in_order_witness :
  Swing.check_swing_criteria Swing.Config_SWING (Some closeless_frame)
    (fundamentals_of None (Some (dec 2 1)) (Some (of_Z 20)))
  = inr (false, 0%Z, "", "Market cap too small: ₹0 Cr")
  /\ Swing.check_swing_criteria Swing.Config_SWING (Some closeless_frame)
       (fundamentals_of (Some (of_Z 9000)) None (Some (of_Z 20)))
     = inr (false, 0%Z, "", "High debt: 999.00")
  /\ Swing.check_swing_criteria Swing.Config_SWING (Some closeless_frame)
       (fundamentals_of (Some (of_Z 9000)) (Some (dec 2 1)) None)
     = inr (false, 0%Z, "", "Low ROE: 0.0%")
  /\ AustraliaSwing.check_swing_criteria AustraliaSwing.Config_SWING
       (Some closeless_frame)
       (fundamentals_of None (Some (dec 2 1)) (Some (of_Z 20)))
     = inr (false, 0%Q, "", "Market cap too small: A$0 lakhs", 1%Q)
  /\ AustraliaSwing.check_swing_criteria AustraliaSwing.Config_SWING
       (Some closeless_frame)
       (fundamentals_of (Some (of_Z 90000)) None (Some (of_Z 20)))
     = inr (false, 0%Q, "", "High debt: 999.00", 1%Q)
  /\ AustraliaSwing.check_swing_criteria AustraliaSwing.Config_SWING
       (Some closeless_frame)
       (fundamentals_of (Some (of_Z 90000)) (Some (dec 2 1)) None)
     = inr (false, 0%Q, "", "Low ROE: 0.0%", 1%Q).
Proof.
  assert (He : Frame.empty closeless_frame = false) by reflexivity.
  assert (Hl : (50 <= Frame.len closeless_frame)%nat)
    by (unfold Frame.len; cbn; lia).
  repeat apply conj.
  - apply (proj1 (proj1 (swing_gates_reject_in_order closeless_frame
                           (fundamentals_of None (Some (dec 2 1))
                              (Some (of_Z 20))) He Hl) Swing.Config_SWING)).
    reflexivity.
  - apply (proj1 (proj2 (proj1 (swing_gates_reject_in_order closeless_frame
                                  (fundamentals_of (Some (of_Z 9000)) None
                                     (Some (of_Z 20))) He Hl)
                           Swing.Config_SWING))); reflexivity.
  - apply (proj2 (proj2 (proj1 (swing_gates_reject_in_order closeless_frame
                                  (fundamentals_of (Some (of_Z 9000))
                                     (Some (dec 2 1)) None) He Hl)
                           Swing.Config_SWING))); reflexivity.
  - apply (proj1 (proj2 (swing_gates_reject_in_order closeless_frame
                           (fundamentals_of None (Some (dec 2 1))
                              (Some (of_Z 20))) He Hl)
                    AustraliaSwing.Config_SWING)).
    reflexivity.
  - apply (proj1 (proj2 (proj2 (swing_gates_reject_in_order closeless_frame
                                  (fundamentals_of (Some (of_Z 90000)) None
                                     (Some (of_Z 20))) He Hl)
                           AustraliaSwing.Config_SWING))); reflexivity.
  - apply (proj2 (proj2 (proj2 (swing_gates_reject_in_order closeless_frame
                                  (fundamentals_of (Some (of_Z 90000))
                                     (Some (dec 2 1)) None) He Hl)
                           AustraliaSwing.Config_SWING))); reflexivity.
Defined.

(** *** Score ranges *)

Lemma swing_trend_points (close ema_20 ema_50 sma_200 : float) :
  (5 <= fst (Swing.trend_check close ema_20 ema_50 sma_200) <= 20)%Z.
Proof.
  unfold Swing.trend_check.
  destruct ((close >? ema_20) && (ema_20 >? ema_50) && (ema_50 >? sma_200));
    [cbn; lia|].
  destruct ((close >? ema_20) && (close >? ema_50)); cbn; lia.
Qed.

Lemma swing_rsi_points (criteria : Swing.SwingCriteria) (rsi : float)
  (e : string) :
  (0 <= fst (fst (Swing.rsi_check criteria rsi e)) <= 20)%Z.
Proof.
  unfold Swing.rsi_check.
  destruct ((Swing.rsi_min criteria <=? rsi) && (rsi <=? Swing.rsi_max criteria));
    [cbn; lia|].
  destruct ((of_Z 30 <? rsi) && (rsi <? of_Z 40)); [cbn; lia|].
  destruct (rsi >? of_Z 60); cbn; lia.
Qed.

Lemma swing_macd_points (macd sig hist prev_hist : float) (e : string) :
  (0 <= fst (fst (Swing.macd_check macd sig hist prev_hist e)) <= 15)%Z.
Proof.
  unfold Swing.macd_check.
  destruct ((macd >? sig) && (hist >? of_Z 0)); [cbn; lia|].
  destruct (macd >? sig); cbn; lia.
Qed.

Lemma swing_volume_points (criteria : Swing.SwingCriteria) (vr : float) :
  (5 <= fst (Swing.volume_check criteria vr) <= 15)%Z.
Proof.
  unfold Swing.volume_check.
  destruct (vr >=? Swing.min_volume_multiplier criteria); cbn; lia.
Qed.

Lemma swing_sector_points (sector : string) :
  (5 <= fst (Swing.sector_check sector) <= 10)%Z.
Proof.
  unfold Swing.sector_check.
  destruct (Str.list_mem sector Swing.SWING_PREFERRED_SECTORS); cbn; lia.
Qed.

Lemma swing_total_score_range (criteria : Swing.SwingCriteria)
  (r : SwingFacts.reading) (f : Fundamentals.t) :
  (35 <= SwingFacts.total_score criteria r f <= 100)%Z.
Proof.
  unfold SwingFacts.total_score.
  pose proof (swing_trend_points (SwingFacts.close r) (SwingFacts.ema_20_of r)
                (SwingFacts.ema_50_of r)
                (Frame.get (SwingFacts.latest r) "SMA_200" (of_Z 0))).
  pose proof (swing_rsi_points criteria (SwingFacts.rsi_of r) "none").
  pose proof (swing_macd_points
                (Frame.get (SwingFacts.latest r) "MACD" (of_Z 0))
                (Frame.get (SwingFacts.latest r) "MACD_Signal" (of_Z 0))
                (Frame.get (SwingFacts.latest r) "MACD_Hist" (of_Z 0))
                (Frame.get (SwingFacts.prev r) "MACD_Hist" (of_Z 0))
                (SwingFacts.entry_after_rsi criteria r)).
  pose proof (swing_volume_points criteria (SwingFacts.volume_ratio_of r)).
  pose proof (swing_sector_points
                (get_or (Fundamentals.sector f) "Unknown")).
  lia.
Qed.

Lemma au_trend_points (close ema_20 ema_50 sma_200 : float) :
  (5 <= fst (AustraliaSwing.trend_check close ema_20 ema_50 sma_200) <= 20)%Z.
Proof.
  unfold AustraliaSwing.trend_check.
  destruct ((close >? ema_20) && (ema_20 >? ema_50) && (ema_50 >? sma_200));
    [cbn; lia|].
  destruct ((close >? ema_20) && (close >? ema_50)); cbn; lia.
Qed.

Lemma au_rsi_points (criteria : AustraliaSwing.AustraliaSwingCriteria)
  (rsi : float) (e : string) :
  (0 <= fst (fst (AustraliaSwing.rsi_check criteria rsi e)) <= 20)%Z.
Proof.
  unfold AustraliaSwing.rsi_check.
  destruct ((AustraliaSwing.rsi_min criteria <=? rsi)
            && (rsi <=? AustraliaSwing.rsi_max criteria)); [cbn; lia|].
  destruct ((of_Z 30 <? rsi) && (rsi <? of_Z 35)); [cbn; lia|].
  destruct (rsi >? of_Z 65); cbn; lia.
Qed.

Lemma au_week_52_points (criteria : AustraliaSwing.AustraliaSwingCriteria)
  (prox : float) :
  (5 <= fst (AustraliaSwing.week_52_check criteria prox) <= 15)%Z.
Proof.
  unfold AustraliaSwing.week_52_check.
  destruct ((AustraliaSwing.min_52w_high_proximity criteria <=? prox)
            && (prox <=? AustraliaSwing.max_52w_high_proximity criteria));
    [cbn; lia|].
  destruct (prox >? AustraliaSwing.max_52w_high_proximity criteria); cbn; lia.
Qed.

Lemma au_macd_points (macd sig hist prev_hist : float) (e : string) :
  (0 <= fst (fst (AustraliaSwing.macd_check macd sig hist prev_hist e)) <= 15)%Z.
Proof.
  unfold AustraliaSwing.macd_check.
  destruct ((macd >? sig) && (hist >? of_Z 0)); [cbn; lia|].
  destruct (macd >? sig); cbn; lia.
Qed.

Lemma au_volume_points (criteria : AustraliaSwing.AustraliaSwingCriteria)
  (vr : float) :
  (5 <= fst (AustraliaSwing.volume_check criteria vr) <= 10)%Z.
Proof.
  unfold AustraliaSwing.volume_check.
  destruct (vr >=? AustraliaSwing.min_volume_ratio criteria); cbn; lia.
Qed.

Lemma au_total_score_range (criteria : AustraliaSwing.AustraliaSwingCriteria)
  (r : AustraliaSwingFacts.reading) :
  (30 <= AustraliaSwingFacts.total_score criteria r <= 95)%Z.
Proof.
  unfold AustraliaSwingFacts.total_score.
  pose proof (au_trend_points (AustraliaSwingFacts.close r)
                (AustraliaSwingFacts.ema_20_of r)
                (AustraliaSwingFacts.ema_50_of r)
                (Frame.get (AustraliaSwingFacts.latest r) "SMA_200" (of_Z 0))).
  pose proof (au_rsi_points criteria (AustraliaSwingFacts.rsi_of r) "none").
  pose proof (au_week_52_points criteria
                (Frame.get (AustraliaSwingFacts.latest r) "52W_High_Proximity"
                   (of_Z 0))).
  pose proof (au_macd_points
                (Frame.get (AustraliaSwingFacts.latest r) "MACD" (of_Z 0))
                (Frame.get (AustraliaSwingFacts.latest r) "MACD_Signal" (of_Z 0))
                (Frame.get (AustraliaSwingFacts.latest r) "MACD_Hist" (of_Z 0))
                (Frame.get (AustraliaSwingFacts.prev r) "MACD_Hist" (of_Z 0))
                (AustraliaSwingFacts.entry_after_rsi criteria r)).
  pose proof (au_volume_points criteria (AustraliaSwingFacts.volume_ratio_of r)).
  lia.
Qed.

Lemma btst_score_range (criteria : BTST.BTSTCriteria)
  (current_data : Snapshot.t) (historical_df : option DataFrame)
  (fundamentals : Fundamentals.t) (passes : bool) (score : Z)
  (reason : string) :
  BTST.check_btst_criteria criteria current_data historical_df fundamentals
  = inr (passes, score, reason) ->
  (passes = true <-> 60 <= score)%Z
  /\ (score = 0%Z \/ (20 <= score <= 100)%Z).
Proof.
  unfold BTST.check_btst_criteria.
  destruct (BTST.gain_check criteria _) as [g r|r] eqn:Eg.
  2:{ intro H. inversion H. split; [split; [discriminate | lia] | left; reflexivity]. }
  assert (Hg : g = 30%Z \/ g = 15%Z).
  { unfold BTST.gain_check in Eg.
    destruct (_ && _) in Eg; [inversion Eg; auto|].
    destruct (_ >? _) in Eg; inversion Eg; auto. }
  destruct (BTST.volume_check criteria historical_df) as [e|[p1 r1]] eqn:Ev;
    [discriminate|].
  assert (Hv : (0 <= p1 <= 25)%Z).
  { unfold BTST.volume_check in Ev.
    destruct historical_df as [df|]; [|inversion Ev; lia].
    destruct (negb (Frame.empty df)); [|inversion Ev; lia].
    destruct (Frame.iloc_back df 1) as [e|latest]; [discriminate|].
    cbn [bind Monad_either] in Ev.
    destruct (Frame.has_column df "Volume_Ratio"); [|inversion Ev; lia].
    destruct (Frame.item latest "Volume_Ratio") as [e|vr]; [discriminate|].
    cbn [bind Monad_either] in Ev.
    destruct (vr >=? _); inversion Ev; lia. }
  cbn [bind Monad_either].
  destruct (BTST.high_check _) as [p2 r2] eqn:Eh.
  assert (Hh : (5 <= p2 <= 20)%Z).
  { unfold BTST.high_check in Eh.
    destruct (_ >=? of_Z 90) in Eh; [inversion Eh; lia|].
    destruct (_ >=? of_Z 80) in Eh; inversion Eh; lia. }
  destruct (BTST.trend_check historical_df) as [e|[p3 r3]] eqn:Et;
    [discriminate|].
  assert (Ht : (0 <= p3 <= 15)%Z).
  { unfold BTST.trend_check in Et.
    destruct historical_df as [df|]; [|inversion Et; lia].
    destruct (Frame.has_column df "EMA_20"); [|inversion Et; lia].
    destruct (Frame.iloc_back df 1) as [e|latest]; [discriminate|].
    cbn [bind Monad_either] in Et.
    destruct (Frame.item latest "Close") as [e|cl]; [discriminate|].
    cbn [bind Monad_either] in Et.
    destruct (Frame.item latest "EMA_20") as [e|em]; [discriminate|].
    cbn [bind Monad_either] in Et.
    destruct (cl >? em); inversion Et; lia. }
  destruct (BTST.sector_check fundamentals) as [p4 r4] eqn:Es.
  assert (Hs : (0 <= p4 <= 10)%Z).
  { unfold BTST.sector_check in Es.
    destruct (negb _) in Es; inversion Es; lia. }
  cbn [ret Monad_either]. intro H. inversion H as [[Hp Hsc Hr]].
  split.
  - rewrite <- Z.geb_le. split; intro X; exact X.
  - right. lia.
Qed.

(** The range of the scores.  Every evaluation that is not rejected at a
    gate adds up the points of all its checks: a BTST score lies in
    [20, 100], an India swing score in [35, 100]; the unweighted Australian
    total lies in [30, 95], so it never reaches 100, and the returned score
    is that total times the sector weight.  A rejected evaluation has score
    0.  In every case passed is exactly the comparison of the unweighted
    score with the threshold (60 BTST, 65 India, 60 Australia). *)
Theorem score_ranges :
  (forall criteria current_data historical_df fundamentals passes score reason,
      BTST.check_btst_criteria criteria current_data historical_df fundamentals
      = inr (passes, score, reason) ->
      (passes = true <-> 60 <= score)%Z
      /\ (score = 0%Z \/ (20 <= score <= 100)%Z))
  /\ (forall criteria historical_df fundamentals passes score entry_type reason,
        Swing.check_swing_criteria criteria historical_df fundamentals
        = inr (passes, score, entry_type, reason) ->
        (passes = true <-> 65 <= score)%Z
        /\ (score = 0%Z \/ (35 <= score <= 100)%Z))
  /\ (forall criteria historical_df fundamentals passes score entry_type reason
             weight,
        AustraliaSwing.check_swing_criteria criteria historical_df fundamentals
        = inr (passes, score, entry_type, reason, weight) ->
        (passes = false /\ score = 0%Q)
        \/ (exists total : Z,
              (30 <= total <= 95)%Z
              /\ score = (inject_Z total * weight)%Q
              /\ (passes = true <-> 60 <= total)%Z)).
Proof.
  split; [|split].
  - exact btst_score_range.
  - intros criteria hdf f passes score et reason H.
    destruct (SwingFacts.check_swing_criteria_inv _ _ _ _ _ _ _ H)
      as [[Hp [Hs _]]|[df [r [_ [_ [_ [Hs Hp]]]]]]].
    + subst. split; [split; [discriminate | lia] | left; reflexivity].
    + pose proof (swing_total_score_range criteria r f) as Hr.
      rewrite <- Hs in Hr. split; [|right; exact Hr].
      rewrite Hp, <- Z.geb_le. split; intro X; exact X.
  - intros criteria hdf f passes score et reason weight H.
    destruct (AustraliaSwingFacts.au_check_swing_criteria_inv _ _ _ _ _ _ _ _ H)
      as [[Hp [Hs _]]|[df [r [_ [_ [_ [_ [Hs Hp]]]]]]]].
    + left. split; assumption.
    + right. exists (AustraliaSwingFacts.total_score criteria r).
      split; [apply au_total_score_range|]. split; [exact Hs|].
      rewrite Hp, <- Z.geb_le. split; intro X; exact X.
Qed.

Lemma score_ranges_witness :
  ((true = true <-> 60 <= 100)%Z /\ (100 = 0 \/ 20 <= 100 <= 100)%Z)
  /\ ((true = true <-> 65 <= 95)%Z /\ (95 = 0 \/ 35 <= 95 <= 100)%Z)
  /\ ((true = false /\ (inject_Z 90 * (12 # 10) = 0)%Q)
      \/ (exists total : Z,
            (30 <= total <= 95)%Z
            /\ (inject_Z 90 * (12 # 10))%Q = (inject_Z total * (12 # 10))%Q
            /\ (true = true <-> 60 <= total)%Z)).
Proof.
  split; [|split].
  - eapply (proj1 score_ranges BTST.Config_BTST
              (BTSTFacts.snapshot_of (dec 25 1) (dec 95 0))
              (Some BTSTFacts.full_score_frame) (BTSTFacts.sector_only "Energy")).
    vm_compute. reflexivity.
  - eapply (proj1 (proj2 score_ranges) Swing.Config_SWING
              (Some EntryTypeFacts.pullback_cross_frame)
              (EntryTypeFacts.sound_fundamentals "DEFENCE")).
    vm_compute. reflexivity.
  - eapply (proj2 (proj2 score_ranges) AustraliaSwing.Config_SWING
              (Some EntryTypeFacts.pullback_cross_frame)
              (EntryTypeFacts.sound_fundamentals "Materials")).
    vm_compute. reflexivity.
Defined.

End CriteriaFacts.

(** ** What every candidate of a scan carries *)

Module OutputFacts.

Import Float FloatFacts.
Local Open Scope float_scope.

Lemma swing_gates_hold (criteria : Swing.SwingCriteria)
  (historical_df : option DataFrame) (f : Fundamentals.t)
  (score : Z) (entry_type reason : string) :
  Swing.check_swing_criteria criteria historical_df f
  = inr (true, score, entry_type, reason) ->
  (CriteriaFacts.market_cap_of f <? Swing.min_market_cap criteria) = false
  /\ (CriteriaFacts.debt_to_equity_of f >? Swing.max_debt_to_equity criteria)
     = false
  /\ (CriteriaFacts.roe_of f <? Swing.min_roe criteria) = false.
Proof.
  unfold Swing.check_swing_criteria, CriteriaFacts.market_cap_of,
    CriteriaFacts.debt_to_equity_of, CriteriaFacts.roe_of.
  destruct historical_df as [df|]; [|discriminate].
  destruct (Frame.empty df || Nat.ltb (Frame.len df) 50); [discriminate|].
  destruct (Frame.iloc_back df 1) as [e|la]; [discriminate|].
  destruct (Frame.iloc_back df 2) as [e|pr]; [discriminate|].
  cbn [bind Monad_either].
  destruct (_ <? Swing.min_market_cap criteria); [discriminate|].
  destruct (_ >? Swing.max_debt_to_equity criteria); [discriminate|].
  destruct (_ <? Swing.min_roe criteria); [discriminate|].
  auto.
Qed.

Lemma au_gates_hold (criteria : AustraliaSwing.AustraliaSwingCriteria)
  (historical_df : option DataFrame) (f : Fundamentals.t)
  (score : Q) (entry_type reason : string) (weight : Q) :
  AustraliaSwing.check_swing_criteria criteria historical_df f
  = inr (true, score, entry_type, reason, weight) ->
  (CriteriaFacts.market_cap_of f <? AustraliaSwing.min_market_cap criteria)
  = false
  /\ (CriteriaFacts.debt_to_equity_of f
      >? AustraliaSwing.max_debt_to_equity criteria) = false
  /\ (CriteriaFacts.roe_of f <? AustraliaSwing.min_roe criteria) = false.
Proof.
  unfold AustraliaSwing.check_swing_criteria, CriteriaFacts.market_cap_of,
    CriteriaFacts.debt_to_equity_of, CriteriaFacts.roe_of.
  destruct historical_df as [df|]; [|discriminate].
  destruct (Frame.empty df || Nat.ltb (Frame.len df) 50); [discriminate|].
  destruct (Frame.iloc_back df 1) as [e|la]; [discriminate|].
  destruct (Frame.iloc_back df 2) as [e|pr]; [discriminate|].
  cbn [bind Monad_either].
  destruct (_ <? AustraliaSwing.min_market_cap criteria); [discriminate|].
  destruct (_ >? AustraliaSwing.max_debt_to_equity criteria); [discriminate|].
  destruct (_ <? AustraliaSwing.min_roe criteria); [discriminate|].
  auto.
Qed.

(** What a candidate of the India swing scan is made of: fundamentals and
    a history on which the criteria pass with its score, entry type and
    reason, and the unrounded price its levels are derived from. *)
Definition swing_origin (criteria : Swing.SwingCriteria) (symbol : string)
  (c : Swing.SwingCandidate.t) : Prop :=
  exists (f : Fundamentals.t) (history : option DataFrame) (price : float),
    Swing.check_swing_criteria criteria history f
    = inr (true, Swing.SwingCandidate.score c,
           Swing.SwingCandidate.entry_type c, Swing.SwingCandidate.reason c)
    /\ Swing.SwingCandidate.symbol c = Str.replace symbol ".NS" ""
    /\ Swing.SwingCandidate.current_price c = round price 2
    /\ Swing.calculate_targets price (Swing.SwingCandidate.entry_type c)
       = inr (Swing.SwingCandidate.target c, Swing.SwingCandidate.stop_loss c)
    /\ Fundamentals.market_cap f = Some (Swing.SwingCandidate.market_cap c)
    /\ Fundamentals.debt_to_equity f
       = Some (Swing.SwingCandidate.debt_to_equity c)
    /\ Fundamentals.roe f = Some (Swing.SwingCandidate.roe c)
    /\ Fundamentals.sector f = Some (Swing.SwingCandidate.sector c).

Lemma swing_analyze_symbol_origin (criteria : Swing.SwingCriteria)
  (fd : dict Fundamentals.t) (hd : dict DataFrame) (s : string)
  (c : Swing.SwingCandidate.t) :
  Swing.analyze_symbol criteria fd hd s = inr (Some c) ->
  swing_origin criteria s c.
Proof.
  unfold Swing.analyze_symbol.
  destruct (dict_get hd s) as [df|]; [|discriminate].
  destruct (dict_get fd s) as [f|]; [|discriminate].
  destruct (Swing.check_swing_criteria criteria _ f)
    as [e|[[[passes score] entry_type] reason]] eqn:Hc; [discriminate|].
  cbn [bind Monad_either].
  destruct passes; [|discriminate].
  destruct (match Indicators.calculate_technical_indicators _ _ _ with
            | Some d => Frame.iloc_back d 1
            | None => _ end) as [e|latest]; [discriminate|].
  destruct (Frame.item latest "Close") as [e|price]; [discriminate|].
  destruct (Swing.calculate_targets price entry_type) as [e|[target stop]] eqn:Ht;
    [discriminate|].
  destruct (Fundamentals.market_cap f) as [mc|] eqn:Emc; [|discriminate].
  destruct (Fundamentals.sector f) as [sec|] eqn:Esec; [|discriminate].
  destruct (Fundamentals.debt_to_equity f) as [de|] eqn:Ede; [|discriminate].
  destruct (Fundamentals.roe f) as [roe|] eqn:Eroe; [|discriminate].
  cbn [item_of ret Monad_either]. intro H. inversion H. subst c. clear H.
  exists f. eexists. exists price. cbn.
  repeat split; try reflexivity; eassumption.
Qed.

(** The same for a candidate of the Australian swing scan. *)
Definition au_origin (criteria : AustraliaSwing.AustraliaSwingCriteria)
  (symbol : string) (c : AustraliaSwing.AustraliaSwingCandidate.t) : Prop :=
  exists (f : Fundamentals.t) (history : option DataFrame) (price : float),
    AustraliaSwing.check_swing_criteria criteria history f
    = inr (true, AustraliaSwing.AustraliaSwingCandidate.score c,
           AustraliaSwing.AustraliaSwingCandidate.entry_type c,
           AustraliaSwing.AustraliaSwingCandidate.reason c,
           AustraliaSwing.AustraliaSwingCandidate.sector_weight c)
    /\ AustraliaSwing.AustraliaSwingCandidate.symbol c
       = Str.replace symbol ".AX" ""
    /\ AustraliaSwing.AustraliaSwingCandidate.current_price c = round price 2
    /\ AustraliaSwing.calculate_targets price
         (AustraliaSwing.AustraliaSwingCandidate.entry_type c)
       = inr (AustraliaSwing.AustraliaSwingCandidate.target c,
              AustraliaSwing.AustraliaSwingCandidate.stop_loss c)
    /\ Fundamentals.market_cap f
       = Some (AustraliaSwing.AustraliaSwingCandidate.market_cap c)
    /\ Fundamentals.debt_to_equity f
       = Some (AustraliaSwing.AustraliaSwingCandidate.debt_to_equity c)
    /\ Fundamentals.roe f = Some (AustraliaSwing.AustraliaSwingCandidate.roe c)
    /\ Fundamentals.sector f
       = Some (AustraliaSwing.AustraliaSwingCandidate.sector c).

Lemma au_analyze_symbol_origin (criteria : AustraliaSwing.AustraliaSwingCriteria)
  (fd : dict Fundamentals.t) (hd : dict DataFrame) (s : string)
  (c : AustraliaSwing.AustraliaSwingCandidate.t) :
  AustraliaSwing.analyze_symbol criteria fd hd s = inr (Some c) ->
  au_origin criteria s c.
Proof.
  unfold AustraliaSwing.analyze_symbol.
  destruct (dict_get hd s) as [df|]; [|discriminate].
  destruct (dict_get fd s) as [f|]; [|discriminate].
  destruct (AustraliaSwing.check_swing_criteria criteria _ f)
    as [e|[[[[passes score] entry_type] reason] weight]] eqn:Hc;
    [discriminate|].
  cbn [bind Monad_either].
  destruct passes; [|discriminate].
  destruct (match Indicators.calculate_technical_indicators _ _ _ with
            | Some d => Frame.iloc_back d 1
            | None => _ end) as [e|latest]; [discriminate|].
  destruct (Frame.item latest "Close") as [e|price]; [discriminate|].
  destruct (AustraliaSwing.calculate_targets price entry_type)
    as [e|[target stop]] eqn:Ht; [discriminate|].
  destruct (Fundamentals.market_cap f) as [mc|] eqn:Emc; [|discriminate].
  destruct (Fundamentals.sector f) as [sec|] eqn:Esec; [|discriminate].
  destruct (Fundamentals.debt_to_equity f) as [de|] eqn:Ede; [|discriminate].
  destruct (Fundamentals.roe f) as [roe|] eqn:Eroe; [|discriminate].
  cbn [item_of ret Monad_either]. intro H. inversion H. subst c. clear H.
  exists f. eexists. exists price. cbn.
  repeat split; try reflexivity; eassumption.
Qed.

Lemma india_targets_lookup (price : float) (entry_type : string) :
  Swing.calculate_targets price entry_type
  = inr (EntryTypeFacts.targets_by_default_lookup
           EntryTypeFacts.target_table_india price entry_type).
Proof.
  unfold Swing.calculate_targets, EntryTypeFacts.targets_by_default_lookup,
    EntryTypeFacts.target_table_india.
  cbn [dict_get].
  destruct (String.eqb entry_type "breakout"); [reflexivity|].
  destruct (String.eqb entry_type "pullback"); [reflexivity|].
  destruct (String.eqb entry_type "trend_follow"),
    (String.eqb entry_type "macd_cross"), (String.eqb entry_type "ma_cross");
    reflexivity.
Qed.

Lemma australia_targets_lookup (price : float) (entry_type : string) :
  AustraliaSwing.calculate_targets price entry_type
  = inr (EntryTypeFacts.targets_by_default_lookup
           EntryTypeFacts.target_table_australia price entry_type).
Proof.
  unfold AustraliaSwing.calculate_targets,
    EntryTypeFacts.targets_by_default_lookup,
    EntryTypeFacts.target_table_australia.
  cbn [dict_get].
  destruct (String.eqb entry_type "breakout"); [reflexivity|].
  destruct (String.eqb entry_type "pullback"); [reflexivity|].
  destruct (String.eqb entry_type "trend_follow"),
    (String.eqb entry_type "macd_cross"), (String.eqb entry_type "ma_cross");
    reflexivity.
Qed.

Lemma swing_scan_origin (fetcher : DataFetcher) (criteria : Swing.SwingCriteria)
  (symbols : option (list string)) (max_results : option Z)
  (c : Swing.SwingCandidate.t) :
  In c (Swing.scan_for_swing fetcher criteria symbols max_results) ->
  exists s, swing_origin criteria s c.
Proof.
  intro Hc. rewrite ScanFacts.scan_for_swing_ranked in Hc.
  apply ScanFacts.ranked_In in Hc. apply analyze_each_In in Hc.
  destruct Hc as [s [_ Hs]]. exists s.
  eapply swing_analyze_symbol_origin. exact Hs.
Qed.

Lemma au_scan_origin (fetcher : DataFetcher)
  (criteria : AustraliaSwing.AustraliaSwingCriteria)
  (symbols : option (list string)) (max_results : option Z)
  (c : AustraliaSwing.AustraliaSwingCandidate.t) :
  In c (AustraliaSwing.scan_for_swing fetcher criteria symbols max_results) ->
  exists s, au_origin criteria s c.
Proof.
  intro Hc. rewrite ScanFacts.au_scan_for_swing_ranked in Hc.
  apply ScanFacts.ranked_In in Hc. apply analyze_each_In in Hc.
  destruct Hc as [s [_ Hs]]. exists s.
  eapply au_analyze_symbol_origin. exact Hs.
Qed.

(** Every candidate in the output of a swing scan has one of the five
    entry types, and its target and stop-loss are the table levels of that
    entry type, computed from the unrounded close of which its
    current_price is the rounding to 2 decimals. *)
Theorem swing_candidates_carry_table_levels (fetcher : DataFetcher)
  (symbols : option (list string)) (max_results : option Z) :
  (forall criteria,
      Forall
        (fun c =>
           In (Swing.SwingCandidate.entry_type c) SwingFacts.entry_types
           /\ exists price,
               Swing.SwingCandidate.current_price c = round price 2
               /\ (Swing.SwingCandidate.target c,
                   Swing.SwingCandidate.stop_loss c)
                  = EntryTypeFacts.targets_by_default_lookup
                      EntryTypeFacts.target_table_india price
                      (Swing.SwingCandidate.entry_type c))
        (Swing.scan_for_swing fetcher criteria symbols max_results))
  /\ (forall criteria,
        Forall
          (fun c =>
             In (AustraliaSwing.AustraliaSwingCandidate.entry_type c)
                AustraliaSwingFacts.entry_types
             /\ exists price,
                 AustraliaSwing.AustraliaSwingCandidate.current_price c
                 = round price 2
                 /\ (AustraliaSwing.AustraliaSwingCandidate.target c,
                     AustraliaSwing.AustraliaSwingCandidate.stop_loss c)
                    = EntryTypeFacts.targets_by_default_lookup
                        EntryTypeFacts.target_table_australia price
                        (AustraliaSwing.AustraliaSwingCandidate.entry_type c))
          (AustraliaSwing.scan_for_swing fetcher criteria symbols max_results)).
Proof.
  split; intro criteria; apply Forall_forall; intros c Hc.
  - destruct (swing_scan_origin _ _ _ _ _ Hc)
      as [s [f [h [price [Hk [_ [Hp [Ht _]]]]]]]].
    split.
    + destruct (SwingFacts.check_swing_criteria_inv _ _ _ _ _ _ _ Hk)
        as [[Hf _]|[df [r [_ [_ [He _]]]]]]; [discriminate|].
      rewrite He, SwingFacts.final_entry_type_macd_first.
      apply SwingFacts.entry_type_macd_first_classified.
    + exists price. split; [exact Hp|].
      rewrite india_targets_lookup in Ht. inversion Ht. reflexivity.
  - destruct (au_scan_origin _ _ _ _ _ Hc)
      as [s [f [h [price [Hk [_ [Hp [Ht _]]]]]]]].
    split.
    + destruct (AustraliaSwingFacts.au_check_swing_criteria_inv
                  _ _ _ _ _ _ _ _ Hk)
        as [[Hf _]|[df [r [_ [_ [He _]]]]]]; [discriminate|].
      rewrite He, AustraliaSwingFacts.au_final_entry_type_macd_first.
      apply AustraliaSwingFacts.au_entry_type_macd_first_classified.
    + exists price. split; [exact Hp|].
      rewrite australia_targets_lookup in Ht. inversion Ht. reflexivity.
Qed.

(** Every candidate in the output of a swing scan carries fundamentals
    that pass the three gates of its policy: its market cap is not below
    the floor, its debt to equity not above the ceiling, its return on
    equity not below the floor. *)
Theorem swing_candidates_pass_gates (fetcher : DataFetcher)
  (symbols : option (list string)) (max_results : option Z) :
  (forall criteria,
      Forall
        (fun c =>
           (Swing.SwingCandidate.market_cap c <? Swing.min_market_cap criteria)
           = false
           /\ (Swing.SwingCandidate.debt_to_equity c
               >? Swing.max_debt_to_equity criteria) = false
           /\ (Swing.SwingCandidate.roe c <? Swing.min_roe criteria) = false)
        (Swing.scan_for_swing fetcher criteria symbols max_results))
  /\ (forall criteria,
        Forall
          (fun c =>
             (AustraliaSwing.AustraliaSwingCandidate.market_cap c
              <? AustraliaSwing.min_market_cap criteria) = false
             /\ (AustraliaSwing.AustraliaSwingCandidate.debt_to_equity c
                 >? AustraliaSwing.max_debt_to_equity criteria) = false
             /\ (AustraliaSwing.AustraliaSwingCandidate.roe c
                 <? AustraliaSwing.min_roe criteria) = false)
          (AustraliaSwing.scan_for_swing fetcher criteria symbols max_results)).
Proof.
  split; intro criteria; apply Forall_forall; intros c Hc.
  - destruct (swing_scan_origin _ _ _ _ _ Hc)
      as [s [f [h [price [Hk [_ [_ [_ [Hm [Hd [Hr _]]]]]]]]]]].
    pose proof (swing_gates_hold _ _ _ _ _ _ Hk) as G.
    unfold CriteriaFacts.market_cap_of, CriteriaFacts.debt_to_equity_of,
      CriteriaFacts.roe_of in G.
    rewrite Hm, Hd, Hr in G. exact G.
  - destruct (au_scan_origin _ _ _ _ _ Hc)
      as [s [f [h [price [Hk [_ [_ [_ [Hm [Hd [Hr _]]]]]]]]]]].
    pose proof (au_gates_hold _ _ _ _ _ _ _ Hk) as G.
    unfold CriteriaFacts.market_cap_of, CriteriaFacts.debt_to_equity_of,
      CriteriaFacts.roe_of in G.
    rewrite Hm, Hd, Hr in G. exact G.
Qed.

End OutputFacts.

(** ** The columns of the indicator computation *)

Module IndicatorFrameFacts.

Import Float FloatFacts Indicators.
Local Open Scope float_scope.

(** The columns that the computation assigns, in the order of its
    statements. *)
Definition indicator_columns : list string :=
  ["EMA_20"; "EMA_50"; "SMA_200"; "RSI"; "MACD"; "MACD_Signal"; "MACD_Hist";
   "Volume_Avg_20"; "Volume_Ratio"; "52W_High"; "52W_Low";
   "52W_High_Proximity"].

Lemma map_nth_seq (v : list float) :
  map (fun i => nth i v NaN) (seq 0 (List.length v)) = v.
Proof.
  apply nth_ext with (d := NaN) (d' := NaN).
  - rewrite length_map, length_seq. reflexivity.
  - intros n Hn. rewrite length_map, length_seq in Hn.
    rewrite (nth_indep _ NaN (nth O v NaN))
      by (rewrite length_map, length_seq; exact Hn).
    etransitivity; [apply (map_nth (fun i => nth i v NaN))|].
    rewrite seq_nth by exact Hn. reflexivity.
Qed.

Lemma column_length (df : DataFrame) (k : string) (v : list float) :
  Frame.column df k = inr v -> List.length v = Frame.index_len df.
Proof.
  unfold Frame.column. destruct (dict_get _ k); [|discriminate].
  intro H. inversion H. rewrite length_map, length_seq. reflexivity.
Qed.

Lemma column_set_same (df : DataFrame) (k : string) (v : list float) :
  List.length v = Frame.index_len df ->
  Frame.column (Frame.set_column df k v) k = inr v.
Proof.
  intro H. unfold Frame.column, Frame.set_column.
  cbn [Frame.columns Frame.index_len].
  rewrite FrameFacts.dict_get_set, String.eqb_refl, <- H, map_nth_seq.
  reflexivity.
Qed.

Lemma column_has (df : DataFrame) (k : string) :
  Frame.has_column df k = false -> Frame.column df k = inl (KeyError k).
Proof.
  unfold Frame.has_column, Frame.column.
  destruct (dict_get _ k); [discriminate | reflexivity].
Qed.

Lemma length_ewm_from (alpha prev : float) (l : list float) :
  List.length (ewm_from alpha prev l) = List.length l.
Proof.
  revert prev. induction l as [|x l IH]; intro prev; cbn [ewm_from List.length].
  - reflexivity.
  - rewrite IH. reflexivity.
Qed.

Lemma length_ewm_mean (span : nat) (l : list float) :
  List.length (ewm_mean span l) = List.length l.
Proof.
  destruct l as [|x l]; [reflexivity|].
  cbn [ewm_mean List.length]. rewrite length_ewm_from. reflexivity.
Qed.

Lemma length_zip_with (f : float -> float -> float) (a b : list float) :
  List.length (zip_with f a b) = Nat.min (List.length a) (List.length b).
Proof. unfold zip_with. rewrite length_map, length_combine. reflexivity. Qed.

Lemma length_rolling_mean (w : nat) (l : list float) :
  List.length (rolling_mean w l) = List.length l.
Proof. unfold rolling_mean. rewrite length_map, length_seq. reflexivity. Qed.

Lemma length_rolling_extremum (pick : float -> float -> float) (w minp : nat)
  (l : list float) :
  List.length (rolling_extremum pick w minp l) = List.length l.
Proof. unfold rolling_extremum. rewrite length_map, length_seq. reflexivity. Qed.

Lemma length_diff (l : list float) : List.length (diff l) = List.length l.
Proof.
  destruct l as [|x l]; [reflexivity|].
  cbn [diff List.length]. rewrite length_zip_with. cbn [List.length]. lia.
Qed.

Lemma length_rsi (period : nat) (close : list float) :
  List.length (rsi period close) = List.length close.
Proof.
  unfold rsi, where_.
  rewrite length_map, length_zip_with, !length_rolling_mean, !length_map,
    length_diff.
  lia.
Qed.

(** Each statement either leaves the frame as it is or assigns its own
    column. *)
Lemma indicator_steps_shape (tech : TechnicalParams) (market : string) :
  Forall2 (fun st k => forall d d' : DataFrame,
               st d = inr d' ->
               d' = d \/ exists v, d' = Frame.set_column d k v)
          (indicator_steps tech market) indicator_columns.
Proof.
  unfold indicator_steps, indicator_columns.
  repeat (constructor;
          [intros d d' H; FrameFacts.step_case H;
           first [left; reflexivity | right; eexists; reflexivity]|]).
  constructor.
Qed.

Lemma run_steps_keeps_entry (steps : list (DataFrame -> exc DataFrame))
  (targets : list string) (k : string) :
  Forall2 (fun st t => forall d d' : DataFrame,
               st d = inr d' ->
               d' = d \/ exists v, d' = Frame.set_column d t v)
          steps targets ->
  ~ In k targets ->
  forall d, dict_get (Frame.columns (run_steps steps d)) k
            = dict_get (Frame.columns d) k.
Proof.
  induction 1 as [|st t steps targets Hst _ IH]; intros Hk d.
  - reflexivity.
  - cbn [run_steps]. destruct (st d) as [e|d'] eqn:E; [reflexivity|].
    rewrite IH by (intro X; apply Hk; right; exact X).
    destruct (Hst d d' E) as [->|[v ->]]; [reflexivity|].
    cbn [Frame.set_column Frame.columns].
    rewrite FrameFacts.dict_get_set.
    destruct (String.eqb k t) eqn:Ek; [|reflexivity].
    apply String.eqb_eq in Ek. exfalso. apply Hk. left. symmetry. exact Ek.
Qed.

Lemma column_of_entry (d d' : DataFrame) (k : string) :
  Frame.index_len d' = Frame.index_len d ->
  dict_get (Frame.columns d') k = dict_get (Frame.columns d) k ->
  Frame.column d' k = Frame.column d k.
Proof. intros Hn Hk. unfold Frame.column. rewrite Hn, Hk. reflexivity. Qed.

Lemma indicators_keep_entry (tech : TechnicalParams)
  (market : string) (df : DataFrame) :
  exists df',
    calculate_technical_indicators tech market (Some df) = Some df'
    /\ Frame.len df' = Frame.len df
    /\ forall k, ~ In k indicator_columns ->
                 Frame.column df' k = Frame.column df k.
Proof.
  unfold calculate_technical_indicators.
  destruct (Frame.empty df).
  - exists df. repeat split.
  - eexists. split; [reflexivity|]. split.
    + apply FrameFacts.run_steps_index_len.
    + intros k Hk. apply column_of_entry.
      * apply FrameFacts.run_steps_index_len.
      * apply (run_steps_keeps_entry _ _ k (indicator_steps_shape tech market) Hk).
Qed.

(** The computation never touches a column that is not one of its own: the
    input columns (Open, High, Low, Close, Volume and any other) come back
    as they went in, the number of rows is kept, and this holds also when
    a statement fails and the rest of the computation is abandoned. *)
Theorem indicators_keep_input_columns (tech : TechnicalParams)
  (market : string) (df : DataFrame) :
  exists df',
    calculate_technical_indicators tech market (Some df) = Some df'
    /\ Frame.len df' = Frame.len df
    /\ forall k, ~ In k indicator_columns ->
                 Frame.column df' k = Frame.column df k.
Proof. exact (indicators_keep_entry tech market df). Qed.

(** A history with an Open column beside Close and Volume. *)
Definition ohlc_frame : DataFrame := {|
  Frame.index_len := 3;
  Frame.columns :=
    [("Open", [of_Z 10; of_Z 11; of_Z 12]);
     ("Close", [of_Z 11; of_Z 12; of_Z 11]);
     ("Volume", [of_Z 100; of_Z 150; of_Z 120])]
|}.

Lemma indicators_keep_input_columns_witness :
  exists df',
    calculate_technical_indicators TECHNICAL "australia" (Some ohlc_frame)
    = Some df'
    /\ Frame.len df' = 3%nat
    /\ Frame.column df' "Open" = inr [of_Z 10; of_Z 11; of_Z 12].
Proof.
  destruct (indicators_keep_input_columns TECHNICAL "australia" ohlc_frame)
    as [df' [H1 [H2 H3]]].
  exists df'. split; [exact H1|]. split; [exact H2|].
  rewrite H3; [reflexivity|].
  intro H. repeat (destruct H as [H|H]; [discriminate|]). exact H.
Defined.

(** Solves an equation between the length of a computed column and the
    number of rows of the frame. *)
Ltac column_len :=
  cbn [Frame.index_len Frame.set_column];
  rewrite ?length_map, ?length_zip_with, ?length_ewm_mean,
    ?length_rolling_mean, ?length_rolling_extremum, ?length_rsi,
    ?length_zip_with, ?length_ewm_mean, ?length_rolling_mean,
    ?length_zip_with, ?length_ewm_mean;
  repeat match goal with
         | H : List.length _ = Frame.index_len _ |- _ => rewrite H
         end;
  lia.

(** Reads a column of a frame that is the input frame with columns
    assigned. *)
Ltac read_column :=
  rewrite ?FrameFacts.column_set_other by reflexivity;
  first [ rewrite column_set_same by column_len
        | match goal with
          | H : Frame.column _ _ = inr _ |- _ => rewrite H
          end ];
  cbn [bind ret Monad_either].

(** The seven columns computed from the closes. *)
Definition close_indicators (tech : TechnicalParams) (close : list float)
  (df' : DataFrame) : Prop :=
  let macd := zip_with sub (ewm_mean (macd_fast tech) close)
                           (ewm_mean (macd_slow tech) close) in
  let signal := ewm_mean (macd_signal tech) macd in
  Frame.column df' "EMA_20" = inr (ewm_mean (ema_short tech) close)
  /\ Frame.column df' "EMA_50" = inr (ewm_mean (ema_medium tech) close)
  /\ Frame.column df' "SMA_200" = inr (rolling_mean (sma_long tech) close)
  /\ Frame.column df' "RSI" = inr (rsi (rsi_period tech) close)
  /\ Frame.column df' "MACD" = inr macd
  /\ Frame.column df' "MACD_Signal" = inr signal
  /\ Frame.column df' "MACD_Hist" = inr (zip_with sub macd signal).

(** The two columns computed from the volumes. *)
Definition volume_indicators (tech : TechnicalParams) (volume : list float)
  (df' : DataFrame) : Prop :=
  let avg := rolling_mean (volume_lookback tech) volume in
  Frame.column df' "Volume_Avg_20" = inr avg
  /\ Frame.column df' "Volume_Ratio" = inr (zip_with div volume avg).

(** The three columns of the Australian market. *)
Definition week_52_indicators (close : list float) (df' : DataFrame) : Prop :=
  let high := rolling_extremum fmax 252 50 close in
  Frame.column df' "52W_High" = inr high
  /\ Frame.column df' "52W_Low" = inr (rolling_extremum fmin 252 50 close)
  /\ Frame.column df' "52W_High_Proximity"
     = inr (map (fun x => x * of_Z 100) (zip_with div close high)).

(** The columns that [df'] has as [df] has them. *)
Definition same_columns (ks : list string) (df df' : DataFrame) : Prop :=
  Forall (fun k => Frame.column df' k = Frame.column df k) ks.

Lemma run_on_close_and_volume (tech : TechnicalParams)
  (market : string) (df : DataFrame) (close volume : list float) :
  Frame.empty df = false ->
  Frame.column df "Close" = inr close ->
  Frame.column df "Volume" = inr volume ->
  exists df',
    calculate_technical_indicators tech market (Some df) = Some df'
    /\ close_indicators tech close df'
    /\ volume_indicators tech volume df'
    /\ (if String.eqb market "australia"
        then week_52_indicators close df'
        else same_columns ["52W_High"; "52W_Low"; "52W_High_Proximity"] df df').
Proof.
  intros He Hc Hv.
  pose proof (column_length _ _ _ Hc) as Hlc.
  pose proof (column_length _ _ _ Hv) as Hlv.
  unfold calculate_technical_indicators. rewrite He.
  unfold indicator_steps, close_indicators, volume_indicators,
    week_52_indicators, same_columns.
  destruct (String.eqb market "australia");
    (eexists; split;
     [cbn [run_steps]; do 9 read_column; repeat read_column; reflexivity|]);
    cbn zeta;
    repeat first [apply conj | apply Forall_cons | apply Forall_nil];
    try (read_column; reflexivity);
    rewrite ?FrameFacts.column_set_other by reflexivity; reflexivity.
Qed.

Lemma run_without_volume (tech : TechnicalParams) (market : string)
  (df : DataFrame) (close : list float) :
  Frame.empty df = false ->
  Frame.column df "Close" = inr close ->
  Frame.has_column df "Volume" = false ->
  exists df',
    calculate_technical_indicators tech market (Some df) = Some df'
    /\ close_indicators tech close df'
    /\ same_columns ["Volume_Avg_20"; "Volume_Ratio"; "52W_High"; "52W_Low";
                     "52W_High_Proximity"] df df'.
Proof.
  intros He Hc Hv.
  pose proof (column_length _ _ _ Hc) as Hlc.
  unfold calculate_technical_indicators. rewrite He.
  unfold indicator_steps, close_indicators, same_columns.
  eexists. split.
  - cbn [run_steps]. do 8 read_column.
    rewrite ?FrameFacts.column_set_other by reflexivity.
    rewrite (column_has df "Volume" Hv). reflexivity.
  - cbn zeta.
    repeat first [apply conj | apply Forall_cons | apply Forall_nil];
      try (read_column; reflexivity);
      rewrite ?FrameFacts.column_set_other by reflexivity; reflexivity.
Qed.

Lemma column_present (df : DataFrame) (k : string) :
  Frame.has_column df k = true -> exists v, Frame.column df k = inr v.
Proof.
  unfold Frame.has_column, Frame.column.
  destruct (dict_get _ k); [eexists; reflexivity | discriminate].
Qed.

(** With the Close column present the close-based columns are computed,
    whether or not the volume statements succeed. *)
Lemma run_on_close (tech : TechnicalParams) (market : string)
  (df : DataFrame) (close : list float) :
  Frame.empty df = false ->
  Frame.column df "Close" = inr close ->
  exists df',
    calculate_technical_indicators tech market (Some df) = Some df'
    /\ close_indicators tech close df'.
Proof.
  intros He Hc. destruct (Frame.has_column df "Volume") eqn:Hv.
  - destruct (column_present _ _ Hv) as [volume Hvol].
    destruct (run_on_close_and_volume tech market df close volume He Hc Hvol)
      as [df' [H1 [H2 _]]].
    exists df'. split; assumption.
  - destruct (run_without_volume tech market df close He Hc Hv)
      as [df' [H1 [H2 _]]].
    exists df'. split; assumption.
Qed.

(** With finite closes and volumes every statement succeeds: each
    indicator column is the stated function of the closes or of the
    volumes of the input, whatever columns the input already had; the
    three 52-week columns are computed for the Australian market only. *)
Theorem indicators_on_close_and_volume (tech : TechnicalParams)
  (market : string) (df : DataFrame) (closes volumes : list Q) :
  Frame.empty df = false ->
  Frame.column df "Close" = inr (map Fin closes) ->
  Frame.column df "Volume" = inr (map Fin volumes) ->
  exists df',
    calculate_technical_indicators tech market (Some df) = Some df'
    /\ close_indicators tech (map Fin closes) df'
    /\ volume_indicators tech (map Fin volumes) df'
    /\ (if String.eqb market "australia"
        then week_52_indicators (map Fin closes) df'
        else same_columns ["52W_High"; "52W_Low"; "52W_High_Proximity"] df df').
Proof.
  exact (run_on_close_and_volume tech market df (map Fin closes)
           (map Fin volumes)).
Qed.

Lemma indicators_on_close_and_volume_witness :
  exists df',
    calculate_technical_indicators TECHNICAL "australia" (Some ohlc_frame)
    = Some df'
    /\ close_indicators TECHNICAL (map Fin [11; 12; 11]%Q) df'
    /\ volume_indicators TECHNICAL (map Fin [100; 150; 120]%Q) df'
    /\ week_52_indicators (map Fin [11; 12; 11]%Q) df'.
Proof.
  apply (indicators_on_close_and_volume TECHNICAL "australia" ohlc_frame
           [11; 12; 11]%Q [100; 150; 120]%Q);
    reflexivity.
Defined.

(** A history without a Volume column. *)
Definition close_only_frame : DataFrame := {|
  Frame.index_len := 3;
  Frame.columns := [("Close", [of_Z 11; of_Z 12; of_Z 11])]
|}.

(** The computation stops at the first statement that fails and returns
    the frame as the statements before it left it.  Without a Close column
    the frame comes back unchanged.  With finite closes but without a
    Volume column the seven close-based columns are computed and the rest
    is not: neither the two volume columns nor, on the Australian market,
    the three 52-week columns, although these are computed from the
    closes. *)
Theorem indicators_stop_at_missing_column (tech : TechnicalParams)
  (market : string) (df : DataFrame) :
  (Frame.has_column df "Close" = false ->
   calculate_technical_indicators tech market (Some df) = Some df)
  /\ (forall closes : list Q,
        Frame.empty df = false ->
        Frame.column df "Close" = inr (map Fin closes) ->
        Frame.has_column df "Volume" = false ->
        exists df',
          calculate_technical_indicators tech market (Some df) = Some df'
          /\ close_indicators tech (map Fin closes) df'
          /\ same_columns ["Volume_Avg_20"; "Volume_Ratio"; "52W_High";
                           "52W_Low"; "52W_High_Proximity"] df df').
Proof.
  split.
  - intro Hc. unfold calculate_technical_indicators.
    destruct (Frame.empty df); [reflexivity|].
    unfold indicator_steps. cbn [run_steps].
    rewrite (column_has df "Close" Hc). reflexivity.
  - intro closes. apply run_without_volume.
Qed.

Lemma indicators_stop_at_missing_column_witness :
  calculate_technical_indicators TECHNICAL "australia"
    (Some {| Frame.index_len := 3;
             Frame.columns := [("Volume", [of_Z 100; of_Z 150; of_Z 120])] |})
  = Some {| Frame.index_len := 3;
            Frame.columns := [("Volume", [of_Z 100; of_Z 150; of_Z 120])] |}
  /\ exists df',
      calculate_technical_indicators TECHNICAL "australia"
        (Some close_only_frame) = Some df'
      /\ close_indicators TECHNICAL (map Fin [11; 12; 11]%Q) df'
      /\ same_columns ["Volume_Avg_20"; "Volume_Ratio"; "52W_High";
                       "52W_Low"; "52W_High_Proximity"] close_only_frame df'.
Proof.
  split.
  - apply (proj1 (indicators_stop_at_missing_column TECHNICAL "australia" _)).
    reflexivity.
  - apply (proj2 (indicators_stop_at_missing_column TECHNICAL "australia"
                    close_only_frame) [11; 12; 11]%Q); reflexivity.
Defined.

(** *** The values that the criteria read from the last row *)

Lemma nth_map_seq (f : nat -> float) (n i : nat) :
  (i < n)%nat -> nth i (map f (seq 0 n)) NaN = f i.
Proof.
  intro H.
  rewrite (nth_indep _ NaN (f O)) by (rewrite length_map, length_seq; exact H).
  rewrite map_nth, seq_nth by exact H. reflexivity.
Qed.

(** [df.iloc[-1].get(k, default)] is the last value of the column [k]. *)
Lemma get_latest (d : DataFrame) (k : string) (vals : list float)
  (row : Series) (default : float) :
  Frame.column d k = inr vals -> Frame.iloc_back d 1 = inr row ->
  Frame.get row k default = nth (Frame.index_len d - 1) vals NaN.
Proof.
  unfold Frame.column, Frame.iloc_back, Frame.get.
  destruct (dict_get (Frame.columns d) k) as [raw|] eqn:E; [|discriminate].
  intro H1. inversion H1 as [Hv]. clear H1.
  destruct (Nat.ltb (Frame.index_len d) 1) eqn:El; [discriminate|].
  apply Nat.ltb_ge in El.
  intro H2. inversion H2 as [Hr]. clear H2.
  rewrite (dict_get_map_snd (fun c => nth (Frame.index_len d - 1) c NaN)), E.
  cbn [option_map]. rewrite nth_map_seq by lia. reflexivity.
Qed.

(** A rolling mean is undefined until its window is full. *)
Lemma rolling_mean_warmup (w : nat) (l : list float) (i : nat) :
  (i + 1 < w)%nat -> nth i (rolling_mean w l) NaN = NaN.
Proof.
  intro H. unfold rolling_mean.
  destruct (Nat.lt_ge_cases i (List.length l)) as [Hi|Hi].
  - rewrite nth_map_seq by exact Hi.
    apply Nat.ltb_lt in H. rewrite H. reflexivity.
  - apply nth_overflow. rewrite length_map, length_seq. exact Hi.
Qed.

(** The frame that an evaluation reads was computed from a frame with
    closes. *)
Lemma read_close_has_closes (tech : TechnicalParams) (market : string)
  (df df' : DataFrame) (row : Series) (c : float) :
  calculate_technical_indicators tech market (Some df) = Some df' ->
  Frame.iloc_back df' 1 = inr row ->
  Frame.item row "Close" = inr c ->
  Frame.empty df = false /\ exists close, Frame.column df "Close" = inr close.
Proof.
  intros Hcalc Hrow Hc.
  pose proof (iloc_back_item_has_column _ _ _ _ _ Hrow Hc) as Hhas.
  pose proof (iloc_back_not_empty _ _ _ Hrow Hhas) as Hne.
  destruct (indicators_keep_entry tech market df) as [df2 [H1 [Hlen Hcols]]].
  rewrite H1 in Hcalc. inversion Hcalc. subst df2.
  assert (Hk : ~ In "Close" indicator_columns).
  { intro H. repeat (destruct H as [H|H]; [discriminate|]). exact H. }
  pose proof (Hcols "Close" Hk) as Hsame.
  destruct (column_present _ _ Hhas) as [v Hv].
  rewrite Hv in Hsame. split; [|exists v; symmetry; exact Hsame].
  unfold calculate_technical_indicators in H1.
  destruct (Frame.empty df) eqn:E; [|reflexivity].
  inversion H1. subst df'. rewrite Hne in E. discriminate.
Qed.

(** *** The RSI column *)

Lemma nth_error_combine_inv {A B : Type} (a : list A) (b : list B) (i : nat)
  (x : A) (y : B) :
  nth_error (combine a b) i = Some (x, y) ->
  nth_error a i = Some x /\ nth_error b i = Some y.
Proof.
  revert b i. induction a as [|a0 a IH]; intros [|b0 b] [|i]; cbn;
    try discriminate.
  - intro H. inversion H. split; reflexivity.
  - apply IH.
Qed.

Lemma rsi_warmup (period : nat) (close : list float) (i : nat) (v : float) :
  nth_error (rsi period close) i = Some v -> (i + 1 < period)%nat -> v = NaN.
Proof.
  rewrite IndicatorFacts.rsi_unfold. intros H Hi.
  rewrite nth_error_map in H.
  destruct (nth_error (combine _ _) i) as [[g l]|] eqn:E; [|discriminate].
  inversion H. subst v. clear H.
  apply nth_error_combine_inv in E. destruct E as [Hg _].
  apply (nth_error_nth _ _ NaN) in Hg.
  unfold IndicatorFacts.avg_gain in Hg.
  rewrite rolling_mean_warmup in Hg by exact Hi. subst g.
  cbn [fst snd]. unfold IndicatorFacts.rsi_of. destruct l; reflexivity.
Qed.

(** On a history of finite closes the RSI column has a value for every
    row, and every value is undefined (NaN) or lies within [0, 100]; it is
    undefined on the rows before the [rsi_period]-th. *)
Theorem rsi_column_within_bounds (tech : TechnicalParams) (market : string)
  (df : DataFrame) (closes : list Q) :
  Frame.empty df = false ->
  Frame.column df "Close" = inr (map Fin closes) ->
  exists df' rs,
    calculate_technical_indicators tech market (Some df) = Some df'
    /\ Frame.column df' "RSI" = inr rs
    /\ List.length rs = Frame.len df
    /\ forall i v, nth_error rs i = Some v ->
                   IndicatorFacts.in_rsi_range v
                   /\ ((i + 1 < rsi_period tech)%nat -> v = NaN).
Proof.
  intros He Hc.
  destruct (run_on_close tech market df _ He Hc) as [df' [Hcalc Hcols]].
  exists df', (rsi (rsi_period tech) (map Fin closes)).
  split; [exact Hcalc|].
  split; [apply Hcols|].
  split.
  - rewrite length_rsi. apply (column_length _ _ _ Hc).
  - intros i v Hv. split.
    + eapply IndicatorFacts.rsi_in_range. exact Hv.
    + eapply rsi_warmup. exact Hv.
Qed.

(** Closes that rise, fall and rise again over sixteen rows. *)
Definition zigzag_closes : list Q :=
  map inject_Z [10; 11; 12; 11; 10; 11; 12; 13; 12; 11; 12; 13; 14; 13; 12; 13]%Z.

Definition zigzag_frame : DataFrame := {|
  Frame.index_len := 16;
  Frame.columns := [("Close", map Fin zigzag_closes)]
|}.

Lemma rsi_column_within_bounds_witness :
  exists df' rs,
    calculate_technical_indicators TECHNICAL "india" (Some zigzag_frame)
    = Some df'
    /\ Frame.column df' "RSI" = inr rs
    /\ List.length rs = 16%nat
    /\ forall i v, nth_error rs i = Some v ->
                   IndicatorFacts.in_rsi_range v
                   /\ ((i + 1 < 14)%nat -> v = NaN).
Proof.
  apply (rsi_column_within_bounds TECHNICAL "india" zigzag_frame zigzag_closes);
    reflexivity.
Defined.

End IndicatorFrameFacts.

(** ** Histories shorter than the long moving average *)

Module HistoryFacts.

Import Float FloatFacts Indicators.
Local Open Scope float_scope.

(** The SMA_200 that an evaluation reads from the last row of a computed
    history of fewer than [sma_long] rows is NaN. *)
Lemma short_history_sma (market : string) (df df' : DataFrame) (row : Series)
  (c : float) :
  (Frame.len df < 200)%nat ->
  calculate_technical_indicators TECHNICAL market (Some df) = Some df' ->
  Frame.iloc_back df' 1 = inr row ->
  Frame.item row "Close" = inr c ->
  Frame.get row "SMA_200" (of_Z 0) = NaN.
Proof.
  intros Hlen Hcalc Hrow Hc.
  destruct (IndicatorFrameFacts.read_close_has_closes _ _ _ _ _ _
              Hcalc Hrow Hc) as [He [close Hclose]].
  destruct (IndicatorFrameFacts.run_on_close TECHNICAL market df close He Hclose)
    as [df2 [H1 Hcols]].
  rewrite H1 in Hcalc. inversion Hcalc. subst df2. clear Hcalc.
  destruct Hcols as [_ [_ [Hsma _]]].
  rewrite (IndicatorFrameFacts.get_latest _ _ _ _ _ Hsma Hrow).
  change (sma_long TECHNICAL) with 200%nat.
  apply IndicatorFrameFacts.rolling_mean_warmup.
  destruct (IndicatorFrameFacts.indicators_keep_entry TECHNICAL market df)
    as [df3 [H3 [Hl _]]].
  rewrite H1 in H3. inversion H3. subst df3.
  unfold Frame.len in *. lia.
Qed.

Lemma swing_trend_without_sma (close ema_20 ema_50 : float) :
  (fst (Swing.trend_check close ema_20 ema_50 NaN) <= 15)%Z.
Proof.
  unfold Swing.trend_check.
  replace (ema_50 >? NaN) with false by (destruct ema_50; reflexivity).
  rewrite andb_false_r.
  destruct ((close >? ema_20) && (close >? ema_50)); cbn; lia.
Qed.

Lemma au_trend_without_sma (close ema_20 ema_50 : float) :
  (fst (AustraliaSwing.trend_check close ema_20 ema_50 NaN) <= 15)%Z.
Proof.
  unfold AustraliaSwing.trend_check.
  replace (ema_50 >? NaN) with false by (destruct ema_50; reflexivity).
  rewrite andb_false_r.
  destruct ((close >? ema_20) && (close >? ema_50)); cbn; lia.
Qed.

(** A history of fewer than 200 rows has no 200-day average on its last
    row, and every comparison with the missing value is false: the trend
    check never awards its 20 points for "above all MAs".  Whatever the
    closes, the volumes and the fundamentals, an India evaluation of such a
    history scores at most 95 and the unweighted Australian total is at
    most 90. *)
Theorem short_history_caps_score (df : DataFrame) :
  (Frame.len df < 200)%nat ->
  (forall criteria f passes score entry_type reason,
      Swing.check_swing_criteria criteria
        (calculate_technical_indicators TECHNICAL "india" (Some df)) f
      = inr (passes, score, entry_type, reason) ->
      (score <= 95)%Z)
  /\ (forall criteria f passes score entry_type reason weight,
        AustraliaSwing.check_swing_criteria criteria
          (calculate_technical_indicators TECHNICAL "australia" (Some df)) f
        = inr (passes, score, entry_type, reason, weight) ->
        (passes = false /\ score = 0%Q)
        \/ exists total : Z,
            (total <= 90)%Z /\ score = (inject_Z total * weight)%Q).
Proof.
  intro Hlen. split.
  - intros criteria f passes score et reason H.
    destruct (SwingFacts.check_swing_criteria_inv _ _ _ _ _ _ _ H)
      as [[_ [Hs _]]|[df' [r [Hdf [[Hl [_ Hc]] [_ [Hs _]]]]]]]; [lia|].
    pose proof (short_history_sma "india" df df' _ _ Hlen Hdf Hl Hc) as Hsma.
    subst score. unfold SwingFacts.total_score. rewrite Hsma.
    pose proof (swing_trend_without_sma (SwingFacts.close r)
                  (SwingFacts.ema_20_of r) (SwingFacts.ema_50_of r)).
    pose proof (CriteriaFacts.swing_rsi_points criteria
                  (SwingFacts.rsi_of r) "none").
    pose proof (CriteriaFacts.swing_macd_points
                  (Frame.get (SwingFacts.latest r) "MACD" (of_Z 0))
                  (Frame.get (SwingFacts.latest r) "MACD_Signal" (of_Z 0))
                  (Frame.get (SwingFacts.latest r) "MACD_Hist" (of_Z 0))
                  (Frame.get (SwingFacts.prev r) "MACD_Hist" (of_Z 0))
                  (SwingFacts.entry_after_rsi criteria r)).
    pose proof (CriteriaFacts.swing_volume_points criteria
                  (SwingFacts.volume_ratio_of r)).
    pose proof (CriteriaFacts.swing_sector_points
                  (get_or (Fundamentals.sector f) "Unknown")).
    lia.
  - intros criteria f passes score et reason weight H.
    destruct (AustraliaSwingFacts.au_check_swing_criteria_inv _ _ _ _ _ _ _ _ H)
      as [[Hp [Hs _]]|[df' [r [Hdf [[Hl [_ Hc]] [_ [_ [Hs _]]]]]]]];
      [left; split; assumption|].
    right. exists (AustraliaSwingFacts.total_score criteria r).
    split; [|exact Hs].
    pose proof (short_history_sma "australia" df df' _ _ Hlen Hdf Hl Hc) as Hsma.
    unfold AustraliaSwingFacts.total_score. rewrite Hsma.
    pose proof (au_trend_without_sma (AustraliaSwingFacts.close r)
                  (AustraliaSwingFacts.ema_20_of r)
                  (AustraliaSwingFacts.ema_50_of r)).
    pose proof (CriteriaFacts.au_rsi_points criteria
                  (AustraliaSwingFacts.rsi_of r) "none").
    pose proof (CriteriaFacts.au_week_52_points criteria
                  (Frame.get (AustraliaSwingFacts.latest r)
                     "52W_High_Proximity" (of_Z 0))).
    pose proof (CriteriaFacts.au_macd_points
                  (Frame.get (AustraliaSwingFacts.latest r) "MACD" (of_Z 0))
                  (Frame.get (AustraliaSwingFacts.latest r) "MACD_Signal" (of_Z 0))
                  (Frame.get (AustraliaSwingFacts.latest r) "MACD_Hist" (of_Z 0))
                  (Frame.get (AustraliaSwingFacts.prev r) "MACD_Hist" (of_Z 0))
                  (AustraliaSwingFacts.entry_after_rsi criteria r)).
    pose proof (CriteriaFacts.au_volume_points criteria
                  (AustraliaSwingFacts.volume_ratio_of r)).
    lia.
Qed.

Lemma short_history_caps_score_witness :
  (40 <= 95)%Z
  /\ ((false = false /\ (inject_Z 33 * (12 # 10))%Q = 0%Q)
      \/ exists total : Z,
          (total <= 90)%Z
          /\ (inject_Z 33 * (12 # 10))%Q = (inject_Z total * (12 # 10))%Q).
Proof.
  assert (Hlen : (Frame.len IndicatorFacts.flat_frame < 200)%nat)
    by (unfold Frame.len; cbn; lia).
  split.
  - eapply (proj1 (short_history_caps_score IndicatorFacts.flat_frame Hlen)
              Swing.Config_SWING (EntryTypeFacts.sound_fundamentals "DEFENCE")).
    vm_compute. reflexivity.
  - eapply (proj2 (short_history_caps_score IndicatorFacts.flat_frame Hlen)
              AustraliaSwing.Config_SWING
              (EntryTypeFacts.sound_fundamentals "Materials")).
    vm_compute. reflexivity.
Defined.

End HistoryFacts.

(** ** Rounding and the price levels *)

Module RoundingFacts.

Import Float FloatFacts.
Local Open Scope float_scope.

(** The rounded value is within one half of the argument, and at exactly
    one half away it is even. *)
Lemma round_half_even_spec (q : Q) :
  let a := round_half_even q in
  let n := Qnum q in
  let d := Zpos (Qden q) in
  ((2 * a - 1) * d <= 2 * n <= (2 * a + 1) * d)%Z
  /\ ((2 * n = (2 * a - 1) * d)%Z -> Z.even a = true)
  /\ ((2 * n = (2 * a + 1) * d)%Z -> Z.even a = true).
Proof.
  unfold round_half_even. cbv zeta.
  set (n := Qnum q). set (d := Zpos (Qden q)).
  assert (Hd : (0 < d)%Z) by (unfold d; lia).
  pose proof (Z.div_mod n d ltac:(lia)) as Hdm.
  pose proof (Z.mod_pos_bound n d Hd) as Hr.
  set (fl := (n / d)%Z) in *. set (r := (n mod d)%Z) in *.
  clearbody fl r. clearbody n d.
  destruct (2 * r ?= d)%Z eqn:C.
  - apply Z.compare_eq in C.
    destruct (Z.even fl) eqn:Ev.
    + split; [lia|]. split; intros _; exact Ev.
    + split; [lia|].
      split; intros _; rewrite Z.even_add, Ev; reflexivity.
  - rewrite Z.compare_lt_iff in C.
    split; [lia|]. split; intro E; exfalso; lia.
  - rewrite Z.compare_gt_iff in C.
    split; [lia|]. split; intro E; exfalso; lia.
Qed.

Lemma round_half_even_mono (q q' : Q) :
  (q <= q')%Q -> (round_half_even q <= round_half_even q')%Z.
Proof.
  intro Hle. unfold Qle in Hle.
  destruct (round_half_even_spec q) as [[Hlo _] [Hlow _]].
  destruct (round_half_even_spec q') as [[_ Hhi] [_ Hhigh]].
  cbv zeta in *.
  set (a := round_half_even q) in *. set (b := round_half_even q') in *.
  set (n := Qnum q) in *. set (n' := Qnum q') in *.
  set (d := Zpos (Qden q)) in *. set (d' := Zpos (Qden q')) in *.
  assert (Hd : (0 < d)%Z) by (unfold d; lia).
  assert (Hd' : (0 < d')%Z) by (unfold d'; lia).
  destruct (Z.le_gt_cases a b) as [H|H]; [exact H|]. exfalso.
  assert (H1 : ((2 * a - 1) * d * d' <= 2 * n * d')%Z) by nia.
  assert (H2 : (2 * n * d' <= 2 * n' * d)%Z) by nia.
  assert (H3 : (2 * n' * d <= (2 * b + 1) * d' * d)%Z) by nia.
  assert (H4 : ((2 * b + 1) * d' * d <= (2 * a - 1) * d * d')%Z) by nia.
  assert (Hb : b = (a - 1)%Z) by nia.
  assert (E1 : (2 * n = (2 * a - 1) * d)%Z) by nia.
  assert (E2 : (2 * n' = (2 * b + 1) * d')%Z) by nia.
  specialize (Hlow E1). specialize (Hhigh E2).
  subst b. rewrite Hb in Hhigh.
  replace a with (Z.succ (a - 1)) in Hlow by lia.
  rewrite Z.even_succ in Hlow. rewrite <- Z.negb_even in Hlow.
  rewrite Hhigh in Hlow. discriminate.
Qed.

(** [round(x, n)] is monotone on the finite floats. *)
Lemma round_mono (q q' : Q) (ndigits : nat) :
  (q <= q')%Q -> (round (Fin q) ndigits <=? round (Fin q') ndigits) = true.
Proof.
  intro H. unfold round, leb.
  set (p := inject_Z (10 ^ Z.of_nat ndigits)).
  assert (Hp : (0 < p)%Q).
  { unfold p. change 0%Q with (inject_Z 0). rewrite <- Zlt_Qlt.
    apply Z.pow_pos_nonneg; lia. }
  apply Qle_bool_iff. rewrite !Qred_correct.
  apply Qmult_le_compat_r.
  - rewrite <- Zle_Qle. apply round_half_even_mono.
    apply Qmult_le_compat_r; [exact H | apply Qlt_le_weak, Hp].
  - apply Qlt_le_weak, Qinv_lt_0_compat, Hp.
Qed.

Lemma scaled_price_order (p : Q) (lo hi : Q) :
  (0 <= p)%Q -> (lo <= 1)%Q -> (1 <= hi)%Q ->
  (Qred (p * lo) <= p)%Q /\ (p <= Qred (p * hi))%Q.
Proof.
  intros Hp Hlo Hhi. rewrite !Qred_correct. split.
  - rewrite <- (Qmult_1_r p) at 2. rewrite !(Qmult_comm p).
    apply Qmult_le_compat_r; assumption.
  - rewrite <- (Qmult_1_r p) at 1. rewrite !(Qmult_comm p).
    apply Qmult_le_compat_r; assumption.
Qed.

(** For a price that is finite and not negative, and for every entry type,
    known or not, the stop-loss is never above the rounded price and the
    target never below it, in both markets. *)
Theorem targets_bracket_price (price : Q) (entry_type : string) :
  (0 <= price)%Q ->
  (exists target stop_loss,
      Swing.calculate_targets (Fin price) entry_type = inr (target, stop_loss)
      /\ (stop_loss <=? round (Fin price) 2) = true
      /\ (round (Fin price) 2 <=? target) = true)
  /\ (exists target stop_loss,
        AustraliaSwing.calculate_targets (Fin price) entry_type
        = inr (target, stop_loss)
        /\ (stop_loss <=? round (Fin price) 2) = true
        /\ (round (Fin price) 2 <=? target) = true).
Proof.
  intro Hp.
  assert (Hlo : forall lo : Q,
             (lo <= 1)%Q ->
             (round (Fin price * Fin lo) 2 <=? round (Fin price) 2) = true).
  { intros lo H. cbn [mul]. apply round_mono.
    apply (scaled_price_order price lo 1 Hp H (Qle_refl 1)). }
  assert (Hhi : forall hi : Q,
             (1 <= hi)%Q ->
             (round (Fin price) 2 <=? round (Fin price * Fin hi) 2) = true).
  { intros hi H. cbn [mul]. apply round_mono.
    apply (scaled_price_order price 1 hi Hp (Qle_refl 1) H). }
  unfold Swing.calculate_targets, AustraliaSwing.calculate_targets, dec.
  split.
  - destruct (String.eqb entry_type "breakout");
      [|destruct (String.eqb entry_type "pullback")];
      do 2 eexists; (split; [reflexivity|]);
      (split; [apply Hlo | apply Hhi]); vm_compute; discriminate.
  - destruct (String.eqb entry_type "breakout");
      [|destruct (String.eqb entry_type "pullback")];
      do 2 eexists; (split; [reflexivity|]);
      (split; [apply Hlo | apply Hhi]); vm_compute; discriminate.
Qed.

Lemma targets_bracket_price_witness :
  (exists target stop_loss,
      Swing.calculate_targets (dec 10050 2) "pullback" = inr (target, stop_loss)
      /\ (stop_loss <=? round (dec 10050 2) 2) = true
      /\ (round (dec 10050 2) 2 <=? target) = true)
  /\ (exists target stop_loss,
        AustraliaSwing.calculate_targets (dec 10050 2) "pullback"
        = inr (target, stop_loss)
        /\ (stop_loss <=? round (dec 10050 2) 2) = true
        /\ (round (dec 10050 2) 2 <=? target) = true).
Proof.
  apply (targets_bracket_price (10050 # 100) "pullback"). discriminate.
Defined.

End RoundingFacts.

(** ** What every candidate of a BTST scan carries *)

Module BTSTOutputFacts.

Import Float FloatFacts.
Local Open Scope float_scope.

(** A candidate is the snapshot of its symbol with the score and the reason
    of an evaluation that passed. *)
Definition btst_origin (criteria : BTST.BTSTCriteria)
  (current_data_dict : dict Snapshot.t) (symbol : string)
  (c : BTST.BTSTCandidate.t) : Prop :=
  exists (current_data : Snapshot.t) (history : option DataFrame)
         (f : Fundamentals.t),
    dict_get current_data_dict symbol = Some current_data
    /\ BTST.check_btst_criteria criteria current_data history f
       = inr (true, BTST.BTSTCandidate.score c, BTST.BTSTCandidate.reason c)
    /\ BTST.BTSTCandidate.symbol c = Snapshot.symbol current_data
    /\ BTST.BTSTCandidate.current_price c = Snapshot.current_price current_data
    /\ BTST.BTSTCandidate.day_change_pct c
       = Snapshot.day_change_pct current_data
    /\ BTST.BTSTCandidate.high_proximity_pct c
       = Snapshot.high_proximity_pct current_data.

Lemma btst_analyze_symbol_origin (criteria : BTST.BTSTCriteria)
  (cd : dict Snapshot.t) (hd : dict DataFrame) (fd : dict Fundamentals.t)
  (s : string) (c : BTST.BTSTCandidate.t) :
  BTST.analyze_symbol criteria cd hd fd s = inr (Some c) ->
  btst_origin criteria cd s c.
Proof.
  unfold BTST.analyze_symbol, btst_origin.
  destruct (dict_get cd s) as [current_data|]; [|discriminate].
  destruct (dict_get hd s) as [df|]; [|discriminate].
  destruct (BTST.check_btst_criteria criteria current_data _ _)
    as [e|[[passes score] reason]] eqn:Hc; [discriminate|].
  cbn [bind Monad_either].
  destruct passes; [|discriminate].
  match goal with
  | |- context [match ?m with inl _ => _ | inr _ => _ end] =>
      destruct m as [e|volume_ratio]; [discriminate|]
  end.
  cbn [ret Monad_either]. intro H. inversion H. subst c. clear H.
  exists current_data. do 2 eexists. cbn.
  split; [reflexivity|]. split; [exact Hc|]. repeat split.
Qed.

(** An evaluation that is not rejected has a day change of at least the
    minimum gain, provided the band is not empty. *)
Lemma passed_gain_floor (criteria : BTST.BTSTCriteria)
  (current_data : Snapshot.t) (history : option DataFrame)
  (f : Fundamentals.t) (score : Z) (reason : string) :
  (BTST.min_gain_percent criteria <=? BTST.max_gain_percent criteria) = true ->
  BTST.check_btst_criteria criteria current_data history f
  = inr (true, score, reason) ->
  (BTST.min_gain_percent criteria <=? Snapshot.day_change_pct current_data)
  = true.
Proof.
  intros Hband. unfold BTST.check_btst_criteria, BTST.gain_check.
  destruct (BTST.min_gain_percent criteria
            <=? Snapshot.day_change_pct current_data) eqn:E; [reflexivity|].
  cbn [andb].
  destruct (Snapshot.day_change_pct current_data
            >? BTST.max_gain_percent criteria) eqn:E2; [|discriminate].
  intros _. rewrite <- E. apply ltb_leb.
  eapply leb_ltb_trans; [exact Hband | exact E2].
Qed.

(** Every candidate in the output of a BTST scan carries the symbol, the
    price, the day change and the high proximity of the snapshot fetched
    for its symbol; its day change is at least the minimum gain (so it is
    not NaN) and its score lies within [60, 100]. *)
Theorem btst_candidates_carry_snapshot (fetcher : DataFetcher)
  (criteria : BTST.BTSTCriteria) (symbols : option (list string))
  (max_results : option Z) :
  (BTST.min_gain_percent criteria <=? BTST.max_gain_percent criteria) = true ->
  Forall
    (fun c =>
       (exists symbol current_data,
           dict_get (batch_fetch_current_data fetcher
                       (get_or symbols (get_symbols fetcher))) symbol
           = Some current_data
           /\ BTST.BTSTCandidate.symbol c = Snapshot.symbol current_data
           /\ BTST.BTSTCandidate.current_price c
              = Snapshot.current_price current_data
           /\ BTST.BTSTCandidate.day_change_pct c
              = Snapshot.day_change_pct current_data
           /\ BTST.BTSTCandidate.high_proximity_pct c
              = Snapshot.high_proximity_pct current_data)
       /\ (BTST.min_gain_percent criteria <=? BTST.BTSTCandidate.day_change_pct c)
          = true
       /\ (60 <= BTST.BTSTCandidate.score c <= 100)%Z)
    (BTST.scan_for_btst fetcher criteria symbols max_results).
Proof.
  intro Hband. apply Forall_forall. intros c Hc.
  rewrite ScanFacts.scan_for_btst_ranked in Hc.
  apply ScanFacts.ranked_In in Hc. apply analyze_each_In in Hc.
  destruct Hc as [s [_ Hs]].
  apply btst_analyze_symbol_origin in Hs.
  destruct Hs as [cd [h [f [Hget [Hk [Hsym [Hp [Hd Hh]]]]]]]].
  split; [|split].
  - exists s, cd. repeat split; assumption.
  - rewrite Hd. eapply passed_gain_floor; eassumption.
  - destruct (CriteriaFacts.btst_score_range _ _ _ _ _ _ _ Hk) as [Hpass Hr].
    pose proof (proj1 Hpass eq_refl). lia.
Qed.

Lemma btst_candidates_carry_snapshot_witness :
  Forall
    (fun c =>
       (exists symbol current_data,
           dict_get (batch_fetch_current_data ScanFacts.three_symbol_fetcher
                       (get_or None
                          (get_symbols ScanFacts.three_symbol_fetcher))) symbol
           = Some current_data
           /\ BTST.BTSTCandidate.symbol c = Snapshot.symbol current_data
           /\ BTST.BTSTCandidate.current_price c
              = Snapshot.current_price current_data
           /\ BTST.BTSTCandidate.day_change_pct c
              = Snapshot.day_change_pct current_data
           /\ BTST.BTSTCandidate.high_proximity_pct c
              = Snapshot.high_proximity_pct current_data)
       /\ (BTST.min_gain_percent BTST.Config_BTST
           <=? BTST.BTSTCandidate.day_change_pct c) = true
       /\ (60 <= BTST.BTSTCandidate.score c <= 100)%Z)
    (BTST.scan_for_btst ScanFacts.three_symbol_fetcher BTST.Config_BTST
       None None).
Proof.
  apply (btst_candidates_carry_snapshot ScanFacts.three_symbol_fetcher
           BTST.Config_BTST None None).
  reflexivity.
Defined.

End BTSTOutputFacts.

(** ** The range of the weighted Australian score *)

Module WeightedScoreFacts.

Import Float FloatFacts.

Lemma weight_within (weights : dict Q) (lo hi : Q) (sector : string) :
  (lo <= 1)%Q -> (1 <= hi)%Q ->
  Forall (fun kv => (lo <= snd kv <= hi)%Q) weights ->
  (lo <= get_or (dict_get weights sector) 1 <= hi)%Q.
Proof.
  intros Hlo Hhi H. induction H as [|[k w] weights Hw _ IH]; cbn [dict_get].
  - cbn. split; assumption.
  - destruct (String.eqb sector k); [exact Hw | exact IH].
Qed.

(** With every sector weight within [lo, hi], where 0 <= lo <= 1 <= hi
    (an absent sector has weight 1), every candidate of an Australian scan
    carries a score within [60 * lo, 95 * hi]: the unweighted total of a
    candidate lies within [60, 95] and is multiplied by the weight of its
    sector.  With the configured weights, from 0.8 to 1.2, this is
    [48, 114]: the carried score can exceed 100. *)
Theorem au_candidate_score_range (fetcher : DataFetcher)
  (criteria : AustraliaSwing.AustraliaSwingCriteria)
  (symbols : option (list string)) (max_results : option Z) (lo hi : Q) :
  (0 <= lo)%Q -> (lo <= 1)%Q -> (1 <= hi)%Q ->
  Forall (fun kv => (lo <= snd kv <= hi)%Q)
         (AustraliaSwing.sector_weights criteria) ->
  Forall
    (fun c =>
       (60 * lo <= AustraliaSwing.AustraliaSwingCandidate.score c)%Q
       /\ (AustraliaSwing.AustraliaSwingCandidate.score c <= 95 * hi)%Q)
    (AustraliaSwing.scan_for_swing fetcher criteria symbols max_results).
Proof.
  intros H0 Hlo Hhi Hw. apply Forall_forall. intros c Hc.
  destruct (OutputFacts.au_scan_origin _ _ _ _ _ Hc)
    as [s [f [h [price [Hk _]]]]].
  destruct (AustraliaSwingFacts.au_check_swing_criteria_inv _ _ _ _ _ _ _ _ Hk)
    as [[Hp _]|[df [r [_ [_ [_ [Hweight [Hs Hp]]]]]]]]; [discriminate|].
  pose proof (weight_within _ lo hi
                (get_or (Fundamentals.sector f) "Unknown") Hlo Hhi Hw) as Hb.
  rewrite <- Hweight in Hb.
  pose proof (CriteriaFacts.au_total_score_range criteria r) as Hr.
  symmetry in Hp. apply Z.geb_le in Hp.
  rewrite Hs.
  set (t := AustraliaSwingFacts.total_score criteria r) in *.
  set (w := AustraliaSwing.AustraliaSwingCandidate.sector_weight c) in *.
  assert (Ht60 : (60 <= inject_Z t)%Q)
    by (change 60%Q with (inject_Z 60); rewrite <- Zle_Qle; exact Hp).
  assert (Ht95 : (inject_Z t <= 95)%Q)
    by (change 95%Q with (inject_Z 95); rewrite <- Zle_Qle; lia).
  clearbody t w. destruct Hb as [Hb1 Hb2].
  generalize dependent (inject_Z t). intros x Hx1 Hx2.
  split; nra.
Qed.

Lemma au_candidate_score_range_witness :
  Forall
    (fun c =>
       (60 * (8 # 10) <= AustraliaSwing.AustraliaSwingCandidate.score c)%Q
       /\ (AustraliaSwing.AustraliaSwingCandidate.score c <= 95 * (12 # 10))%Q)
    (AustraliaSwing.scan_for_swing ScanFacts.tech_fetcher
       AustraliaSwing.Config_SWING None None).
Proof.
  apply (au_candidate_score_range ScanFacts.tech_fetcher
           AustraliaSwing.Config_SWING None None (8 # 10) (12 # 10));
    try discriminate.
  repeat constructor; discriminate.
Defined.

End WeightedScoreFacts.

(** ** The market suffix of a symbol *)

Module SymbolFacts.

Lemma no_dot_cons (c : ascii) (s : string) :
  Str.contains "." (String c s) = false ->
  c <> "."%char /\ Str.contains "." s = false.
Proof.
  cbn [Str.contains String.prefix].
  destruct (Ascii.ascii_dec "." c) as [E|E].
  - destruct s; discriminate.
  - intro H. split; [congruence | exact H].
Qed.

Lemma replace_from_no_dot (suffix tail : string) (d1 d2 : ascii) (s : string) :
  suffix = String "." (String d1 (String d2 EmptyString)) ->
  Str.contains "." s = false ->
  Str.replace_from suffix "" O (s ++ tail)
  = s ++ Str.replace_from suffix "" O tail.
Proof.
  intros -> H. induction s as [|c s IH]; [reflexivity|].
  apply no_dot_cons in H. destruct H as [Hc Hs].
  change (String c s ++ tail) with (String c (s ++ tail)).
  cbn [Str.replace_from String.prefix].
  destruct (Ascii.ascii_dec "." c) as [E|E]; [congruence|].
  rewrite (IH Hs). reflexivity.
Qed.

(** Stripping the market suffix: for a symbol without a dot,
    [(symbol + ".NS").replace(".NS", "")] and
    [(symbol + ".AX").replace(".AX", "")] give the symbol back, and a symbol
    that carries no suffix is left as it is. *)
Theorem replace_strips_market_suffix (s : string) :
  Str.contains "." s = false ->
  Str.replace (s ++ ".NS") ".NS" "" = s
  /\ Str.replace (s ++ ".AX") ".AX" "" = s
  /\ Str.replace s ".NS" "" = s
  /\ Str.replace s ".AX" "" = s.
Proof.
  intro H. unfold Str.replace.
  pose proof (replace_from_no_dot ".NS" ".NS" "N" "S" s eq_refl H) as H1.
  pose proof (replace_from_no_dot ".AX" ".AX" "A" "X" s eq_refl H) as H2.
  pose proof (replace_from_no_dot ".NS" "" "N" "S" s eq_refl H) as H3.
  pose proof (replace_from_no_dot ".AX" "" "A" "X" s eq_refl H) as H4.
  assert (Hnil : forall x : string, x ++ "" = x).
  { induction x as [|c x IH]; [reflexivity|].
    change (String c x ++ "") with (String c (x ++ "")).
    rewrite IH. reflexivity. }
  cbn in H1, H2, H3, H4. rewrite Hnil in H1, H2, H3, H4.
  repeat split; assumption.
Qed.

Lemma replace_strips_market_suffix_witness :
  Str.replace ("BAJAJ-AUTO" ++ ".NS") ".NS" "" = "BAJAJ-AUTO"
  /\ Str.replace ("BAJAJ-AUTO" ++ ".AX") ".AX" "" = "BAJAJ-AUTO"
  /\ Str.replace "BAJAJ-AUTO" ".NS" "" = "BAJAJ-AUTO"
  /\ Str.replace "BAJAJ-AUTO" ".AX" "" = "BAJAJ-AUTO".
Proof. apply (replace_strips_market_suffix "BAJAJ-AUTO"). reflexivity. Defined.

End SymbolFacts.

(** ** The exponential moving averages *)

Module AverageFacts.

Import Float FloatFacts Indicators.
Local Open Scope float_scope.

(** A finite value within [lo, hi]. *)
Definition within (lo hi : Q) (x : float) : Prop :=
  match x with
  | Fin q => (lo <= q <= hi)%Q
  | _ => False
  end.

Lemma smoothing_factor (span : nat) :
  (1 <= span)%nat ->
  exists a : Q, of_Z 2 / of_nat (span + 1) = Fin a /\ (0 <= a <= 1)%Q.
Proof.
  intro H. unfold of_nat, of_Z. cbn [div].
  assert (Hpos : (2 <= inject_Z (Z.of_nat (span + 1)))%Q).
  { change 2%Q with (inject_Z 2). rewrite <- Zle_Qle. lia. }
  destruct (Qeq_bool (inject_Z (Z.of_nat (span + 1))) 0) eqn:E.
  - apply Qeq_bool_iff in E. rewrite E in Hpos.
    unfold Qle in Hpos. cbn in Hpos. lia.
  - eexists. split; [reflexivity|]. rewrite Qred_correct.
    assert (H0 : (0 < inject_Z (Z.of_nat (span + 1)))%Q)
      by (eapply Qlt_le_trans; [|exact Hpos]; reflexivity).
    split.
    + apply Qle_shift_div_l; [exact H0|]. rewrite Qmult_0_l. discriminate.
    + apply Qle_shift_div_r; [exact H0|]. rewrite Qmult_1_l. exact Hpos.
Qed.

Lemma ewm_step_within (lo hi a prev x : Q) :
  (0 <= a <= 1)%Q -> (lo <= prev <= hi)%Q -> (lo <= x <= hi)%Q ->
  within lo hi ((of_Z 1 - Fin a) * Fin prev + Fin a * Fin x).
Proof.
  intros [Ha0 Ha1] [Hp0 Hp1] [Hx0 Hx1].
  unfold of_Z. cbn [sub neg add mul within].
  rewrite !Qred_correct. change (inject_Z 1) with 1%Q.
  split; nra.
Qed.

Lemma ewm_from_within (lo hi a prev : Q) (qs : list Q) :
  (0 <= a <= 1)%Q -> (lo <= prev <= hi)%Q ->
  Forall (fun q => (lo <= q <= hi)%Q) qs ->
  Forall (within lo hi) (ewm_from (Fin a) (Fin prev) (map Fin qs)).
Proof.
  intros Ha Hp H. revert prev Hp.
  induction H as [|x qs Hx _ IH]; intros prev Hp; cbn [map ewm_from].
  - constructor.
  - pose proof (ewm_step_within lo hi a prev x Ha Hp Hx) as Hy.
    destruct ((of_Z 1 - Fin a) * Fin prev + Fin a * Fin x) as [y| | |] eqn:E;
      try contradiction.
    constructor; [exact Hy|]. apply IH. exact Hy.
Qed.

Lemma ewm_mean_within (span : nat) (lo hi : Q) (qs : list Q) :
  (1 <= span)%nat ->
  Forall (fun q => (lo <= q <= hi)%Q) qs ->
  Forall (within lo hi) (ewm_mean span (map Fin qs)).
Proof.
  intros Hs H. destruct H as [|x qs Hx H]; cbn [map ewm_mean]; [constructor|].
  constructor; [exact Hx|].
  destruct (smoothing_factor span Hs) as [a [-> Ha]].
  apply ewm_from_within; assumption.
Qed.

(** On a history whose closes are finite and lie within [lo, hi], every
    value of the EMA_20 and EMA_50 columns is finite and lies within
    [lo, hi]: an exponential average never leaves the range of the closes
    and is defined from the first row on. *)
Theorem ema_columns_within_close_range (tech : TechnicalParams)
  (market : string) (df : DataFrame) (closes : list Q) (lo hi : Q) :
  (1 <= ema_short tech)%nat -> (1 <= ema_medium tech)%nat ->
  Frame.empty df = false ->
  Frame.column df "Close" = inr (map Fin closes) ->
  Forall (fun q => (lo <= q <= hi)%Q) closes ->
  exists df' ema_20 ema_50,
    calculate_technical_indicators tech market (Some df) = Some df'
    /\ Frame.column df' "EMA_20" = inr ema_20
    /\ Frame.column df' "EMA_50" = inr ema_50
    /\ Forall (within lo hi) ema_20
    /\ Forall (within lo hi) ema_50.
Proof.
  intros Hs Hm He Hc Hb.
  destruct (IndicatorFrameFacts.run_on_close tech market df _ He Hc)
    as [df' [Hcalc [H20 [H50 _]]]].
  exists df'. do 2 eexists.
  split; [exact Hcalc|]. split; [exact H20|]. split; [exact H50|].
  split; apply ewm_mean_within; assumption.
Qed.

Lemma ema_columns_within_close_range_witness :
  exists df' ema_20 ema_50,
    calculate_technical_indicators TECHNICAL "india"
      (Some IndicatorFrameFacts.zigzag_frame) = Some df'
    /\ Frame.column df' "EMA_20" = inr ema_20
    /\ Frame.column df' "EMA_50" = inr ema_50
    /\ Forall (within 10 14) ema_20
    /\ Forall (within 10 14) ema_50.
Proof.
  apply (ema_columns_within_close_range TECHNICAL "india"
           IndicatorFrameFacts.zigzag_frame
           IndicatorFrameFacts.zigzag_closes 10 14).
  - cbn. lia.
  - cbn. lia.
  - reflexivity.
  - reflexivity.
  - repeat constructor; discriminate.
Defined.

End AverageFacts.

(** ** Batch retrieval *)

Module FetcherFacts.

Import Float FloatFacts.
Local Open Scope float_scope.

(** *** The batches of [batch_fetch_fundamentals] *)

Lemma chunks_concat (batch_size : nat) (m : nat) (l : list string) :
  (List.length l <= m * batch_size)%nat ->
  List.concat (map (fun i => firstn batch_size (skipn i l))
              (map (fun k => (k * batch_size)%nat) (seq 0 m))) = l.
Proof.
  revert l. induction m as [|m IH]; intros l Hl.
  - destruct l; [reflexivity | cbn in Hl; lia].
  - cbn [seq map List.concat]. rewrite <- seq_shift, !map_map.
    change (0 * batch_size)%nat with 0%nat. cbn [skipn].
    etransitivity; [|apply (firstn_skipn batch_size l)]. f_equal.
    etransitivity; [|apply (IH (skipn batch_size l))].
    + f_equal. rewrite map_map. apply map_ext. intro k.
      rewrite skipn_skipn. f_equal. f_equal. lia.
    + rewrite length_skipn. lia.
Qed.

(** The batches are the symbols, in order, each exactly once. *)
Lemma batches_concat (symbols : list string) (batch_size : nat) :
  (1 <= batch_size)%nat ->
  List.concat (Fetcher.batches symbols batch_size) = symbols.
Proof.
  intro H. unfold Fetcher.batches, Fetcher.range_step.
  apply chunks_concat.
  set (n := List.length symbols).
  pose proof (Nat.div_mod_eq (n + batch_size - 1) batch_size) as E.
  pose proof (Nat.mod_upper_bound (n + batch_size - 1) batch_size
                ltac:(lia)) as Hm.
  nia.
Qed.

Lemma fold_left_concat {A B : Type} (f : A -> B -> A) (ls : list (list B))
  (a : A) :
  fold_left (fun acc l => fold_left f l acc) ls a
  = fold_left f (List.concat ls) a.
Proof.
  revert a. induction ls as [|l ls IH]; intro a; cbn [fold_left List.concat].
  - reflexivity.
  - rewrite fold_left_app. apply IH.
Qed.

(** The loop as one pass over the symbols. *)
Definition store_all (lookup : string -> option Fundamentals.t)
  (symbols : list string) (results : dict Fundamentals.t)
  : dict Fundamentals.t :=
  fold_left
    (fun results symbol =>
       Frame.dict_set results symbol
         (get_or (lookup symbol) Fetcher.placeholder))
    symbols results.

Lemma batch_fetch_fundamentals_one_pass
  (lookup : string -> option Fundamentals.t) (symbols : list string)
  (batch_size : Z) :
  (1 <= batch_size)%Z ->
  Fetcher.batch_fetch_fundamentals lookup symbols batch_size
  = inr (store_all lookup symbols []).
Proof.
  intro H. unfold Fetcher.batch_fetch_fundamentals.
  destruct (Z.eqb_spec batch_size 0); [lia|].
  destruct (Z.ltb_spec batch_size 0); [lia|].
  f_equal. unfold store_all.
  rewrite (fold_left_concat
             (fun results symbol =>
                Frame.dict_set results symbol
                  (get_or (lookup symbol) Fetcher.placeholder))).
  rewrite batches_concat by lia. reflexivity.
Qed.

Lemma fundamentals_range_cases (batch_size : Z) :
  batch_size = 0%Z \/ (batch_size < 0)%Z \/ (1 <= batch_size)%Z.
Proof. lia. Qed.

Lemma dict_keys_set {A : Type} (d : dict A) (k : string) (v : A) :
  dict_keys (Frame.dict_set d k v)
  = if Str.list_mem k (dict_keys d) then dict_keys d
    else (dict_keys d ++ [k])%list.
Proof.
  unfold dict_keys.
  induction d as [|[k' v'] d IH]; cbn [Frame.dict_set map fst Str.list_mem].
  - reflexivity.
  - destruct (String.eqb k k') eqn:E; cbn [orb map fst].
    + apply String.eqb_eq in E. subst k'. reflexivity.
    + rewrite IH. destruct (Str.list_mem k (map fst d)); reflexivity.
Qed.

Lemma list_mem_In (s : string) (l : list string) :
  Str.list_mem s l = true <-> In s l.
Proof.
  induction l as [|x l IH]; cbn [Str.list_mem In].
  - split; [discriminate | contradiction].
  - rewrite orb_true_iff, IH, String.eqb_eq.
    split; intros [H|H]; auto.
Qed.

Lemma dict_set_NoDup {A : Type} (d : dict A) (k : string) (v : A) :
  NoDup (dict_keys d) -> NoDup (dict_keys (Frame.dict_set d k v)).
Proof.
  intro H. rewrite dict_keys_set.
  destruct (Str.list_mem k (dict_keys d)) eqn:E; [exact H|].
  apply NoDup_app; [exact H | repeat constructor; intros [] |].
  intros x Hx [<-|[]].
  apply list_mem_In in Hx. rewrite Hx in E. discriminate.
Qed.

Lemma store_all_spec (lookup : string -> option Fundamentals.t)
  (symbols : list string) (results : dict Fundamentals.t) :
  NoDup (dict_keys results) ->
  NoDup (dict_keys (store_all lookup symbols results))
  /\ (forall s,
         dict_get (store_all lookup symbols results) s
         = if Str.list_mem s symbols
           then Some (get_or (lookup s) Fetcher.placeholder)
           else dict_get results s).
Proof.
  revert results. induction symbols as [|x symbols IH]; intros results Hnd.
  - split; [exact Hnd | reflexivity].
  - cbn [store_all fold_left].
    destruct (IH (Frame.dict_set results x
                    (get_or (lookup x) Fetcher.placeholder))
                 (dict_set_NoDup _ _ _ Hnd)) as [H1 H2].
    split; [exact H1|]. intro s. unfold store_all in H2. rewrite H2.
    cbn [Str.list_mem].
    destruct (Str.list_mem s symbols); [rewrite orb_true_r; reflexivity|].
    rewrite orb_false_r, FrameFacts.dict_get_set.
    destruct (String.eqb s x) eqn:E; [|reflexivity].
    apply String.eqb_eq in E. subst x. reflexivity.
Qed.

Lemma dict_get_In_keys {A : Type} (d : dict A) (k : string) :
  In k (dict_keys d) <-> exists v, dict_get d k = Some v.
Proof.
  unfold dict_keys. induction d as [|[k' v'] d IH]; cbn [map fst In dict_get].
  - split; [contradiction | intros [v H]; discriminate].
  - destruct (String.eqb k k') eqn:E.
    + apply String.eqb_eq in E. subst k'.
      split; [intros _; eexists; reflexivity | auto].
    + rewrite IH. apply String.eqb_neq in E.
      split; [intros [H|H]; [congruence | exact H] | auto].
Qed.

(** For every batch size of at least one the result has exactly the
    requested symbols as its keys, each once, and holds for each of them
    what its lookup built, or the placeholder when the lookup raised: no
    symbol is lost or skipped at a batch boundary, whatever the batch
    size.  A batch size of zero raises, a negative one fetches nothing. *)
Theorem fundamentals_cover_every_symbol
  (lookup : string -> option Fundamentals.t) (symbols : list string)
  (batch_size : Z) :
  ((1 <= batch_size)%Z ->
   exists results,
     Fetcher.batch_fetch_fundamentals lookup symbols batch_size = inr results
     /\ NoDup (dict_keys results)
     /\ (forall s, In s (dict_keys results) <-> In s symbols)
     /\ (forall s, In s symbols ->
                   dict_get results s
                   = Some (get_or (lookup s) Fetcher.placeholder)))
  /\ (batch_size = 0%Z ->
      Fetcher.batch_fetch_fundamentals lookup symbols batch_size
      = inl (Fetcher.ValueError "range() arg 3 must not be zero"))
  /\ ((batch_size < 0)%Z ->
      Fetcher.batch_fetch_fundamentals lookup symbols batch_size = inr []).
Proof.
  split; [|split].
  - intro H. exists (store_all lookup symbols []).
    split; [apply batch_fetch_fundamentals_one_pass; exact H|].
    destruct (store_all_spec lookup symbols [] (NoDup_nil _)) as [H1 H2].
    split; [exact H1|]. split.
    + intro s. rewrite dict_get_In_keys, H2, <- list_mem_In.
      destruct (Str.list_mem s symbols); cbn [dict_get].
      * split; [reflexivity | intros _; eexists; reflexivity].
      * split; [intros [v Hv]; discriminate | discriminate].
    + intros s Hs. rewrite H2. apply list_mem_In in Hs. rewrite Hs.
      reflexivity.
  - intros ->. reflexivity.
  - intro H. unfold Fetcher.batch_fetch_fundamentals.
    destruct (Z.eqb_spec batch_size 0); [lia|].
    destruct (Z.ltb_spec batch_size 0); [reflexivity | lia].
Qed.

(** Three symbols in batches of two; the lookup of the second raises. *)
Definition failing_lookup (symbol : string) : option Fundamentals.t :=
  if String.eqb symbol "BAD.NS" then None
  else Some (EntryTypeFacts.sound_fundamentals "DEFENCE").

Lemma fundamentals_cover_every_symbol_witness :
  exists results,
    Fetcher.batch_fetch_fundamentals failing_lookup
      ["TCS.NS"; "BAD.NS"; "INFY.NS"] 2 = inr results
    /\ NoDup (dict_keys results)
    /\ (forall s, In s (dict_keys results)
                  <-> In s ["TCS.NS"; "BAD.NS"; "INFY.NS"])
    /\ (forall s, In s ["TCS.NS"; "BAD.NS"; "INFY.NS"] ->
                  dict_get results s
                  = Some (get_or (failing_lookup s) Fetcher.placeholder)).
Proof.
  apply (proj1 (fundamentals_cover_every_symbol failing_lookup
                  ["TCS.NS"; "BAD.NS"; "INFY.NS"] 2)).
  lia.
Defined.

Lemma NoDup_dict_get {A : Type} (d : dict A) (k : string) (v : A) :
  NoDup (dict_keys d) -> In (k, v) d -> dict_get d k = Some v.
Proof.
  unfold dict_keys. induction d as [|[k' v'] d IH]; cbn [map fst In dict_get].
  - contradiction.
  - intros Hnd [H|H].
    + inversion H. subst. rewrite String.eqb_refl. reflexivity.
    + inversion Hnd as [|x l Hx Hl]. subst.
      destruct (String.eqb k k') eqn:E; [|apply IH; assumption].
      apply String.eqb_eq in E. subst k'. exfalso. apply Hx.
      apply (in_map fst) in H. exact H.
Qed.

Lemma results_of_failed_lookup (lookup : string -> option Fundamentals.t)
  (symbols : list string) (batch_size : Z) (results : dict Fundamentals.t)
  (s : string) (v : Fundamentals.t) :
  Fetcher.batch_fetch_fundamentals lookup symbols batch_size = inr results ->
  lookup s = None -> In (s, v) results -> v = Fetcher.placeholder.
Proof.
  intros Hr Hl Hin.
  destruct (fundamentals_range_cases batch_size) as [H|[H|H]].
  - subst. discriminate.
  - unfold Fetcher.batch_fetch_fundamentals in Hr.
    destruct (Z.eqb_spec batch_size 0); [lia|].
    destruct (Z.ltb_spec batch_size 0); [|lia].
    inversion Hr. subst. contradiction.
  - rewrite (batch_fetch_fundamentals_one_pass _ _ _ H) in Hr.
    inversion Hr. subst results. clear Hr.
    destruct (store_all_spec lookup symbols [] (NoDup_nil _)) as [H1 H2].
    pose proof (NoDup_dict_get _ _ _ H1 Hin) as Hg.
    rewrite H2 in Hg. destruct (Str.list_mem s symbols); [|discriminate].
    rewrite Hl in Hg. inversion Hg. reflexivity.
Qed.

(** A symbol whose fundamentals lookup raised is stored with a market cap
    of zero, so it never passes the fundamental filter of a swing scan whose
    market-cap floor is positive: it is not analysed, in either market. *)
Theorem failed_lookup_is_filtered_out
  (lookup : string -> option Fundamentals.t) (symbols : list string)
  (batch_size : Z) (results : dict Fundamentals.t) (s : string) :
  Fetcher.batch_fetch_fundamentals lookup symbols batch_size = inr results ->
  lookup s = None ->
  (forall criteria,
      (of_Z 0 <? Swing.min_market_cap criteria) = true ->
      ~ In s (Swing.filter_symbols criteria results))
  /\ (forall criteria,
        (of_Z 0 <? AustraliaSwing.min_market_cap criteria) = true ->
        ~ In s (AustraliaSwing.filter_symbols criteria results)).
Proof.
  intros Hr Hl.
  split; intros criteria Hmin Hin;
    unfold Swing.filter_symbols, AustraliaSwing.filter_symbols, dict_keys in Hin;
    apply in_map_iff in Hin; destruct Hin as [[k v] [Hk Hin]];
    cbn [fst] in Hk; subst k;
    apply filter_In in Hin; destruct Hin as [Hin Hp];
    rewrite (results_of_failed_lookup _ _ _ _ _ _ Hr Hl Hin) in Hp;
    cbn [snd Fetcher.placeholder Fundamentals.market_cap get_or] in Hp;
    apply andb_true_iff in Hp; destruct Hp as [Hp _];
    unfold geb in Hp; rewrite (ltb_not_leb _ _ Hmin) in Hp; discriminate.
Qed.

Lemma failed_lookup_is_filtered_out_witness :
  ~ In "BAD.NS"
       (Swing.filter_symbols Swing.Config_SWING
          [("TCS.NS", EntryTypeFacts.sound_fundamentals "DEFENCE");
           ("BAD.NS", Fetcher.placeholder);
           ("INFY.NS", EntryTypeFacts.sound_fundamentals "DEFENCE")])
  /\ ~ In "BAD.NS"
         (AustraliaSwing.filter_symbols AustraliaSwing.Config_SWING
            [("TCS.NS", EntryTypeFacts.sound_fundamentals "DEFENCE");
             ("BAD.NS", Fetcher.placeholder);
             ("INFY.NS", EntryTypeFacts.sound_fundamentals "DEFENCE")]).
Proof.
  assert (Hr : Fetcher.batch_fetch_fundamentals failing_lookup
                 ["TCS.NS"; "BAD.NS"; "INFY.NS"] 2
               = inr [("TCS.NS", EntryTypeFacts.sound_fundamentals "DEFENCE");
                      ("BAD.NS", Fetcher.placeholder);
                      ("INFY.NS", EntryTypeFacts.sound_fundamentals "DEFENCE")])
    by reflexivity.
  split.
  - apply (proj1 (failed_lookup_is_filtered_out _ _ _ _ "BAD.NS" Hr eq_refl)).
    reflexivity.
  - apply (proj2 (failed_lookup_is_filtered_out _ _ _ _ "BAD.NS" Hr eq_refl)).
    reflexivity.
Defined.

(** *** The snapshots of [batch_fetch_current_data] *)

Lemma item_of_has_column (d : DataFrame) (n : nat) (row : Series) (k : string) :
  Frame.iloc_back d n = inr row -> Frame.has_column d k = true ->
  exists x, Frame.item row k = inr x.
Proof.
  unfold Frame.iloc_back, Frame.has_column, Frame.item.
  destruct (Nat.ltb (Frame.index_len d) n); [discriminate|].
  intro H. inversion H as [Hr]. clear H.
  rewrite (dict_get_map_snd (fun c => nth (Frame.index_len d - n) c NaN)).
  destruct (dict_get (Frame.columns d) k); [|discriminate].
  intros _. eexists. reflexivity.
Qed.

Lemma iloc_back_in_range (d : DataFrame) (n : nat) :
  (n <= Frame.len d)%nat -> exists row, Frame.iloc_back d n = inr row.
Proof.
  intro H. unfold Frame.iloc_back, Frame.len in *.
  destruct (Nat.ltb (Frame.index_len d) n) eqn:E.
  - apply Nat.ltb_lt in E. lia.
  - eexists. reflexivity.
Qed.

Lemma not_empty_len (d : DataFrame) :
  Frame.empty d = false -> (1 <= Frame.len d)%nat.
Proof.
  unfold Frame.empty, Frame.len. intro H.
  apply orb_false_iff in H. destruct H as [H _].
  apply Nat.eqb_neq in H. lia.
Qed.

(** The frame of a symbol whose last row has every price and the volume
    [volume]. *)
Definition complete_frame (d : DataFrame) (volume : float) : Prop :=
  Frame.empty d = false
  /\ Forall (fun k => Frame.has_column d k = true)
            ["Open"; "High"; "Low"; "Close"]
  /\ exists latest,
       Frame.iloc_back d 1 = inr latest
       /\ Frame.item latest "Volume" = inr volume.

Lemma read_row_complete (d : DataFrame) (volume : float) :
  complete_frame d volume ->
  exists current_price day_change_pct high_proximity,
    Fetcher.read_row d
    = inr (current_price, day_change_pct, high_proximity, volume).
Proof.
  intros [He [Hcols [latest [Hl Hv]]]].
  inversion Hcols as [|? ? Ho Hcols1]. subst.
  inversion Hcols1 as [|? ? Hh Hcols2]. subst.
  inversion Hcols2 as [|? ? Hlo Hcols3]. subst.
  inversion Hcols3 as [|? ? Hc _]. subst.
  destruct (item_of_has_column _ _ _ _ Hl Ho) as [o Eo].
  destruct (item_of_has_column _ _ _ _ Hl Hh) as [h Eh].
  destruct (item_of_has_column _ _ _ _ Hl Hlo) as [l El].
  destruct (item_of_has_column _ _ _ _ Hl Hc) as [c Ec].
  unfold Fetcher.read_row. rewrite Hl. cbn [bind Monad_either].
  destruct (Nat.leb 2 (Frame.len d)) eqn:E2.
  - apply Nat.leb_le in E2.
    destruct (iloc_back_in_range d 2 E2) as [prev Hp].
    destruct (item_of_has_column _ _ _ _ Hp Hc) as [pc Epc].
    rewrite Hp. cbn [bind Monad_either].
    rewrite Epc, Ec, Eh, El, Eo, Hv. cbn [bind ret Monad_either].
    do 3 eexists. reflexivity.
  - rewrite Eo, Ec, Eh, El, Hv. cbn [bind ret Monad_either].
    do 3 eexists. reflexivity.
Qed.

Lemma current_row_complete (suffix symbol : string) (d : DataFrame)
  (volume : float) :
  complete_frame d volume ->
  match Fetcher.int_of volume with
  | inl e => Fetcher.current_row suffix symbol (inr d) = Fetcher.Escaped e
  | inr _ => exists s, Fetcher.current_row suffix symbol (inr d) = Fetcher.Row s
  end.
Proof.
  intro H. destruct (read_row_complete d volume H) as [c [dc [hp Hr]]].
  destruct H as [He _]. pose proof (not_empty_len d He) as Hlen.
  unfold Fetcher.current_row. rewrite He, Hr.
  replace (Nat.ltb (Frame.len d) 1) with false
    by (symmetry; apply Nat.ltb_ge; exact Hlen).
  cbn [orb].
  destruct (Fetcher.int_of volume); [reflexivity | eexists; reflexivity].
Qed.

Lemma escape_aborts_loop (suffix : string) (frames : string -> exc DataFrame)
  (symbols : list string) (symbol : string) (e : Fetcher.escape) :
  In symbol symbols ->
  Fetcher.current_row suffix symbol (frames symbol) = Fetcher.Escaped e ->
  forall results, Fetcher.current_rows suffix frames symbols results = None.
Proof.
  intros Hin He. induction symbols as [|x symbols IH]; [contradiction|].
  intro results. cbn [Fetcher.current_rows].
  destruct Hin as [->|Hin].
  - rewrite He. reflexivity.
  - destruct (Fetcher.current_row suffix x (frames x));
      [apply IH, Hin | apply IH, Hin | reflexivity].
Qed.

(** One symbol whose last row has every price but a volume that is NaN or
    infinite empties the whole batch: [int(latest['Volume'])] raises an
    exception that the per-symbol handler does not catch, the outer handler
    returns the empty dictionary, and the snapshots already stored for the
    other symbols are dropped.  A BTST scan on such a batch has no
    candidate. *)
Theorem unreadable_volume_empties_batch (suffix : string)
  (frames : string -> exc DataFrame) (symbols : list string)
  (symbol : string) (d : DataFrame) (volume : float) :
  In symbol symbols ->
  frames symbol = inr d ->
  complete_frame d volume ->
  (forall q, volume <> Fin q) ->
  Fetcher.batch_fetch_current_data suffix (Some frames) symbols = []
  /\ forall fetcher criteria max_results,
      batch_fetch_current_data fetcher symbols
      = Fetcher.batch_fetch_current_data suffix (Some frames) symbols ->
      BTST.scan_for_btst fetcher criteria (Some symbols) max_results = [].
Proof.
  intros Hin Hf Hd Hv.
  assert (Hb : Fetcher.batch_fetch_current_data suffix (Some frames) symbols
               = []).
  { pose proof (current_row_complete suffix symbol d volume Hd) as Hrow.
    destruct (Fetcher.int_of volume) as [e|z] eqn:Ei.
    - unfold Fetcher.batch_fetch_current_data.
      rewrite <- Hf in Hrow.
      rewrite (escape_aborts_loop _ _ _ _ _ Hin Hrow). reflexivity.
    - destruct volume as [q| | |]; try discriminate.
      exfalso. apply (Hv q). reflexivity. }
  split; [exact Hb|].
  intros fetcher criteria max_results Hfetch.
  unfold BTST.scan_for_btst. cbn [get_or].
  rewrite Hfetch, Hb. reflexivity.
Qed.

(** Two symbols; the last row of the second has no volume. *)
Definition day_frame (volume : float) : DataFrame := {|
  Frame.index_len := 2;
  Frame.columns :=
    [("Open", [of_Z 100; of_Z 101]); ("High", [of_Z 102; of_Z 104]);
     ("Low", [of_Z 99; of_Z 100]); ("Close", [of_Z 100; of_Z 103]);
     ("Volume", [of_Z 5000; volume])]
|}.

Definition gappy_download (symbol : string) : exc DataFrame :=
  if String.eqb symbol "TCS.NS" then inr (day_frame (of_Z 7000))
  else if String.eqb symbol "INFY.NS" then inr (day_frame NaN)
  else inl (KeyError symbol).

Lemma unreadable_volume_empties_batch_witness :
  Fetcher.batch_fetch_current_data ".NS" (Some gappy_download)
    ["TCS.NS"; "INFY.NS"] = []
  /\ forall fetcher criteria max_results,
      batch_fetch_current_data fetcher ["TCS.NS"; "INFY.NS"]
      = Fetcher.batch_fetch_current_data ".NS" (Some gappy_download)
          ["TCS.NS"; "INFY.NS"] ->
      BTST.scan_for_btst fetcher criteria (Some ["TCS.NS"; "INFY.NS"])
        max_results = [].
Proof.
  apply (unreadable_volume_empties_batch ".NS" gappy_download
           ["TCS.NS"; "INFY.NS"] "INFY.NS" (day_frame NaN) NaN).
  - right. left. reflexivity.
  - reflexivity.
  - split; [reflexivity|]. split.
    + repeat constructor.
    + eexists. split; reflexivity.
  - discriminate.
Defined.

End FetcherFacts.

(** ** The high proximity of a snapshot *)

Module SnapshotFacts.

Import Float FloatFacts.
Local Open Scope float_scope.

Lemma read_row_inv (d : DataFrame) (cp dc hp v : float) :
  Fetcher.read_row d = inr (cp, dc, hp, v) ->
  exists latest high low,
    Frame.iloc_back d 1 = inr latest
    /\ Frame.item latest "Close" = inr cp
    /\ Frame.item latest "High" = inr high
    /\ Frame.item latest "Low" = inr low
    /\ hp = (if Fetcher.neqb high low
             then ((cp - low) / (high - low)) * of_Z 100
             else of_Z 0).
Proof.
  unfold Fetcher.read_row.
  destruct (Frame.iloc_back d 1) as [e|latest] eqn:Hl; [discriminate|].
  cbn [bind Monad_either].
  destruct (if Nat.leb 2 (Frame.len d) then _ else _) as [e|pc];
    [discriminate|].
  destruct (Frame.item latest "Close") as [e|c] eqn:Ec; [discriminate|].
  destruct (Frame.item latest "High") as [e|h] eqn:Eh; [discriminate|].
  destruct (Frame.item latest "Low") as [e|l] eqn:El; [discriminate|].
  destruct (Frame.item latest "Open") as [e|o]; [discriminate|].
  destruct (Frame.item latest "Volume") as [e|vol]; [discriminate|].
  cbn [ret Monad_either]. intro H. inversion H. subst.
  exists latest, h, l. repeat split; reflexivity || assumption.
Qed.

Lemma round_within_percent (q : Q) :
  (0 <= q <= 100)%Q -> AverageFacts.within 0 100 (round (Fin q) 2).
Proof.
  intros [H0 H1].
  pose proof (RoundingFacts.round_mono 0 q 2 H0) as L.
  pose proof (RoundingFacts.round_mono q 100 2 H1) as U.
  change (round (Fin 0) 2) with (Fin 0) in L.
  change (round (Fin 100) 2) with (Fin 100) in U.
  destruct (round (Fin q) 2) as [r| | |] eqn:E; try discriminate.
  cbn [leb] in L, U. apply Qle_bool_iff in L. apply Qle_bool_iff in U.
  split; assumption.
Qed.

Lemma proximity_fraction (low close high : Q) :
  (low <= close <= high)%Q -> ~ (high == low)%Q ->
  exists q, ((Fin close - Fin low) / (Fin high - Fin low)) * of_Z 100 = Fin q
            /\ (0 <= q <= 100)%Q.
Proof.
  intros [H1 H2] Hne. unfold of_Z. cbn [sub neg add].
  assert (Hpos : (0 < Qred (high + - low))%Q).
  { rewrite Qred_correct.
    destruct (Qlt_le_dec low high) as [Hlt|Hle]; [lra|].
    exfalso. apply Hne. apply Qle_antisym; [exact Hle | lra]. }
  cbn [div].
  destruct (Qeq_bool (Qred (high + - low)) 0) eqn:E.
  { apply Qeq_bool_iff in E. rewrite E in Hpos.
    exfalso. apply (Qlt_irrefl 0 Hpos). }
  cbn [mul]. eexists. split; [reflexivity|].
  rewrite !Qred_correct. rewrite Qred_correct in Hpos.
  change (inject_Z 100) with 100%Q.
  assert (Hf0 : (0 <= (close + - low) / (high + - low))%Q).
  { apply Qle_shift_div_l; [exact Hpos|]. lra. }
  assert (Hf1 : ((close + - low) / (high + - low) <= 1)%Q).
  { apply Qle_shift_div_r; [exact Hpos|]. lra. }
  generalize dependent ((close + - low) / (high + - low))%Q.
  intros x Hx0 Hx1. split; lra.
Qed.

(** When the last row has finite prices with low <= close <= high, the
    high proximity of the stored snapshot is finite and lies within
    [0, 100]; on a bar whose high equals its low it is 0 and no division
    takes place. *)
Theorem high_proximity_within_bounds (suffix symbol : string) (d : DataFrame)
  (s : Snapshot.t) (latest : Series) (low close high : Q) :
  Fetcher.current_row suffix symbol (inr d) = Fetcher.Row s ->
  Frame.iloc_back d 1 = inr latest ->
  Frame.item latest "Low" = inr (Fin low) ->
  Frame.item latest "Close" = inr (Fin close) ->
  Frame.item latest "High" = inr (Fin high) ->
  (low <= close <= high)%Q ->
  AverageFacts.within 0 100 (Snapshot.high_proximity_pct s)
  /\ ((high == low)%Q -> Snapshot.high_proximity_pct s = of_Z 0).
Proof.
  intros Hrow Hl Hlow Hclose Hhigh Hb.
  unfold Fetcher.current_row in Hrow.
  destruct (Frame.empty d || Nat.ltb (Frame.len d) 1); [discriminate|].
  destruct (Fetcher.read_row d) as [e|[[[cp dc] hp] v]] eqn:Hr;
    [discriminate|].
  destruct (Fetcher.int_of v); [discriminate|].
  inversion Hrow. subst s. clear Hrow. cbn [Snapshot.high_proximity_pct].
  destruct (read_row_inv _ _ _ _ _ Hr)
    as [latest' [h [l [Hl' [Ec [Eh [El Ehp]]]]]]].
  rewrite Hl in Hl'. inversion Hl'. subst latest'.
  rewrite Hclose in Ec. rewrite Hhigh in Eh. rewrite Hlow in El.
  inversion Ec. inversion Eh. inversion El. subst cp h l hp.
  cbn [Fetcher.neqb].
  destruct (Qeq_bool high low) eqn:E; cbn [negb].
  - split; [|intros _; reflexivity].
    apply (round_within_percent 0). split; discriminate.
  - assert (Hne : ~ (high == low)%Q).
    { intro X. apply Qeq_bool_iff in X. congruence. }
    destruct (proximity_fraction low close high Hb Hne) as [q [-> Hq]].
    split; [apply round_within_percent, Hq | intro X; contradiction].
Qed.

Lemma high_proximity_within_bounds_witness :
  exists s,
    Fetcher.current_row ".NS" "TCS.NS" (inr (FetcherFacts.day_frame (of_Z 7000)))
    = Fetcher.Row s
    /\ AverageFacts.within 0 100 (Snapshot.high_proximity_pct s).
Proof.
  assert (Hb : (inject_Z 100 <= inject_Z 103 <= inject_Z 104)%Q)
    by (split; discriminate).
  eexists. split; [reflexivity|].
  exact (proj1 (high_proximity_within_bounds ".NS" "TCS.NS"
                  (FetcherFacts.day_frame (of_Z 7000)) _ _
                  (inject_Z 100) (inject_Z 103) (inject_Z 104)
                  eq_refl eq_refl eq_refl eq_refl eq_refl Hb)).
Defined.

End SnapshotFacts.

(** ** BTST without a usable history *)

Module BTSTHistoryFacts.

Import Float FloatFacts BTST.
Local Open Scope float_scope.

Lemma btst_without_history_witness :
  exists passes score reason,
    check_btst_criteria Config_BTST
      (BTSTFacts.snapshot_of (dec 25 1) (dec 95 0)) None
      (BTSTFacts.sector_only "Energy")
    = inr (passes, score, reason)
    /\ (score <= 60)%Z
    /\ (passes = true <->
        (Snapshot.day_change_pct (BTSTFacts.snapshot_of (dec 25 1) (dec 95 0))
         <=? dec 35 1) = true
        /\ (Snapshot.high_proximity_pct
              (BTSTFacts.snapshot_of (dec 25 1) (dec 95 0)) >=? of_Z 90) = true
        /\ Str.list_mem
             (get_or (Fundamentals.sector (BTSTFacts.sector_only "Energy"))
                "Unknown")
             BTST_EXCLUDED_SECTORS = false)
    /\ (passes = true -> score = 60%Z).
Proof.
  apply (BTSTFacts.btst_without_history
           (BTSTFacts.snapshot_of (dec 25 1) (dec 95 0)) None
           (BTSTFacts.sector_only "Energy")).
  - exact I.
  - reflexivity.
Defined.

End BTSTHistoryFacts.

(** ** The fundamental filter of the swing scans *)

Module FilterFacts.

Import Float FloatFacts.
Local Open Scope float_scope.

Lemma filtered_key_entry {A : Type} (p : string * A -> bool) (d : dict A)
  (k : string) :
  NoDup (dict_keys d) -> In k (dict_keys (filter p d)) ->
  exists v, dict_get d k = Some v /\ p (k, v) = true.
Proof.
  intros Hnd Hin. unfold dict_keys in Hin.
  apply in_map_iff in Hin. destruct Hin as [[k' v] [Hk Hin]].
  cbn [fst] in Hk. subst k'.
  apply filter_In in Hin. destruct Hin as [Hin Hp].
  exists v. split; [|exact Hp].
  apply FetcherFacts.NoDup_dict_get; assumption.
Qed.

Lemma swing_candidate_fundamentals (criteria : Swing.SwingCriteria)
  (fd : dict Fundamentals.t) (hd : dict DataFrame) (s : string)
  (c : Swing.SwingCandidate.t) :
  Swing.analyze_symbol criteria fd hd s = inr (Some c) ->
  exists f,
    dict_get fd s = Some f
    /\ Fundamentals.market_cap f = Some (Swing.SwingCandidate.market_cap c)
    /\ Fundamentals.debt_to_equity f
       = Some (Swing.SwingCandidate.debt_to_equity c).
Proof.
  unfold Swing.analyze_symbol.
  destruct (dict_get hd s) as [df|]; [|discriminate].
  destruct (dict_get fd s) as [f|]; [|discriminate].
  destruct (Swing.check_swing_criteria criteria _ f)
    as [e|[[[passes score] entry_type] reason]]; [discriminate|].
  cbn [bind Monad_either].
  destruct passes; [|discriminate].
  destruct (match Indicators.calculate_technical_indicators _ _ _ with
            | Some d => Frame.iloc_back d 1
            | None => _ end) as [e|latest]; [discriminate|].
  destruct (Frame.item latest "Close") as [e|price]; [discriminate|].
  destruct (Swing.calculate_targets price entry_type) as [e|[target stop]];
    [discriminate|].
  destruct (Fundamentals.market_cap f) as [mc|] eqn:Emc; [|discriminate].
  destruct (Fundamentals.sector f) as [sec|] eqn:Esec; [|discriminate].
  destruct (Fundamentals.debt_to_equity f) as [de|] eqn:Ede; [|discriminate].
  destruct (Fundamentals.roe f) as [roe|] eqn:Eroe; [|discriminate].
  cbn [item_of ret Monad_either]. intro H. inversion H. subst c. clear H.
  exists f. cbn. repeat split; assumption.
Qed.

Lemma au_candidate_fundamentals
  (criteria : AustraliaSwing.AustraliaSwingCriteria)
  (fd : dict Fundamentals.t) (hd : dict DataFrame) (s : string)
  (c : AustraliaSwing.AustraliaSwingCandidate.t) :
  AustraliaSwing.analyze_symbol criteria fd hd s = inr (Some c) ->
  exists f,
    dict_get fd s = Some f
    /\ Fundamentals.market_cap f
       = Some (AustraliaSwing.AustraliaSwingCandidate.market_cap c)
    /\ Fundamentals.debt_to_equity f
       = Some (AustraliaSwing.AustraliaSwingCandidate.debt_to_equity c).
Proof.
  unfold AustraliaSwing.analyze_symbol.
  destruct (dict_get hd s) as [df|]; [|discriminate].
  destruct (dict_get fd s) as [f|]; [|discriminate].
  destruct (AustraliaSwing.check_swing_criteria criteria _ f)
    as [e|[[[[passes score] entry_type] reason] weight]]; [discriminate|].
  cbn [bind Monad_either].
  destruct passes; [|discriminate].
  destruct (match Indicators.calculate_technical_indicators _ _ _ with
            | Some d => Frame.iloc_back d 1
            | None => _ end) as [e|latest]; [discriminate|].
  destruct (Frame.item latest "Close") as [e|price]; [discriminate|].
  destruct (AustraliaSwing.calculate_targets price entry_type)
    as [e|[target stop]]; [discriminate|].
  destruct (Fundamentals.market_cap f) as [mc|] eqn:Emc; [|discriminate].
  destruct (Fundamentals.sector f) as [sec|] eqn:Esec; [|discriminate].
  destruct (Fundamentals.debt_to_equity f) as [de|] eqn:Ede; [|discriminate].
  destruct (Fundamentals.roe f) as [roe|] eqn:Eroe; [|discriminate].
  cbn [item_of ret Monad_either]. intro H. inversion H. subst c. clear H.
  exists f. cbn. repeat split; assumption.
Qed.

(** Only symbols that passed the fundamental filter are analysed: when the
    fetched fundamentals hold one entry per symbol, as a dictionary does,
    every candidate of a swing scan has a market cap of at least the floor
    and a debt to equity of at most the ceiling, so neither of them is
    NaN. *)
Theorem swing_candidates_passed_filter (fetcher : DataFetcher)
  (symbols : option (list string)) (max_results : option Z) :
  NoDup (dict_keys (batch_fetch_fundamentals fetcher
                      (get_or symbols (get_symbols fetcher)) 50)) ->
  (forall criteria,
      Forall
        (fun c =>
           (Swing.SwingCandidate.market_cap c >=? Swing.min_market_cap criteria)
           = true
           /\ (Swing.SwingCandidate.debt_to_equity c
               <=? Swing.max_debt_to_equity criteria) = true)
        (Swing.scan_for_swing fetcher criteria symbols max_results))
  /\ (forall criteria,
        Forall
          (fun c =>
             (AustraliaSwing.AustraliaSwingCandidate.market_cap c
              >=? AustraliaSwing.min_market_cap criteria) = true
             /\ (AustraliaSwing.AustraliaSwingCandidate.debt_to_equity c
                 <=? AustraliaSwing.max_debt_to_equity criteria) = true)
          (AustraliaSwing.scan_for_swing fetcher criteria symbols max_results)).
Proof.
  intro Hnd. split; intro criteria; apply Forall_forall; intros c Hc.
  - rewrite ScanFacts.scan_for_swing_ranked in Hc.
    apply ScanFacts.ranked_In in Hc. apply analyze_each_In in Hc.
    destruct Hc as [s [Hs Hbody]].
    destruct (swing_candidate_fundamentals _ _ _ _ _ Hbody)
      as [f [Hget [Hm Hd]]].
    unfold ScanFacts.swing_filtered, Swing.filter_symbols in Hs.
    destruct (filtered_key_entry _ _ _ Hnd Hs) as [v [Hv Hp]].
    rewrite Hget in Hv. inversion Hv. subst v.
    cbn [snd] in Hp. rewrite Hm, Hd in Hp. cbn [get_or] in Hp.
    apply andb_true_iff in Hp. exact Hp.
  - rewrite ScanFacts.au_scan_for_swing_ranked in Hc.
    apply ScanFacts.ranked_In in Hc. apply analyze_each_In in Hc.
    destruct Hc as [s [Hs Hbody]].
    destruct (au_candidate_fundamentals _ _ _ _ _ Hbody)
      as [f [Hget [Hm Hd]]].
    unfold ScanFacts.au_filtered, AustraliaSwing.filter_symbols in Hs.
    destruct (filtered_key_entry _ _ _ Hnd Hs) as [v [Hv Hp]].
    rewrite Hget in Hv. inversion Hv. subst v.
    cbn [snd] in Hp. rewrite Hm, Hd in Hp. cbn [get_or] in Hp.
    apply andb_true_iff in Hp. exact Hp.
Qed.

Lemma swing_candidates_passed_filter_witness :
  Forall
    (fun c =>
       (AustraliaSwing.AustraliaSwingCandidate.market_cap c
        >=? AustraliaSwing.min_market_cap AustraliaSwing.Config_SWING) = true
       /\ (AustraliaSwing.AustraliaSwingCandidate.debt_to_equity c
           <=? AustraliaSwing.max_debt_to_equity AustraliaSwing.Config_SWING)
          = true)
    (AustraliaSwing.scan_for_swing ScanFacts.tech_fetcher
       AustraliaSwing.Config_SWING None None).
Proof.
  assert (Hnd : NoDup (dict_keys (batch_fetch_fundamentals
                                    ScanFacts.tech_fetcher
                                    (get_or None
                                       (get_symbols ScanFacts.tech_fetcher))
                                    50)))
    by (repeat constructor; intros []).
  apply (proj2 (swing_candidates_passed_filter ScanFacts.tech_fetcher
                  None None Hnd)).
Defined.

End FilterFacts.

(** ** The RSI of monotone closes *)

Module SaturationFacts.

Import Float FloatFacts Indicators.
Local Open Scope float_scope.

Definition positive (x : float) : Prop :=
  match x with
  | Fin q => (0 < q)%Q
  | _ => False
  end.

Definition negative (x : float) : Prop :=
  match x with
  | Fin q => (q < 0)%Q
  | _ => False
  end.

Definition zero (x : float) : Prop :=
  match x with
  | Fin q => (q == 0)%Q
  | _ => False
  end.

(** The gain and the loss of one delta, as [where] and the negation give
    them. *)
Definition gain_of (d : float) : float := if d >? of_Z 0 then d else of_Z 0.

Definition loss_of (d : float) : float :=
  neg (if d <? of_Z 0 then d else of_Z 0).

Lemma avg_gain_map (period : nat) (close : list float) :
  IndicatorFacts.avg_gain period close
  = rolling_mean period (map gain_of (diff close)).
Proof. reflexivity. Qed.

Lemma avg_loss_map (period : nat) (close : list float) :
  IndicatorFacts.avg_loss period close
  = rolling_mean period (map loss_of (diff close)).
Proof.
  unfold IndicatorFacts.avg_loss, where_. rewrite map_map. reflexivity.
Qed.

Lemma gain_loss_of_positive (d : float) :
  positive d -> positive (gain_of d) /\ zero (loss_of d).
Proof.
  destruct d as [q| | |]; try contradiction. intro H.
  unfold gain_of, loss_of, gtb, of_Z.
  rewrite (proj2 (ltb_Fin (inject_Z 0) q) H).
  replace (Fin q <? Fin (inject_Z 0)) with false.
  - split; [exact H | reflexivity].
  - symmetry. apply ltb_Fin_false. apply Qlt_le_weak. exact H.
Qed.

Lemma gain_loss_of_negative (d : float) :
  negative d -> zero (gain_of d) /\ positive (loss_of d).
Proof.
  destruct d as [q| | |]; try contradiction. intro H.
  unfold gain_of, loss_of, gtb, of_Z.
  rewrite (proj2 (ltb_Fin q (inject_Z 0)) H).
  replace (Fin (inject_Z 0) <? Fin q) with false.
  - split; [reflexivity|]. cbn [neg positive].
    apply (Qopp_lt_compat q 0) in H. exact H.
  - symmetry. apply ltb_Fin_false. apply Qlt_le_weak. exact H.
Qed.

(** Each close is below the one before it. *)
Definition falls (a b : Q) : Prop := (b < a)%Q.

(** The deltas of a series after the first, which is undefined. *)
Lemma diff_cons (q0 : Q) (rest : list Q) :
  diff (map Fin (q0 :: rest))
  = NaN :: zip_with sub (map Fin rest) (map Fin (q0 :: rest)).
Proof. reflexivity. Qed.

Lemma rising_deltas (q0 : Q) (rest : list Q) :
  Sorted Qlt (q0 :: rest) ->
  Forall positive (zip_with sub (map Fin rest) (map Fin (q0 :: rest))).
Proof.
  revert q0. induction rest as [|q1 rest IH]; intros q0 H.
  - constructor.
  - apply Sorted_inv in H. destruct H as [Hs Hh]. apply HdRel_inv in Hh.
    unfold zip_with in *. cbn [map combine fst snd]. constructor.
    + cbn [sub neg add positive]. rewrite Qred_correct. lra.
    + apply (IH q1 Hs).
Qed.

Lemma falling_deltas (q0 : Q) (rest : list Q) :
  Sorted falls (q0 :: rest) ->
  Forall negative (zip_with sub (map Fin rest) (map Fin (q0 :: rest))).
Proof.
  revert q0. induction rest as [|q1 rest IH]; intros q0 H.
  - constructor.
  - apply Sorted_inv in H. destruct H as [Hs Hh]. apply HdRel_inv in Hh.
    unfold falls in Hh.
    unfold zip_with in *. cbn [map combine fst snd]. constructor.
    + cbn [sub neg add negative]. rewrite Qred_correct. lra.
    + apply (IH q1 Hs).
Qed.

Lemma fsum_zero (l : list float) : Forall zero l -> zero (fsum l).
Proof.
  induction 1 as [|x l Hx _ IH]; [reflexivity|].
  change (fsum (x :: l)) with (x + fsum l).
  destruct x as [a| | |]; try contradiction.
  destruct (fsum l) as [b| | |]; try contradiction.
  cbn [add zero] in *. rewrite Qred_correct, Hx, IH. reflexivity.
Qed.

Lemma fsum_positive (l : list float) :
  Forall IndicatorFacts.nonneg l -> Exists positive l -> positive (fsum l).
Proof.
  intros Hn He. induction He as [x l Hx|x l _ IH].
  - inversion Hn as [|? ? _ Hl]. subst.
    pose proof (IndicatorFacts.fsum_nonneg l Hl) as Hs.
    change (fsum (x :: l)) with (x + fsum l).
    destruct x as [a| | |]; try contradiction.
    destruct (fsum l) as [b| | |]; try contradiction.
    cbn [add positive IndicatorFacts.nonneg] in *. rewrite Qred_correct. lra.
  - inversion Hn as [|? ? Hx Hl]. subst. specialize (IH Hl).
    change (fsum (x :: l)) with (x + fsum l).
    destruct x as [a| | |]; try contradiction.
    destruct (fsum l) as [b| | |]; try contradiction.
    cbn [add positive IndicatorFacts.nonneg] in *. rewrite Qred_correct. lra.
Qed.

Lemma count_positive (n : nat) :
  (1 <= n)%nat ->
  (0 < inject_Z (Z.of_nat n))%Q
  /\ Qeq_bool (inject_Z (Z.of_nat n)) 0 = false.
Proof.
  intro H.
  assert (Hp : (0 < inject_Z (Z.of_nat n))%Q).
  { change 0%Q with (inject_Z 0). rewrite <- Zlt_Qlt. lia. }
  split; [exact Hp|].
  destruct (Qeq_bool (inject_Z (Z.of_nat n)) 0) eqn:E; [|reflexivity].
  apply Qeq_bool_iff in E. rewrite E in Hp.
  exfalso. apply (Qlt_irrefl 0 Hp).
Qed.

Lemma mean_zero (l : list float) :
  (1 <= List.length l)%nat -> Forall zero l -> zero (mean l).
Proof.
  intros Hl H. pose proof (fsum_zero l H) as Hs. unfold mean, Indicators.of_nat, of_Z.
  destruct (count_positive _ Hl) as [Hp Hq].
  destruct (fsum l) as [s| | |]; try contradiction.
  cbn [div]. rewrite Hq. cbn [zero] in *. rewrite Qred_correct, Hs.
  unfold Qdiv. apply Qmult_0_l.
Qed.

Lemma mean_positive (l : list float) :
  Forall IndicatorFacts.nonneg l -> Exists positive l -> positive (mean l).
Proof.
  intros Hn He. pose proof (fsum_positive l Hn He) as Hs.
  assert (Hl : (1 <= List.length l)%nat).
  { destruct He; cbn; lia. }
  unfold mean, Indicators.of_nat, of_Z.
  destruct (count_positive _ Hl) as [Hp Hq].
  destruct (fsum l) as [s| | |]; try contradiction.
  cbn [div]. rewrite Hq. cbn [positive] in *. rewrite Qred_correct.
  apply Qlt_shift_div_l; [exact Hp|]. rewrite Qmult_0_l. exact Hs.
Qed.

Lemma window_length (w i : nat) (l : list float) :
  (w <= i + 1)%nat -> (i < List.length l)%nat ->
  List.length (window w i l) = w.
Proof.
  intros Hw Hi. unfold window. rewrite length_skipn, length_firstn. lia.
Qed.

Lemma window_last (w i : nat) (l : list float) :
  (1 <= w)%nat -> (w <= i + 1)%nat -> (i < List.length l)%nat ->
  In (nth i l NaN) (window w i l).
Proof.
  intros H1 Hw Hi.
  assert (E : nth (w - 1) (window w i l) NaN = nth i l NaN).
  { unfold window. rewrite nth_skipn, nth_firstn.
    replace (i + 1 - w + (w - 1))%nat with i by lia.
    replace (Nat.ltb i (i + 1)) with true
      by (symmetry; apply Nat.ltb_lt; lia).
    reflexivity. }
  rewrite <- E. apply nth_In. rewrite window_length by assumption. lia.
Qed.

Lemma window_Forall (P : float -> Prop) (w i : nat) (l : list float) :
  Forall P l -> Forall P (window w i l).
Proof.
  intro H. apply Forall_forall. intros x Hx.
  rewrite Forall_forall in H. apply H.
  eapply IndicatorFacts.window_incl. exact Hx.
Qed.

Lemma rolling_mean_at (w i : nat) (l : list float) :
  (w <= i + 1)%nat -> (i < List.length l)%nat ->
  nth i (rolling_mean w l) NaN = mean (window w i l).
Proof.
  intros Hw Hi. unfold rolling_mean.
  rewrite IndicatorFrameFacts.nth_map_seq by exact Hi.
  replace (Nat.ltb (i + 1) w) with false
    by (symmetry; apply Nat.ltb_ge; exact Hw).
  reflexivity.
Qed.

Lemma nth_rsi (period : nat) (close : list float) (i : nat) :
  (i < List.length close)%nat ->
  nth_error (rsi period close) i
  = Some (IndicatorFacts.rsi_of
            (nth i (IndicatorFacts.avg_gain period close) NaN)
            (nth i (IndicatorFacts.avg_loss period close) NaN)).
Proof.
  intro Hi.
  rewrite (nth_error_nth' (rsi period close) NaN)
    by (rewrite IndicatorFrameFacts.length_rsi; exact Hi).
  f_equal. rewrite IndicatorFacts.rsi_unfold.
  change NaN with ((fun p => IndicatorFacts.rsi_of (fst p) (snd p)) (NaN, NaN))
    at 1.
  rewrite map_nth, combine_nth; [reflexivity|].
  unfold IndicatorFacts.avg_gain, IndicatorFacts.avg_loss, where_.
  rewrite !IndicatorFrameFacts.length_rolling_mean, !length_map. reflexivity.
Qed.

Lemma rsi_of_gain_only (g l : float) :
  positive g -> zero l -> IndicatorFacts.rsi_of g l = of_Z 100.
Proof.
  destruct g as [g| | |]; try contradiction.
  destruct l as [l| | |]; try contradiction.
  cbn [positive zero]. intros Hg Hl.
  unfold IndicatorFacts.rsi_of. cbn [div].
  apply Qeq_bool_iff in Hl. rewrite Hl.
  assert (Hs : exists p, Qnum g = Zpos p).
  { destruct g as [[|p|p] gd]; unfold Qlt in Hg; cbn in Hg; try lia.
    exists p. reflexivity. }
  destruct Hs as [p Hp]. unfold Qsgn. rewrite Hp. reflexivity.
Qed.

Lemma rsi_of_loss_only (g l : float) :
  zero g -> positive l -> IndicatorFacts.rsi_of g l = of_Z 0.
Proof.
  destruct g as [g| | |]; try contradiction.
  destruct l as [l| | |]; try contradiction.
  cbn [positive zero]. intros Hg Hl.
  unfold IndicatorFacts.rsi_of, of_Z. cbn [div].
  destruct (Qeq_bool l 0) eqn:E.
  { apply Qeq_bool_iff in E. rewrite E in Hl.
    exfalso. apply (Qlt_irrefl 0 Hl). }
  cbn [add].
  assert (H1 : (Qred (inject_Z 1 + Qred (g / l)) == 1)%Q).
  { rewrite !Qred_correct, Hg. unfold Qdiv. rewrite Qmult_0_l. reflexivity. }
  cbn [div].
  destruct (Qeq_bool (Qred (inject_Z 1 + Qred (g / l))) 0) eqn:E1.
  { apply Qeq_bool_iff in E1. rewrite E1 in H1. discriminate H1. }
  cbn [sub neg add]. f_equal.
  change (inject_Z 0) with (Qred 0). apply Qred_complete.
  rewrite Qred_correct, H1. reflexivity.
Qed.

Lemma nth_diff_tail (q0 : Q) (rest : list Q) (i : nat) (P : float -> Prop) :
  Forall P (zip_with sub (map Fin rest) (map Fin (q0 :: rest))) ->
  (1 <= i)%nat -> (i < List.length (q0 :: rest))%nat ->
  P (nth i (diff (map Fin (q0 :: rest))) NaN).
Proof.
  intros H H1 Hi. rewrite diff_cons.
  destruct i as [|j]; [lia|]. cbn [nth].
  rewrite Forall_forall in H. apply H. apply nth_In.
  rewrite IndicatorFrameFacts.length_zip_with, !length_map.
  cbn [List.length] in *. lia.
Qed.

(** On strictly rising closes every loss is zero and every gain after the
    first row is positive; on strictly falling closes it is the other way
    round. *)
Lemma rsi_of_rising (period : nat) (qs : list Q) (i : nat) :
  (1 <= period)%nat -> (period <= i + 1)%nat -> (1 <= i)%nat ->
  (i < List.length qs)%nat -> Sorted Qlt qs ->
  nth_error (rsi period (map Fin qs)) i = Some (of_Z 100).
Proof.
  intros Hp Hw H1 Hi Hs.
  assert (Hlen : (i < List.length (map Fin qs))%nat)
    by (rewrite length_map; exact Hi).
  rewrite nth_rsi by exact Hlen. f_equal.
  rewrite avg_gain_map, avg_loss_map.
  assert (Hd : (i < List.length (diff (map Fin qs)))%nat)
    by (rewrite IndicatorFrameFacts.length_diff; exact Hlen).
  rewrite !rolling_mean_at by (rewrite ?length_map; assumption).
  destruct qs as [|q0 rest]; [cbn in Hi; lia|].
  pose proof (rising_deltas q0 rest Hs) as Hdelta.
  apply rsi_of_gain_only.
  - apply mean_positive.
    + apply window_Forall. apply (IndicatorFacts.gains_nonneg (q0 :: rest)).
    + apply Exists_exists.
      exists (nth i (map gain_of (diff (map Fin (q0 :: rest)))) NaN).
      split; [apply window_last; rewrite ?length_map; assumption|].
      rewrite (nth_indep _ NaN (gain_of NaN)) by (rewrite length_map; exact Hd).
      rewrite map_nth.
      apply gain_loss_of_positive.
      apply (nth_diff_tail q0 rest i positive Hdelta H1 Hi).
  - apply mean_zero.
    + rewrite window_length by (rewrite ?length_map; assumption). exact Hp.
    + apply window_Forall. apply Forall_map. rewrite diff_cons.
      constructor; [reflexivity|].
      eapply Forall_impl; [|exact Hdelta].
      intros d Hdp. apply gain_loss_of_positive. exact Hdp.
Qed.

Lemma rsi_of_falling (period : nat) (qs : list Q) (i : nat) :
  (1 <= period)%nat -> (period <= i + 1)%nat -> (1 <= i)%nat ->
  (i < List.length qs)%nat -> Sorted falls qs ->
  nth_error (rsi period (map Fin qs)) i = Some (of_Z 0).
Proof.
  intros Hp Hw H1 Hi Hs.
  assert (Hlen : (i < List.length (map Fin qs))%nat)
    by (rewrite length_map; exact Hi).
  rewrite nth_rsi by exact Hlen. f_equal.
  rewrite avg_gain_map, avg_loss_map.
  assert (Hd : (i < List.length (diff (map Fin qs)))%nat)
    by (rewrite IndicatorFrameFacts.length_diff; exact Hlen).
  rewrite !rolling_mean_at by (rewrite ?length_map; assumption).
  destruct qs as [|q0 rest]; [cbn in Hi; lia|].
  pose proof (falling_deltas q0 rest Hs) as Hdelta.
  apply rsi_of_loss_only.
  - apply mean_zero.
    + rewrite window_length by (rewrite ?length_map; assumption). exact Hp.
    + apply window_Forall. apply Forall_map. rewrite diff_cons.
      constructor; [reflexivity|].
      eapply Forall_impl; [|exact Hdelta].
      intros d Hdn. apply gain_loss_of_negative. exact Hdn.
  - apply mean_positive.
    + apply window_Forall.
      rewrite <- map_map with (f := fun d => if d <? of_Z 0 then d else of_Z 0)
                              (g := neg).
      apply (IndicatorFacts.losses_nonneg (q0 :: rest)).
    + apply Exists_exists.
      exists (nth i (map loss_of (diff (map Fin (q0 :: rest)))) NaN).
      split; [apply window_last; rewrite ?length_map; assumption|].
      rewrite (nth_indep _ NaN (loss_of NaN)) by (rewrite length_map; exact Hd).
      rewrite map_nth.
      apply gain_loss_of_negative.
      apply (nth_diff_tail q0 rest i negative Hdelta H1 Hi).
Qed.

(** On a history of strictly rising closes the RSI column is exactly 100 on
    every row where the window is full (from the second row on), and on a
    history of strictly falling closes it is exactly 0: the division by a
    zero average loss gives an infinity, not an error. *)
Theorem rsi_saturates_on_monotone_closes (tech : TechnicalParams)
  (market : string) (df : DataFrame) (closes : list Q) :
  (1 <= rsi_period tech)%nat ->
  Frame.empty df = false ->
  Frame.column df "Close" = inr (map Fin closes) ->
  exists df' rs,
    calculate_technical_indicators tech market (Some df) = Some df'
    /\ Frame.column df' "RSI" = inr rs
    /\ (Sorted Qlt closes ->
        forall i, (1 <= i)%nat -> (rsi_period tech <= i + 1)%nat ->
                  (i < List.length closes)%nat ->
                  nth_error rs i = Some (of_Z 100))
    /\ (Sorted falls closes ->
        forall i, (1 <= i)%nat -> (rsi_period tech <= i + 1)%nat ->
                  (i < List.length closes)%nat ->
                  nth_error rs i = Some (of_Z 0)).
Proof.
  intros Hp He Hc.
  destruct (IndicatorFrameFacts.run_on_close tech market df _ He Hc)
    as [df' [Hcalc Hcols]].
  exists df', (rsi (rsi_period tech) (map Fin closes)).
  split; [exact Hcalc|]. split; [apply Hcols|]. split.
  - intros Hs i H1 Hw Hi. apply rsi_of_rising; assumption.
  - intros Hs i H1 Hw Hi. apply rsi_of_falling; assumption.
Qed.

(** Sixteen closes that rise by one each row. *)
Definition staircase : list Q := map (fun i => inject_Z (Z.of_nat i)) (seq 1 16).

Definition staircase_frame : DataFrame := {|
  Frame.index_len := 16;
  Frame.columns := [("Close", map Fin staircase)]
|}.

Lemma rsi_saturates_on_monotone_closes_witness :
  exists df' rs,
    calculate_technical_indicators TECHNICAL "india" (Some staircase_frame)
    = Some df'
    /\ Frame.column df' "RSI" = inr rs
    /\ nth_error rs 15 = Some (of_Z 100).
Proof.
  destruct (rsi_saturates_on_monotone_closes TECHNICAL "india" staircase_frame
              staircase)
    as [df' [rs [H1 [H2 [H3 _]]]]].
  - cbn. lia.
  - reflexivity.
  - reflexivity.
  - exists df', rs. split; [exact H1|]. split; [exact H2|].
    apply H3.
    + repeat (constructor; try reflexivity).
    + lia.
    + cbn. lia.
    + cbn. lia.
Defined.

End SaturationFacts.

(** ** The 52-week high of the Australian market *)

Module WeekHighFacts.

Import Float FloatFacts Indicators.
Local Open Scope float_scope.

Lemma fold_fmax_bound (qs : list Q) (a : Q) :
  exists m, fold_left fmax (map Fin qs) (Fin a) = Fin m
            /\ (a <= m)%Q /\ Forall (fun q => (q <= m)%Q) qs.
Proof.
  revert a. induction qs as [|q qs IH]; intro a; cbn [map fold_left].
  - exists a. split; [reflexivity|]. split; [apply Qle_refl | constructor].
  - unfold fmax at 2. destruct (Fin a <? Fin q) eqn:E.
    + apply ltb_Fin in E.
      destruct (IH q) as [m [Hm [Hq Hall]]]. exists m.
      split; [exact Hm|]. split; [lra|]. constructor; assumption.
    + apply ltb_Fin_false in E.
      destruct (IH a) as [m [Hm [Ha Hall]]]. exists m.
      split; [exact Hm|]. split; [exact Ha|]. constructor; [lra | exact Hall].
Qed.

Lemma filter_finite (qs : list Q) :
  filter (fun x => negb (is_nan x)) (map Fin qs) = map Fin qs.
Proof.
  induction qs as [|q qs IH]; [reflexivity|].
  cbn [map filter is_nan negb]. rewrite IH. reflexivity.
Qed.

Lemma window_map (w i : nat) (qs : list Q) :
  window w i (map Fin qs)
  = map Fin (skipn (i + 1 - w) (firstn (i + 1) qs)).
Proof. unfold window. rewrite firstn_map, skipn_map. reflexivity. Qed.

(** The rolling maximum of finite values: undefined on a window of fewer
    than [minp] values, otherwise a value of at least the last one. *)
Lemma rolling_max_at (w minp : nat) (qs : list Q) (i : nat) :
  (1 <= w)%nat -> (i < List.length qs)%nat ->
  (Nat.min w (i + 1) < minp)%nat
  /\ nth i (rolling_extremum fmax w minp (map Fin qs)) NaN = NaN
  \/ (minp <= Nat.min w (i + 1))%nat
     /\ exists m, nth i (rolling_extremum fmax w minp (map Fin qs)) NaN = Fin m
                  /\ (nth i qs 0 <= m)%Q.
Proof.
  intros Hw Hi. unfold rolling_extremum.
  rewrite IndicatorFrameFacts.nth_map_seq by (rewrite length_map; exact Hi).
  cbv zeta. rewrite window_map, filter_finite, length_map.
  set (win := skipn (i + 1 - w) (firstn (i + 1) qs)).
  assert (Hlen : List.length win = Nat.min w (i + 1)).
  { unfold win. rewrite length_skipn, length_firstn. lia. }
  assert (Hin : In (nth i qs 0%Q) win).
  { assert (E : nth (Nat.min w (i + 1) - 1) win 0%Q = nth i qs 0%Q).
    { unfold win. rewrite nth_skipn, nth_firstn.
      replace (i + 1 - w + (Nat.min w (i + 1) - 1))%nat with i by lia.
      replace (Nat.ltb i (i + 1)) with true
        by (symmetry; apply Nat.ltb_lt; lia).
      reflexivity. }
    rewrite <- E. apply nth_In. lia. }
  rewrite Hlen.
  destruct (Nat.ltb (Nat.min w (i + 1)) minp) eqn:E.
  - left. apply Nat.ltb_lt in E. split; [exact E | reflexivity].
  - right. apply Nat.ltb_ge in E. split; [exact E|].
    destruct win as [|x rest]; [contradiction|].
    cbn [map extremum].
    destruct (fold_fmax_bound rest x) as [m [Hm [Hx Hall]]].
    exists m. split; [exact Hm|].
    destruct Hin as [<-|Hin]; [exact Hx|].
    rewrite Forall_forall in Hall. apply Hall, Hin.
Qed.

Lemma proximity_of (c m : Q) :
  (0 < c)%Q -> (c <= m)%Q ->
  exists q, (Fin c / Fin m) * of_Z 100 = Fin q /\ (0 < q <= 100)%Q.
Proof.
  intros Hc Hm. unfold of_Z. cbn [div].
  assert (Hpos : (0 < m)%Q) by lra.
  destruct (Qeq_bool m 0) eqn:E.
  { apply Qeq_bool_iff in E. rewrite E in Hpos.
    exfalso. apply (Qlt_irrefl 0 Hpos). }
  cbn [mul]. eexists. split; [reflexivity|]. rewrite !Qred_correct.
  change (inject_Z 100) with 100%Q.
  assert (H0 : (0 < c / m)%Q).
  { apply Qlt_shift_div_l; [exact Hpos|]. lra. }
  assert (H1 : (c / m <= 1)%Q).
  { apply Qle_shift_div_r; [exact Hpos|]. lra. }
  generalize dependent (c / m)%Q. intros x Hx0 Hx1. split; lra.
Qed.

(** On an Australian history of positive finite closes (with a Volume
    column, without which the 52-week statements are not reached) the
    52W_High_Proximity column is undefined on the first 49 rows and from the
    50th row on it is a finite value above 0 and at most 100: the close is
    never above the rolling maximum of a window that contains it. *)
Theorem week_52_proximity_within_bounds (tech : TechnicalParams)
  (df : DataFrame) (closes : list Q) (volume : list float) :
  Frame.empty df = false ->
  Frame.column df "Close" = inr (map Fin closes) ->
  Frame.column df "Volume" = inr volume ->
  Forall (fun q => (0 < q)%Q) closes ->
  exists df' proximity,
    calculate_technical_indicators tech "australia" (Some df) = Some df'
    /\ Frame.column df' "52W_High_Proximity" = inr proximity
    /\ forall i v,
         nth_error proximity i = Some v ->
         ((i + 1 < 50)%nat -> v = NaN)
         /\ ((50 <= i + 1)%nat -> exists q, v = Fin q /\ (0 < q <= 100)%Q).
Proof.
  intros He Hc Hv Hpos.
  destruct (IndicatorFrameFacts.run_on_close_and_volume tech "australia" df
              _ _ He Hc Hv) as [df' [Hcalc [_ [_ H52]]]].
  cbn [String.eqb Ascii.eqb Bool.eqb] in H52.
  destruct H52 as [_ [_ Hprox]].
  eexists. eexists. split; [exact Hcalc|]. split; [exact Hprox|].
  intros i v Hi.
  assert (Hlt : (i < List.length closes)%nat).
  { assert (Hs : nth_error (map (fun x => x * of_Z 100)
                              (zip_with div (map Fin closes)
                                 (rolling_extremum fmax 252 50
                                    (map Fin closes)))) i <> None)
      by (rewrite Hi; discriminate).
    apply nth_error_Some in Hs.
    rewrite length_map, IndicatorFrameFacts.length_zip_with,
      IndicatorFrameFacts.length_rolling_extremum, length_map in Hs. lia. }
  apply (nth_error_nth _ _ NaN) in Hi.
  change NaN with ((fun x => x * of_Z 100) NaN) in Hi at 1.
  rewrite map_nth in Hi. unfold zip_with in Hi.
  change NaN with ((fun p => fst p / snd p) (NaN, NaN)) in Hi at 1.
  rewrite map_nth, combine_nth in Hi
    by (rewrite IndicatorFrameFacts.length_rolling_extremum; reflexivity).
  cbn [fst snd] in Hi.
  rewrite (nth_indep _ NaN (Fin 0)) in Hi by (rewrite length_map; exact Hlt).
  rewrite map_nth in Hi.
  assert (Hci : (0 < nth i closes 0)%Q).
  { rewrite Forall_forall in Hpos. apply Hpos. apply nth_In. exact Hlt. }
  destruct (rolling_max_at 252 50 closes i ltac:(lia) Hlt)
    as [[Hn Hnan]|[Hn [m [Hm Hle]]]].
  - rewrite Hnan in Hi. cbn in Hi. subst v.
    split; [reflexivity | intro; lia].
  - rewrite Hm in Hi. split; [intro; lia|]. intros _.
    destruct (proximity_of _ m Hci Hle) as [q [Hq Hb]].
    exists q. rewrite <- Hi. split; [exact Hq | exact Hb].
Qed.

Lemma week_52_proximity_within_bounds_witness :
  exists df' proximity,
    calculate_technical_indicators TECHNICAL "australia"
      (Some ScanFacts.rising_frame) = Some df'
    /\ Frame.column df' "52W_High_Proximity" = inr proximity
    /\ forall i v,
         nth_error proximity i = Some v ->
         ((i + 1 < 50)%nat -> v = NaN)
         /\ ((50 <= i + 1)%nat -> exists q, v = Fin q /\ (0 < q <= 100)%Q).
Proof.
  apply (week_52_proximity_within_bounds TECHNICAL ScanFacts.rising_frame
           (map (fun i => inject_Z (100 + Z.of_nat i)) (seq 1 50))
           (repeat (of_Z 100) 49 ++ [of_Z 200])%list).
  - reflexivity.
  - reflexivity.
  - reflexivity.
  - apply Forall_forall. intros q Hq. apply in_map_iff in Hq.
    destruct Hq as [n [<- _]].
    change 0%Q with (inject_Z 0). rewrite <- Zlt_Qlt. lia.
Defined.

End WeekHighFacts.

(** ** BTST: the sector penalty and short histories *)

Module BTSTPenaltyFacts.

Import Float FloatFacts Indicators BTST.
Local Open Scope float_scope.

Definition excluded (f : Fundamentals.t) : bool :=
  Str.list_mem (get_or (Fundamentals.sector f) "Unknown") BTST_EXCLUDED_SECTORS.

(** An excluded sector is a penalty of ten points, not an exclusion: with
    the same snapshot and history, the evaluation of a stock of an excluded
    sector differs from that of a stock of any other sector only by the
    ten sector points (and the sector reason), and it passes whenever the
    other checks add up to 60.  An evaluation rejected by the gain check is
    the same for both. *)
Theorem excluded_sector_is_a_penalty (criteria : BTSTCriteria)
  (current_data : Snapshot.t) (historical_df : option DataFrame)
  (f g : Fundamentals.t) :
  excluded f = true -> excluded g = false ->
  (forall r,
      gain_check criteria (Snapshot.day_change_pct current_data) = GainReject r ->
      check_btst_criteria criteria current_data historical_df f
      = check_btst_criteria criteria current_data historical_df g)
  /\ (forall pts r passes score reason,
        gain_check criteria (Snapshot.day_change_pct current_data)
        = GainAward pts r ->
        check_btst_criteria criteria current_data historical_df g
        = inr (passes, score, reason) ->
        exists reason',
          check_btst_criteria criteria current_data historical_df f
          = inr ((score - 10 >=? 60)%Z, (score - 10)%Z, reason')).
Proof.
  unfold excluded. intros Hf Hg. split.
  - intros r Hr. unfold check_btst_criteria. rewrite Hr. reflexivity.
  - intros pts r passes score reason Hr. unfold check_btst_criteria.
    rewrite Hr.
    destruct (volume_check criteria historical_df) as [e|[p1 r1]];
      [discriminate|].
    cbn [bind Monad_either].
    destruct (high_check _) as [p2 r2].
    destruct (trend_check historical_df) as [e|[p3 r3]]; [discriminate|].
    unfold sector_check. rewrite Hf, Hg. cbn [negb bind ret Monad_either].
    intro H. injection H as _ Hs _. subst score. eexists.
    replace (pts + p1 + p2 + p3 + 10 - 10)%Z
      with (0 + pts + p1 + p2 + p3 + 0)%Z by lia.
    reflexivity.
Qed.

Lemma excluded_sector_is_a_penalty_witness :
  exists reason',
    check_btst_criteria Config_BTST
      (BTSTFacts.snapshot_of (dec 25 1) (dec 95 0))
      (Some BTSTFacts.full_score_frame) (BTSTFacts.sector_only "IT")
    = inr ((100 - 10 >=? 60)%Z, (100 - 10)%Z, reason').
Proof.
  eapply (proj2 (excluded_sector_is_a_penalty Config_BTST
                   (BTSTFacts.snapshot_of (dec 25 1) (dec 95 0))
                   (Some BTSTFacts.full_score_frame)
                   (BTSTFacts.sector_only "IT")
                   (BTSTFacts.sector_only "Energy") eq_refl eq_refl)).
  - reflexivity.
  - reflexivity.
Defined.

(** [df.iloc[-1][k]] is the last value of the column [k]. *)
Lemma item_latest (d : DataFrame) (k : string) (vals : list float)
  (row : Series) (x : float) :
  Frame.column d k = inr vals -> Frame.iloc_back d 1 = inr row ->
  Frame.item row k = inr x -> x = nth (Frame.index_len d - 1) vals NaN.
Proof.
  intros Hc Hr Hi.
  pose proof (IndicatorFrameFacts.get_latest d k vals row NaN Hc Hr) as Hg.
  unfold Frame.get in Hg. unfold Frame.item in Hi.
  destruct (dict_get row k) as [y|]; [|discriminate].
  injection Hi as Hxy. rewrite <- Hxy. exact Hg.
Qed.

Lemma has_column_of_column (d : DataFrame) (k : string) :
  Frame.has_column d k = true <-> exists v, Frame.column d k = inr v.
Proof.
  unfold Frame.has_column, Frame.column.
  destruct (dict_get (Frame.columns d) k).
  - split; [intros _; eexists; reflexivity | reflexivity].
  - split; [discriminate | intros [v H]; discriminate].
Qed.

(** Where the computation assigns Volume_Ratio to a history of fewer rows
    than the volume lookback, its last value is NaN. *)
Lemma short_history_volume_ratio (df df' : DataFrame) (row : Series)
  (x : float) :
  (Frame.len df < 20)%nat ->
  Frame.has_column df "Volume_Ratio" = false ->
  calculate_technical_indicators TECHNICAL "india" (Some df) = Some df' ->
  Frame.iloc_back df' 1 = inr row ->
  Frame.item row "Volume_Ratio" = inr x ->
  x = NaN.
Proof.
  intros Hlen Hno Hcalc Hrow Hitem.
  pose proof (iloc_back_item_has_column _ _ _ _ _ Hrow Hitem) as Hhas.
  assert (Hkeep : forall d,
             calculate_technical_indicators TECHNICAL "india" (Some df)
             = Some d ->
             Frame.column d "Volume_Ratio" = Frame.column df "Volume_Ratio" ->
             False).
  { intros d Hd Hsame. rewrite Hd in Hcalc. inversion Hcalc. subst d.
    apply has_column_of_column in Hhas. destruct Hhas as [v Hv].
    rewrite Hsame in Hv.
    assert (X : Frame.has_column df "Volume_Ratio" = true)
      by (apply has_column_of_column; exists v; exact Hv).
    rewrite Hno in X. discriminate. }
  destruct (Frame.empty df) eqn:He.
  { exfalso. apply (Hkeep df); [|reflexivity].
    unfold calculate_technical_indicators. rewrite He. reflexivity. }
  destruct (Frame.has_column df "Close") eqn:Hclose.
  2:{ exfalso. apply (Hkeep df); [|reflexivity].
      apply (proj1 (IndicatorFrameFacts.indicators_stop_at_missing_column
                      TECHNICAL "india" df) Hclose). }
  apply IndicatorFrameFacts.column_present in Hclose.
  destruct Hclose as [close Hc].
  destruct (Frame.has_column df "Volume") eqn:Hvol.
  2:{ exfalso.
      destruct (IndicatorFrameFacts.run_without_volume TECHNICAL "india" df
                  close He Hc Hvol) as [d [Hd [_ Hsame]]].
      apply (Hkeep d Hd).
      inversion Hsame as [|? ? _ Hrest]. subst.
      inversion Hrest as [|? ? Hvr _]. exact Hvr. }
  apply IndicatorFrameFacts.column_present in Hvol.
  destruct Hvol as [volume Hv].
  destruct (IndicatorFrameFacts.run_on_close_and_volume TECHNICAL "india" df
              close volume He Hc Hv) as [d [Hd [_ [[_ Hratio] _]]]].
  rewrite Hd in Hcalc. inversion Hcalc. subst d.
  rewrite (item_latest _ _ _ _ _ Hratio Hrow Hitem).
  change (volume_lookback TECHNICAL) with 20%nat.
  assert (Hn : Frame.index_len df' = Frame.index_len df).
  { destruct (IndicatorFrameFacts.indicators_keep_entry TECHNICAL "india" df)
      as [d [H1 [Hl _]]].
    rewrite Hd in H1. inversion H1. subst d. exact Hl. }
  rewrite Hn. unfold Frame.len in Hlen.
  set (i := (Frame.index_len df - 1)%nat).
  unfold zip_with.
  destruct (Nat.lt_ge_cases i (List.length volume)) as [Hi|Hi].
  - change NaN with ((fun p => fst p / snd p) (NaN, NaN)) at 1.
    rewrite map_nth, combine_nth
      by (rewrite IndicatorFrameFacts.length_rolling_mean; reflexivity).
    cbn [fst snd].
    rewrite IndicatorFrameFacts.rolling_mean_warmup by (unfold i; lia).
    destruct (nth i volume NaN); reflexivity.
  - apply nth_overflow.
    rewrite length_map, length_combine,
      IndicatorFrameFacts.length_rolling_mean. lia.
Qed.

(** A history of fewer than 20 rows (the volume lookback) that brings no
    Volume_Ratio column of its own never earns the 25 volume points: a BTST
    evaluation of it scores at most 85. *)
Theorem btst_short_history_caps_score (df : DataFrame) :
  (Frame.len df < 20)%nat ->
  Frame.has_column df "Volume_Ratio" = false ->
  forall criteria current_data f passes score reason,
    check_btst_criteria criteria current_data
      (calculate_technical_indicators TECHNICAL "india" (Some df)) f
    = inr (passes, score, reason) ->
    (score <= 85)%Z.
Proof.
  intros Hlen Hno criteria current_data f passes score reason.
  destruct (IndicatorFrameFacts.indicators_keep_entry TECHNICAL "india" df)
    as [df' [Hcalc _]].
  rewrite Hcalc. unfold check_btst_criteria.
  destruct (gain_check criteria _) as [g r|r] eqn:Eg.
  2:{ intro H. inversion H. lia. }
  assert (Hg : (g <= 30)%Z).
  { unfold gain_check in Eg.
    destruct (_ && _) in Eg; [inversion Eg; lia|].
    destruct (_ >? _) in Eg; inversion Eg; lia. }
  destruct (volume_check criteria (Some df')) as [e|[p1 r1]] eqn:Ev;
    [discriminate|].
  assert (Hv : (p1 <= 10)%Z).
  { unfold volume_check in Ev.
    destruct (negb (Frame.empty df')); [|inversion Ev; lia].
    destruct (Frame.iloc_back df' 1) as [e|latest] eqn:El; [discriminate|].
    cbn [bind Monad_either] in Ev.
    destruct (Frame.has_column df' "Volume_Ratio"); [|inversion Ev; lia].
    destruct (Frame.item latest "Volume_Ratio") as [e|vr] eqn:Ei;
      [discriminate|].
    cbn [bind Monad_either] in Ev.
    rewrite (short_history_volume_ratio df df' latest vr Hlen Hno Hcalc El Ei)
      in Ev.
    replace (NaN >=? min_volume_multiplier criteria) with false in Ev
      by (unfold geb; destruct (min_volume_multiplier criteria); reflexivity).
    inversion Ev. lia. }
  cbn [bind Monad_either].
  destruct (high_check _) as [p2 r2] eqn:Eh.
  assert (Hh : (p2 <= 20)%Z).
  { unfold high_check in Eh.
    destruct (_ >=? of_Z 90) in Eh; [inversion Eh; lia|].
    destruct (_ >=? of_Z 80) in Eh; inversion Eh; lia. }
  destruct (trend_check (Some df')) as [e|[p3 r3]] eqn:Et; [discriminate|].
  assert (Ht : (p3 <= 15)%Z).
  { unfold trend_check in Et.
    destruct (Frame.has_column df' "EMA_20"); [|inversion Et; lia].
    destruct (Frame.iloc_back df' 1) as [e|latest]; [discriminate|].
    cbn [bind Monad_either] in Et.
    destruct (Frame.item latest "Close") as [e|cl]; [discriminate|].
    cbn [bind Monad_either] in Et.
    destruct (Frame.item latest "EMA_20") as [e|em]; [discriminate|].
    cbn [bind Monad_either] in Et.
    destruct (cl >? em); inversion Et; lia. }
  destruct (sector_check f) as [p4 r4] eqn:Es.
  assert (Hs : (p4 <= 10)%Z).
  { unfold sector_check in Es. destruct (negb _) in Es; inversion Es; lia. }
  cbn [ret Monad_either]. intro H. inversion H. lia.
Qed.

Lemma btst_short_history_caps_score_witness :
  (85 <= 85)%Z.
Proof.
  assert (Hlen : (Frame.len ScanFacts.two_bar_frame < 20)%nat)
    by (unfold Frame.len; cbn; lia).
  eapply (btst_short_history_caps_score ScanFacts.two_bar_frame Hlen eq_refl
            Config_BTST (BTSTFacts.snapshot_of (dec 25 1) (dec 95 0))
            (BTSTFacts.sector_only "Energy")).
  vm_compute. reflexivity.
Defined.

End BTSTPenaltyFacts.

(** ** The snapshots that reach a BTST scan *)

Module SnapshotOriginFacts.

Import Float FloatFacts.
Local Open Scope float_scope.

(** A stored snapshot: made by the loop body from the frame of the symbol
    it is stored under. *)
Definition stored (suffix : string) (frames : string -> exc DataFrame)
  (symbols : list string) (k : string) (s : Snapshot.t) : Prop :=
  In k symbols
  /\ Fetcher.current_row suffix k (frames k) = Fetcher.Row s.

Lemma current_rows_stored (suffix : string) (frames : string -> exc DataFrame)
  (symbols : list string) (acc results : dict Snapshot.t) :
  Fetcher.current_rows suffix frames symbols acc = Some results ->
  forall k s, dict_get results k = Some s ->
              stored suffix frames symbols k s \/ dict_get acc k = Some s.
Proof.
  revert acc. induction symbols as [|x symbols IH]; intros acc H k s Hk.
  - cbn in H. inversion H. subst. right. exact Hk.
  - cbn [Fetcher.current_rows] in H.
    destruct (Fetcher.current_row suffix x (frames x)) as [row| |e] eqn:E;
      [| |discriminate].
    + destruct (IH _ H k s Hk) as [[Hin Hrow]|Hacc].
      * left. split; [right; exact Hin | exact Hrow].
      * rewrite FrameFacts.dict_get_set in Hacc.
        destruct (String.eqb k x) eqn:Ekx.
        -- apply String.eqb_eq in Ekx. subst x. inversion Hacc. subst row.
           left. split; [left; reflexivity | exact E].
        -- right. exact Hacc.
    + destruct (IH _ H k s Hk) as [[Hin Hrow]|Hacc].
      * left. split; [right; exact Hin | exact Hrow].
      * right. exact Hacc.
Qed.

Lemma row_fields (suffix k : string) (d : exc DataFrame) (s : Snapshot.t) :
  Fetcher.current_row suffix k d = Fetcher.Row s ->
  Snapshot.symbol s = Str.replace k suffix ""
  /\ exists frame latest close,
      d = inr frame
      /\ Frame.iloc_back frame 1 = inr latest
      /\ Frame.item latest "Close" = inr close
      /\ Snapshot.current_price s = round close 2.
Proof.
  unfold Fetcher.current_row. destruct d as [e|frame]; [discriminate|].
  destruct (Frame.empty frame || Nat.ltb (Frame.len frame) 1); [discriminate|].
  destruct (Fetcher.read_row frame) as [e|[[[cp dc] hp] v]] eqn:Hr;
    [discriminate|].
  destruct (Fetcher.int_of v); [discriminate|].
  intro H. inversion H. subst s. cbn.
  split; [reflexivity|].
  destruct (SnapshotFacts.read_row_inv _ _ _ _ _ Hr)
    as [latest [h [l [Hl [Hc _]]]]].
  exists frame, latest, cp. repeat split; assumption.
Qed.

(** Every snapshot that [batch_fetch_current_data] returns is stored under
    a requested symbol, carries that symbol without the market suffix, and
    its price is the last close of the symbol's frame rounded to 2
    decimals.  A BTST candidate therefore carries the name of a requested
    symbol, stripped of the suffix. *)
Theorem snapshots_belong_to_requested_symbols (suffix : string)
  (download : option (string -> exc DataFrame)) (symbols : list string) :
  (forall k s,
      dict_get (Fetcher.batch_fetch_current_data suffix download symbols) k
      = Some s ->
      In k symbols
      /\ Snapshot.symbol s = Str.replace k suffix ""
      /\ exists frames frame latest close,
          download = Some frames
          /\ frames k = inr frame
          /\ Frame.iloc_back frame 1 = inr latest
          /\ Frame.item latest "Close" = inr close
          /\ Snapshot.current_price s = round close 2)
  /\ (forall fetcher criteria max_results,
        batch_fetch_current_data fetcher symbols
        = Fetcher.batch_fetch_current_data suffix download symbols ->
        Forall
          (fun c => exists k,
               In k symbols
               /\ BTST.BTSTCandidate.symbol c = Str.replace k suffix "")
          (BTST.scan_for_btst fetcher criteria (Some symbols) max_results)).
Proof.
  assert (Hsnap : forall k s,
             dict_get (Fetcher.batch_fetch_current_data suffix download symbols)
                      k = Some s ->
             In k symbols
             /\ Snapshot.symbol s = Str.replace k suffix ""
             /\ exists frames frame latest close,
                 download = Some frames
                 /\ frames k = inr frame
                 /\ Frame.iloc_back frame 1 = inr latest
                 /\ Frame.item latest "Close" = inr close
                 /\ Snapshot.current_price s = round close 2).
  { intros k s. unfold Fetcher.batch_fetch_current_data.
    destruct download as [frames|]; [|discriminate].
    destruct (Fetcher.current_rows suffix frames symbols []) as [results|] eqn:E;
      [|discriminate].
    intro Hk.
    destruct (current_rows_stored _ _ _ _ _ E k s Hk) as [[Hin Hrow]|Hacc];
      [|discriminate].
    destruct (row_fields _ _ _ _ Hrow)
      as [Hsym [frame [latest [close [Hf [Hl [Hc Hp]]]]]]].
    split; [exact Hin|]. split; [exact Hsym|].
    exists frames, frame, latest, close. repeat split; assumption. }
  split; [exact Hsnap|].
  intros fetcher criteria max_results Hfetch.
  apply Forall_forall. intros c Hc.
  rewrite ScanFacts.scan_for_btst_ranked in Hc.
  apply ScanFacts.ranked_In in Hc. apply analyze_each_In in Hc.
  destruct Hc as [s [_ Hs]].
  apply BTSTOutputFacts.btst_analyze_symbol_origin in Hs.
  destruct Hs as [cd [h [f [Hget [_ [Hsym _]]]]]].
  cbn [get_or] in Hget. rewrite Hfetch in Hget.
  destruct (Hsnap s cd Hget) as [Hin [Hname _]].
  exists s. split; [exact Hin|]. rewrite Hsym. exact Hname.
Qed.

Lemma snapshots_belong_to_requested_symbols_witness :
  exists s,
    dict_get (Fetcher.batch_fetch_current_data ".NS"
                (Some (fun _ => inr (FetcherFacts.day_frame (of_Z 7000))))
                ["TCS.NS"; "INFY.NS"]) "INFY.NS" = Some s
    /\ In "INFY.NS" ["TCS.NS"; "INFY.NS"]
    /\ Snapshot.symbol s = Str.replace "INFY.NS" ".NS" "".
Proof.
  eexists. split; [reflexivity|].
  destruct (proj1 (snapshots_belong_to_requested_symbols ".NS"
                     (Some (fun _ => inr (FetcherFacts.day_frame (of_Z 7000))))
                     ["TCS.NS"; "INFY.NS"]) "INFY.NS" _ eq_refl)
    as [H1 [H2 _]].
  split; [exact H1 | exact H2].
Defined.

End SnapshotOriginFacts.
